(** * Recipe recommendation and meal-plan assembly: a shallow embedding

    The development follows two source files:
    - [src/services/recipe-recommendation-service.ts] (scoring and selection),
    - [src/context/meal-plan-provider.tsx] (the working plan and its week store),
    together with the hook [src/hooks/use-recipe-recommendation.ts] that sits
    between them, and the providers they read from: the recipe catalog,
    the user preferences and the weeks
    ([src/context/week-data-provider.tsx]).

    Number model.  JavaScript numbers that carry scores and weights are
    modelled as rationals [Q]; the default weights (1, 2, 1/2, -1/2) are
    dyadic, so the double-precision sums the code computes are exact and
    coincide with the rational ones.  For other weights a double sum may
    differ from the rational one in its last bits: statements about
    signs and monotonicity are not affected, and the statements that
    depend on the exact value of a score or on the near-tie test of the
    comparator carry the hypothesis [CoverageSpec.exactScoring].
    Counts, limits and servings are integer-valued numbers and are
    modelled as [Z].  Values that may be [undefined] or [null] are
    [option]s. *)

From Stdlib Require Import ZArith QArith Qabs List String Bool Lia Lqa Permutation.
From Stdlib Require Import Sorting.Sorted DecimalString Qround.
Import ListNotations.

Open Scope Z_scope.

(* ================================================================== *)
(** * JavaScript built-ins used by the sources *)
(* ================================================================== *)

Module JS.

(** [arr.includes(x)] on arrays of strings. *)
Definition includes (l : list string) (x : string) : bool :=
  existsb (String.eqb x) l.

(** [arr.find(p)]. *)
Definition find {A} (p : A -> bool) (l : list A) : option A :=
  List.find p l.

(** Truthiness of an optional object. *)
Definition truthy {A} (o : option A) : bool :=
  match o with Some _ => true | None => false end.

(** [o?.length] used as a condition: falsy for [undefined] and for 0. *)
Definition has_length {A} (o : option (list A)) : bool :=
  match o with
  | Some (_ :: _) => true
  | _ => false
  end.

(** [o || []]. *)
Definition or_empty {A} (o : option (list A)) : list A :=
  match o with Some l => l | None => [] end.

(** [a || d] on an optional number: [undefined], [null] and [0] are
    falsy, every other number (negative ones too) is truthy. *)
Definition num_or (a : option Z) (d : Z) : Z :=
  match a with
  | Some 0 => d
  | Some v => v
  | None => d
  end.

(** [a ?? d] on an optional number. *)
Definition nullish (a : option Z) (d : Z) : Z :=
  match a with Some v => v | None => d end.

(** [arr.slice(0, e)] for an integer [e]: a negative [e] counts from the
    end of the array, and both bounds are clamped to the array. *)
Definition slice0 {A} (l : list A) (e : Z) : list A :=
  let len := Z.of_nat (List.length l) in
  let final := if e <? 0 then Z.max (len + e) 0 else Z.min e len in
  firstn (Z.to_nat final) l.

(** [arr.forEach((x, index) => ...)] threading the mutated locals. *)
Fixpoint forEach_from {A S} (f : S -> A -> nat -> S) (l : list A)
         (index : nat) (s : S) : S :=
  match l with
  | [] => s
  | x :: l' => forEach_from f l' (Datatypes.S index) (f s x index)
  end.

Definition forEach {A S} (f : S -> A -> nat -> S) (l : list A) (s : S) : S :=
  forEach_from f l 0%nat s.

(** [a < b] on numbers. *)
Definition lt (a b : Q) : bool := negb (Qle_bool b a).

(** [a >= b] where [b] may be [undefined]: the comparison with
    [undefined] is false. *)
Definition ge_opt (a : Q) (b : option Q) : bool :=
  match b with
  | Some m => Qle_bool m a
  | None => false
  end.

(** [Array.prototype.sort(compareFn)].  The comparator may call
    [Math.random()]; the draw it would obtain is passed as its first
    argument, and [rnd] is the stream of draws of one call of [sort].
    The engine's algorithm is left open: all that is used is that the
    sorted array holds the elements of the input. *)
Class ArraySort := {
  sort : forall {A : Type}, (nat -> Q) -> (Q -> A -> A -> Q) -> list A -> list A;
  sort_permutation :
    forall (A : Type) (rnd : nat -> Q) (cmp : Q -> A -> A -> Q) (l : list A),
      Permutation (sort rnd cmp l) l
}.

(** A straightforward engine: insertion sort, the [k]-th comparison
    receiving the draw [rnd k].  The new element [x] is placed in
    front of the first [y] for which the comparator answers a positive
    number on [(y, x)]. *)
Fixpoint insert_by {A} (rnd : nat -> Q) (cmp : Q -> A -> A -> Q)
         (k : nat) (x : A) (l : list A) : list A * nat :=
  match l with
  | [] => ([x], k)
  | y :: l' =>
      if lt 0 (cmp (rnd k) y x)
      then (x :: y :: l', Datatypes.S k)
      else let '(r, k') := insert_by rnd cmp (Datatypes.S k) x l' in (y :: r, k')
  end.

Fixpoint insertion_sort_from {A} (rnd : nat -> Q) (cmp : Q -> A -> A -> Q)
         (k : nat) (acc : list A) (l : list A) : list A :=
  match l with
  | [] => acc
  | x :: l' =>
      let '(acc', k') := insert_by rnd cmp k x acc in
      insertion_sort_from rnd cmp k' acc' l'
  end.

Definition insertion_sort {A} (rnd : nat -> Q) (cmp : Q -> A -> A -> Q)
           (l : list A) : list A :=
  insertion_sort_from rnd cmp 0%nat [] l.

End JS.

(* ================================================================== *)
(** * Data model ([@/types/database], as used by the sources) *)
(* ================================================================== *)

Record Tag := mkTag {
  tag_ident : string;      (* id *)
  tag_name : string;       (* name *)
  tag_type : string        (* type *)
}.

Record RecipeWithTags := mkRecipe {
  recipe_id : string;                 (* id *)
  recipe_name : string;               (* name *)
  description : string;
  image_url : option string;
  prep_time : Z;
  cook_time : Z;
  total_time : option Z;
  default_servings : option Z;
  recipe_created_at : string;         (* created_at *)
  tagIds : option (list string)
}.

Record PreferenceTag := mkPreferenceTag {
  tag_id : string;
  priority : option Z
}.

Record UserPreferencesWithTags := mkPreferences {
  pref_id : string;                   (* id *)
  pref_user_id : string;              (* user_id *)
  meals_per_week : option Z;
  serves_per_meal : option Z;
  user_goals : option (list string);
  user_preference_tags : option (list PreferenceTag)
}.

(* ================================================================== *)
(** * [recipe-recommendation-service.ts] *)
(* ================================================================== *)

Module RecipeRecommendationService.

Record ScoreBreakdown := mkBreakdown {
  preferenceTagMatches : Q;
  goalAlignment : Q;
  diversityBonus : Q;
  recencyPenalty : Q;
  total : Q
}.

(** [ScoredRecipe extends RecipeWithTags]: the spread recipe is kept as
    the field [scored_recipe]. *)
Record ScoredRecipe := mkScored {
  scored_recipe : RecipeWithTags;
  score : Q;
  scoreBreakdown : ScoreBreakdown;
  matchedTagIds : list string;
  matchedGoals : list string
}.

Record Weights := mkWeights {
  preferenceTag : Q;
  w_goalAlignment : Q;              (* weights.goalAlignment *)
  diversity : Q;
  recency : Q
}.

Record RecommendationConfig := mkConfig {
  weights : Weights;
  diversityTagTypes : option (list string);
  recencyWindowDays : option Z;
  minimumScore : option Q
}.

Definition DEFAULT_CONFIG : RecommendationConfig :=
  {| weights := {| preferenceTag := 1;
                   w_goalAlignment := 2;
                   diversity := 1 # 2;
                   recency := - (1 # 2) |};
     diversityTagTypes := Some ["cuisine"; "protein"]%string;
     recencyWindowDays := Some 7;
     minimumScore := Some 0%Q |}.

Record ScoringContext := mkContext {
  ctx_recentRecipeIds : list string;
  ctx_currentMealPlanRecipeIds : list string
}.

Record Options := mkOptions {
  count : Z;
  excludeRecipeIds : option (list string);
  recentRecipeIds : option (list string);
  currentMealPlanRecipeIds : option (list string)
}.

Section Service.

Context {engine : JS.ArraySort}.
Variable config : RecommendationConfig.

(** [calculateDiversityBonus]; the ids of the current plan and the
    taxonomy are received and not consulted. *)
Definition calculateDiversityBonus (recipe : RecipeWithTags)
           (currentPlanIds : list string) (tags : list Tag) : Q :=
  if negb (JS.has_length (tagIds recipe))
     || negb (JS.has_length (diversityTagTypes config))
  then 0%Q
  else diversity (weights config).

(** Step 1 of [scoreRecipe]: the pair of [preferenceTagMatches] and
    [matchedTagIds] after the loop over [recipe.tagIds]. *)
Definition isPreferred (prefs : option (list PreferenceTag))
           (tagId : string) : bool :=
  JS.truthy (JS.find (fun pref => String.eqb (tag_id pref) tagId)
                     (JS.or_empty prefs)).

Definition scorePreferenceTags (recipe : RecipeWithTags)
           (preferences : UserPreferencesWithTags) : Q * list string :=
  match tagIds recipe with
  | Some ids =>
      if JS.has_length (user_preference_tags preferences) then
        JS.forEach
          (fun (acc : Q * list string) tagId (_ : nat) =>
             if isPreferred (user_preference_tags preferences) tagId
             then ((fst acc + preferenceTag (weights config))%Q,
                   snd acc ++ [tagId])
             else acc)
          ids (0%Q, [])
      else (0%Q, [])
  | None => (0%Q, [])
  end.

(** Step 2 of [scoreRecipe]: [goalAlignment] and [matchedGoals]. *)
Definition recipeTagsOf (ids : list string) (tags : list Tag) : list Tag :=
  filter (fun tag => JS.includes ids (tag_ident tag)) tags.

Definition goalTagsOf (recipeTags : list Tag) (goalType : string) : list Tag :=
  filter (fun tag => String.eqb (tag_type tag) goalType) recipeTags.

Definition scoreGoalAlignment (recipe : RecipeWithTags)
           (preferences : UserPreferencesWithTags) (tags : list Tag)
  : Q * list string :=
  match tagIds recipe, user_goals preferences, tags with
  | Some ids, Some (g :: gs), _ :: _ =>
      let goals := g :: gs in
      let recipeTags := recipeTagsOf ids tags in
      JS.forEach
        (fun (acc : Q * list string) goalType index =>
           let priority := (Z.of_nat (List.length goals) - Z.of_nat index)%Z in
           match goalTagsOf recipeTags goalType with
           | _ :: _ =>
               ((fst acc + inject_Z priority * w_goalAlignment (weights config))%Q,
                snd acc ++ [goalType])
           | [] => acc
           end)
        goals (0%Q, [])
  | _, _, _ => (0%Q, [])
  end.

Definition scoreRecipe (recipe : RecipeWithTags)
           (preferences : UserPreferencesWithTags) (tags : list Tag)
           (context : ScoringContext) : ScoredRecipe :=
  let '(prefScore, matchedTags) := scorePreferenceTags recipe preferences in
  let '(goalScore, goalsHit) := scoreGoalAlignment recipe preferences tags in
  let diversityBonus :=
    match ctx_currentMealPlanRecipeIds context with
    | _ :: _ =>
        calculateDiversityBonus recipe (ctx_currentMealPlanRecipeIds context) tags
    | [] => 0%Q
    end in
  let recencyPenalty :=
    if JS.includes (ctx_recentRecipeIds context) (recipe_id recipe)
    then recency (weights config) else 0%Q in
  let total := (prefScore + goalScore + diversityBonus + recencyPenalty)%Q in
  {| scored_recipe := recipe;
     score := total;
     scoreBreakdown :=
       {| preferenceTagMatches := prefScore;
          goalAlignment := goalScore;
          diversityBonus := diversityBonus;
          recencyPenalty := recencyPenalty;
          total := total |};
     matchedTagIds := matchedTags;
     matchedGoals := goalsHit |}.

(** The successive arrays of [getRecommendations]. *)
Definition availableRecipes (recipes : list RecipeWithTags)
           (options : Options) : list RecipeWithTags :=
  match excludeRecipeIds options with
  | Some (e :: es) =>
      filter (fun r => negb (JS.includes (e :: es) (recipe_id r))) recipes
  | _ => recipes
  end.

Definition scoredRecipes (recipes : list RecipeWithTags)
           (preferences : UserPreferencesWithTags) (tags : list Tag)
           (options : Options) : list ScoredRecipe :=
  map (fun recipe =>
         scoreRecipe recipe preferences tags
           {| ctx_recentRecipeIds := JS.or_empty (recentRecipeIds options);
              ctx_currentMealPlanRecipeIds :=
                JS.or_empty (currentMealPlanRecipeIds options) |})
      (availableRecipes recipes options).

(** The minimum-score step. *)
Definition validRecipes (scored : list ScoredRecipe) : list ScoredRecipe :=
  filter (fun r => JS.ge_opt (score r) (minimumScore config)) scored.

(** The comparator handed to [sort]; [u] is the [Math.random()] draw. *)
Definition compareScores (u : Q) (a b : ScoredRecipe) : Q :=
  if JS.lt (Qabs (score a - score b)) (1 # 100)
  then (u - (1 # 2))%Q
  else (score b - score a)%Q.

Definition getRecommendations (rnd : nat -> Q)
           (recipes : list RecipeWithTags)
           (preferences : UserPreferencesWithTags) (tags : list Tag)
           (options : Options) : list ScoredRecipe :=
  let sorted :=
    JS.sort rnd compareScores
            (validRecipes (scoredRecipes recipes preferences tags options)) in
  JS.slice0 sorted (count options).

Definition getRandomRecommendations (rnd : nat -> Q)
           (recipes : list RecipeWithTags) (count : Z)
           (excludeRecipeIds : list string) : list RecipeWithTags :=
  let available :=
    filter (fun r => negb (JS.includes excludeRecipeIds (recipe_id r))) recipes in
  let shuffled :=
    JS.sort rnd (fun u (_ _ : RecipeWithTags) => (u - (1 # 2))%Q) available in
  JS.slice0 shuffled count.

End Service.

End RecipeRecommendationService.

(* ================================================================== *)
(** * [use-recipe-recommendation.ts] *)
(* ================================================================== *)

Module UseRecipeRecommendations.

Import RecipeRecommendationService.

Section Hook.

Context {engine : JS.ArraySort}.
Variable config : RecommendationConfig.
(** [useRecipes().recipes] and [useReferenceData().tags]. *)
Variable recipes : list RecipeWithTags.
Variable tags : list Tag.

Definition zeroScored (r : RecipeWithTags) : ScoredRecipe :=
  {| scored_recipe := r;
     score := 0;
     scoreBreakdown :=
       {| preferenceTagMatches := 0; goalAlignment := 0;
          diversityBonus := 0; recencyPenalty := 0; total := 0 |};
     matchedTagIds := [];
     matchedGoals := [] |}.

(** The hook's [getRecommendations]; [preferences] is an object here,
    so the [!preferences] test of the source is false. *)
Definition getRecommendations (rnd : nat -> Q)
           (preferences : UserPreferencesWithTags)
           (options : Options) : list ScoredRecipe :=
  match recipes with
  | [] => []
  | _ :: _ =>
      if negb (JS.has_length (user_preference_tags preferences))
         && negb (JS.has_length (user_goals preferences))
      then
        map zeroScored
            (getRandomRecommendations rnd recipes (count options)
               (JS.or_empty (excludeRecipeIds options)))
      else
        RecipeRecommendationService.getRecommendations
          config rnd recipes preferences tags options
  end.

Definition getFilteredRecipes (preferences : UserPreferencesWithTags)
  : list RecipeWithTags :=
  if JS.has_length (user_preference_tags preferences) then
    filter (fun recipe =>
              match tagIds recipe with
              | Some (t :: ts) =>
                  existsb (isPreferred (user_preference_tags preferences))
                          (t :: ts)
              | _ => false
              end)
           recipes
  else recipes.

End Hook.

End UseRecipeRecommendations.

(* ================================================================== *)
(** * [meal-plan-provider.tsx] *)
(* ================================================================== *)

Module MealPlanProvider.

Import RecipeRecommendationService.

Inductive Status := draft | confirmed | completed.

Record MealPlanItem := mkItem {
  id : string;
  recipe : RecipeWithTags;
  servings : Z;
  status : option Status;
  week_id : option string;
  user_id : option string;
  created_at : option string;
  updated_at : option string
}.

(** A row of [get_week_meal_plan_with_recipes]. *)
Record SavedRow := mkRow {
  row_id : string;
  row_recipe_id : string;
  row_recipe_name : string;
  row_recipe_image_url : option string;
  row_recipe_total_time : option Z;
  row_servings : Z;
  row_status : Status;
  row_week_id : string;
  row_user_id : string;
  row_created_at : string;
  row_updated_at : string
}.

(** What [await supabase.rpc(...)] yields: a rejected promise, or the
    pair [{ data, error }]. *)
Inductive RpcResponse :=
| RpcRejected (message : string)
| RpcResolved (data : option (list SavedRow)) (error : option string).

(** The [useState] cells of the provider, and the lines written with
    [console.error] (label and error message), oldest first. *)
Record ProviderState := mkState {
  currentMealPlan : list MealPlanItem;
  loading : bool;
  error : option string;
  initialized : bool;
  console_error : list (string * string)
}.

Definition initialState : ProviderState :=
  {| currentMealPlan := []; loading := false; error := None;
     initialized := false; console_error := [] |}.

Definition setCurrentMealPlan (f : list MealPlanItem -> list MealPlanItem)
           (st : ProviderState) : ProviderState :=
  {| currentMealPlan := f (currentMealPlan st);
     loading := loading st; error := error st;
     initialized := initialized st; console_error := console_error st |}.

Definition setLoading (b : bool) (st : ProviderState) : ProviderState :=
  {| currentMealPlan := currentMealPlan st;
     loading := b; error := error st;
     initialized := initialized st; console_error := console_error st |}.

Definition setError (e : option string) (st : ProviderState) : ProviderState :=
  {| currentMealPlan := currentMealPlan st;
     loading := loading st; error := e;
     initialized := initialized st; console_error := console_error st |}.

Definition setInitialized (b : bool) (st : ProviderState) : ProviderState :=
  {| currentMealPlan := currentMealPlan st;
     loading := loading st; error := error st;
     initialized := b; console_error := console_error st |}.

Definition consoleError (label message : string) (st : ProviderState)
  : ProviderState :=
  {| currentMealPlan := currentMealPlan st;
     loading := loading st; error := error st;
     initialized := initialized st;
     console_error := console_error st ++ [(label, message)] |}.

Definition planRecipeIds (plan : list MealPlanItem) : list string :=
  map (fun m => recipe_id (recipe m)) plan.

(** [arr.map((x, i) => ...)]. *)
Fixpoint mapi_from {A B} (f : nat -> A -> B) (i : nat) (l : list A) : list B :=
  match l with
  | [] => []
  | x :: l' => f i x :: mapi_from f (Datatypes.S i) l'
  end.

Section Provider.

Context {engine : JS.ArraySort}.
Variable config : RecommendationConfig.
(** Values read from the sibling providers. *)
Variable recipes : list RecipeWithTags.
Variable tags : list Tag.
Variable userPreferences : option UserPreferencesWithTags.

(** Every callback below is a closure created by [useCallback]: the
    argument called [snapshot] is the value of [currentMealPlan] the
    closure captured when it was created.  State setters receive the
    state that is current when they run. *)

(** [generateInitialMealPlan]; [ids i] is what [generateMealId()]
    returns for the [i]-th recommendation.  The entry's [recipe] is the
    recommendation itself; of that object the plan reads the recipe
    fields only, which is what [scored_recipe] keeps. *)
Definition generateInitialMealPlan (snapshot : list MealPlanItem)
           (rnd : nat -> Q) (ids : nat -> string)
           (st : ProviderState) : ProviderState :=
  match userPreferences with
  | None => st
  | Some prefs =>
      let st1 := setError None (setLoading true st) in
      let mealsToSelect := JS.nullish (meals_per_week prefs) 4 in
      let currentMealPlanRecipeIds := planRecipeIds snapshot in
      let recommendations :=
        UseRecipeRecommendations.getRecommendations config recipes tags rnd prefs
          {| count := mealsToSelect;
             excludeRecipeIds := Some currentMealPlanRecipeIds;
             recentRecipeIds := None;
             currentMealPlanRecipeIds := Some currentMealPlanRecipeIds |} in
      let mealPlanItems :=
        mapi_from
          (fun i (r : ScoredRecipe) =>
             {| id := ids i;
                recipe := scored_recipe r;
                servings :=
                  JS.num_or (serves_per_meal prefs)
                    (JS.num_or (default_servings (scored_recipe r)) 1);
                status := None; week_id := None; user_id := None;
                created_at := None; updated_at := None |})
          0%nat recommendations in
      setLoading false
        (setInitialized true
           (setCurrentMealPlan (fun _ => mealPlanItems) st1))
  end.

(** [regenerateMealPlan]: the plan is emptied, then the captured
    [generateInitialMealPlan] runs. *)
Definition regenerateMealPlan (snapshot : list MealPlanItem)
           (rnd : nat -> Q) (ids : nat -> string)
           (st : ProviderState) : ProviderState :=
  generateInitialMealPlan snapshot rnd ids
    (setCurrentMealPlan (fun _ => []) st).

(** [addMealToPlan]; [newId] is the result of [generateMealId()]. *)
Definition newServings (recipe : RecipeWithTags) (servings : option Z) : Z :=
  JS.num_or servings
    (JS.num_or
       (match userPreferences with
        | Some prefs => serves_per_meal prefs
        | None => None
        end)
       (JS.num_or (default_servings recipe) 1)).

Definition addMealToPlan (snapshot : list MealPlanItem)
           (recipe : RecipeWithTags) (servings : option Z) (newId : string)
           (st : ProviderState) : ProviderState :=
  match JS.find (fun meal => String.eqb (recipe_id (MealPlanProvider.recipe meal))
                                        (recipe_id recipe)) snapshot with
  | Some existingMeal => st
  | None =>
      let newMeal :=
        {| id := newId; recipe := recipe;
           servings := newServings recipe servings;
           status := None; week_id := None; user_id := None;
           created_at := None; updated_at := None |} in
      setCurrentMealPlan (fun prev => prev ++ [newMeal]) st
  end.

Definition removeMealFromPlan (mealId : string) (st : ProviderState)
  : ProviderState :=
  setCurrentMealPlan
    (fun prev => filter (fun meal => negb (String.eqb (id meal) mealId)) prev) st.

Definition withServings (meal : MealPlanItem) (servings : Z) : MealPlanItem :=
  {| id := id meal; recipe := recipe meal; servings := servings;
     status := status meal; week_id := week_id meal; user_id := user_id meal;
     created_at := created_at meal; updated_at := updated_at meal |}.

Definition updateMealServings (mealId : string) (servings : Z)
           (st : ProviderState) : ProviderState :=
  setCurrentMealPlan
    (fun prev =>
       map (fun meal => if String.eqb (id meal) mealId
                        then withServings meal servings else meal) prev) st.

Definition clearMealPlan (st : ProviderState) : ProviderState :=
  setCurrentMealPlan (fun _ => []) st.

(** [getCurrentMealPlan(limit?)]: [limit] is falsy when absent or 0. *)
Definition getCurrentMealPlan (snapshot : list MealPlanItem)
           (limit : option Z) : list MealPlanItem :=
  match limit with
  | None => snapshot
  | Some 0 => snapshot
  | Some l => JS.slice0 snapshot l
  end.

Definition getMealById (snapshot : list MealPlanItem) (mealId : string)
  : option MealPlanItem :=
  JS.find (fun meal => String.eqb (id meal) mealId) snapshot.

Definition isMealInPlan (snapshot : list MealPlanItem) (recipeId : string)
  : bool :=
  existsb (fun meal => String.eqb (recipe_id (recipe meal)) recipeId) snapshot.

Definition getTotalServings (snapshot : list MealPlanItem) : Z :=
  fold_left (fun total meal => total + servings meal) snapshot 0.

(** [getMealPlanForWeek].  [hydrate] is the callback of [data.map]:
    the catalog's recipe when it still holds the identifier, the
    row's snapshot otherwise. *)
Definition hydrate (item : SavedRow) : MealPlanItem :=
  let fullRecipe :=
    JS.find (fun r => String.eqb (recipe_id r) (row_recipe_id item)) recipes in
  let recipe :=
    match fullRecipe with
    | Some r => r
    | None =>
        {| recipe_id := row_recipe_id item;
           recipe_name := row_recipe_name item;
           image_url := row_recipe_image_url item;
           total_time := row_recipe_total_time item;
           tagIds := Some [];
           description := EmptyString;
           prep_time := 0;
           cook_time := 0;
           default_servings := Some 1;
           recipe_created_at := EmptyString |}
    end in
  {| id := String.append "saved_" (row_id item);
     recipe := recipe;
     servings := row_servings item;
     status := Some (row_status item);
     week_id := Some (row_week_id item);
     user_id := Some (row_user_id item);
     created_at := Some (row_created_at item);
     updated_at := Some (row_updated_at item) |}.

(** The [try] block of [getMealPlanForWeek]: [inl message] stands for
    a thrown [Error] with that message. *)
Definition fetchMealPlan (response : RpcResponse)
  : string + list MealPlanItem :=
  match response with
  | RpcRejected message => inl message
  | RpcResolved _ (Some message) => inl message
  | RpcResolved None None => inr []
  | RpcResolved (Some []) None => inr []
  | RpcResolved (Some (row :: rows)) None => inr (map hydrate (row :: rows))
  end.

(** The whole function with its [catch]; the result keeps the shape
    of a call that may throw, for the caller's own [try]. *)
Definition getMealPlanForWeek (rpc : string -> RpcResponse) (weekId : string)
           (st : ProviderState) : ProviderState * (string + list MealPlanItem) :=
  match fetchMealPlan (rpc weekId) with
  | inr mealPlanItems => (st, inr mealPlanItems)
  | inl err => (consoleError "Error fetching meal plan:" err st, inr [])
  end.

(** [loadMealPlanForWeek]: [try], [catch] and [finally]. *)
Definition loadMealPlanForWeek (snapshot : list MealPlanItem)
           (rpc : string -> RpcResponse) (weekId : string)
           (rnd : nat -> Q) (ids : nat -> string)
           (st : ProviderState) : ProviderState :=
  let st1 := setError None (setLoading true st) in
  let '(st2, outcome) := getMealPlanForWeek rpc weekId st1 in
  let st3 :=
    match outcome with
    | inr (m :: ms) => setCurrentMealPlan (fun _ => m :: ms) st2
    | inr [] => generateInitialMealPlan snapshot rnd ids st2
    | inl err =>
        generateInitialMealPlan snapshot rnd ids
          (setError (Some err) (consoleError "Error loading meal plan:" err st2))
    end in
  setLoading false st3.

(** ** Sequences of plan operations

    An operation is invoked through the callbacks of the latest
    render, so the plan a callback captured is the committed one. *)
Inductive PlanOp :=
| OpGenerate (rnd : nat -> Q) (ids : nat -> string)
| OpRegenerate (rnd : nat -> Q) (ids : nat -> string)
| OpAdd (recipe : RecipeWithTags) (servings : option Z) (newId : string)
| OpRemove (mealId : string)
| OpUpdateServings (mealId : string) (servings : Z)
| OpClear.

Definition applyOp (op : PlanOp) (st : ProviderState) : ProviderState :=
  match op with
  | OpGenerate rnd ids =>
      generateInitialMealPlan (currentMealPlan st) rnd ids st
  | OpRegenerate rnd ids =>
      regenerateMealPlan (currentMealPlan st) rnd ids st
  | OpAdd recipe servings newId =>
      addMealToPlan (currentMealPlan st) recipe servings newId st
  | OpRemove mealId => removeMealFromPlan mealId st
  | OpUpdateServings mealId servings => updateMealServings mealId servings st
  | OpClear => clearMealPlan st
  end.

Definition runOps (ops : list PlanOp) (st : ProviderState) : ProviderState :=
  fold_left (fun s op => applyOp op s) ops st.

End Provider.

End MealPlanProvider.

(* ================================================================== *)
(** * The scoring terms as the specification words them *)
(* ================================================================== *)

Module ScoringSpec.

Import RecipeRecommendationService.

(** A goal is matched when some tag of the taxonomy that the recipe
    carries has the goal's type. *)
Definition matchesGoal (recipe : RecipeWithTags) (tags : list Tag)
           (goalType : string) : bool :=
  existsb (fun tag => JS.includes (JS.or_empty (tagIds recipe)) (tag_ident tag)
                      && String.eqb (tag_type tag) goalType)
          tags.

(** The goal at position [index] of a list of [n] goals has priority
    [n - index]; every matched goal contributes priority times weight. *)
Definition goalTerm (w : Q) (n : nat) (recipe : RecipeWithTags)
           (tags : list Tag) (goalType : string) (index : nat) : Q :=
  if matchesGoal recipe tags goalType
  then (inject_Z (Z.of_nat n - Z.of_nat index) * w)%Q
  else 0%Q.

Fixpoint goalAlignmentFrom (w : Q) (n : nat) (recipe : RecipeWithTags)
         (tags : list Tag) (goals : list string) (index : nat) : Q :=
  match goals with
  | [] => 0%Q
  | g :: gs =>
      (goalTerm w n recipe tags g index
       + goalAlignmentFrom w n recipe tags gs (Datatypes.S index))%Q
  end.

Definition goalAlignmentSpec (config : RecommendationConfig)
           (recipe : RecipeWithTags) (preferences : UserPreferencesWithTags)
           (tags : list Tag) : Q :=
  let goals := JS.or_empty (user_goals preferences) in
  goalAlignmentFrom (w_goalAlignment (weights config)) (List.length goals)
                    recipe tags goals 0%nat.

(** The number of tag identifiers of the recipe that the user prefers. *)
Definition preferredCount (recipe : RecipeWithTags)
           (preferences : UserPreferencesWithTags) : nat :=
  List.length (filter (isPreferred (user_preference_tags preferences))
                      (JS.or_empty (tagIds recipe))).

(** The recipe with another array of tag identifiers. *)
Definition withTagIds (recipe : RecipeWithTags) (ids : option (list string))
  : RecipeWithTags :=
  {| recipe_id := recipe_id recipe; recipe_name := recipe_name recipe;
     description := description recipe; image_url := image_url recipe;
     prep_time := prep_time recipe; cook_time := cook_time recipe;
     total_time := total_time recipe;
     default_servings := default_servings recipe;
     recipe_created_at := recipe_created_at recipe;
     tagIds := ids |}.

End ScoringSpec.

(* ================================================================== *)
(** * Predicates on plans, operations and fetch outcomes *)
(* ================================================================== *)

Module PlanSpec.

Import MealPlanProvider.

(** Servings values that the [||] chains turn into a count of at
    least 1: absent, zero, or positive. *)
Definition notNegative (o : option Z) : Prop :=
  match o with
  | Some v => 0 <= v
  | None => True
  end.

Definition servingsAtLeastOne (plan : list MealPlanItem) : Prop :=
  Forall (fun meal => 1 <= servings meal) plan.

Definition noDuplicateRecipes (plan : list MealPlanItem) : Prop :=
  NoDup (planRecipeIds plan).

(** The servings an operation brings in are usable. *)
Definition opServingsOk (op : PlanOp) : Prop :=
  match op with
  | OpAdd recipe servings _ =>
      notNegative servings /\ notNegative (default_servings recipe)
  | OpUpdateServings _ servings => 1 <= servings
  | _ => True
  end.

(** So are those of the user's preferences and of the catalog. *)
Definition environmentServingsOk (recipes : list RecipeWithTags)
           (userPreferences : option UserPreferencesWithTags) : Prop :=
  match userPreferences with
  | Some prefs => notNegative (serves_per_meal prefs)
  | None => True
  end
  /\ Forall (fun r => notNegative (default_servings r)) recipes.

(** The two outcomes of the fetch that lead to the fallback: no saved
    rows, and a failure with an error message. *)
Inductive FetchedNothing : RpcResponse -> Prop :=
| NoData : FetchedNothing (RpcResolved None None)
| NoRows : FetchedNothing (RpcResolved (Some []) None).

Inductive FetchFailed : RpcResponse -> string -> Prop :=
| Rejected message : FetchFailed (RpcRejected message) message
| Reported data message : FetchFailed (RpcResolved data (Some message)) message.

End PlanSpec.

(* ================================================================== *)
(** * Sample data for the worked examples *)
(* ================================================================== *)

Module Fixtures.

Import RecipeRecommendationService.
Open Scope string_scope.

Definition sampleRecipe (ident : string) (ids : option (list string))
  : RecipeWithTags :=
  {| recipe_id := ident; recipe_name := ident; description := "";
     image_url := None; prep_time := 10; cook_time := 20;
     total_time := Some 30; default_servings := Some 2;
     recipe_created_at := "2025-01-01"; tagIds := ids |}.

Definition taxonomy : list Tag :=
  [ {| tag_ident := "t-quick"; tag_name := "Under 30 minutes"; tag_type := "time" |};
    {| tag_ident := "t-cheap"; tag_name := "Budget"; tag_type := "budget" |};
    {| tag_ident := "t-thai"; tag_name := "Thai"; tag_type := "cuisine" |} ].

Definition samplePreferences (goals : list string) (preferred : list string)
  : UserPreferencesWithTags :=
  {| pref_id := "p1"; pref_user_id := "u1";
     meals_per_week := Some 4; serves_per_meal := Some 2;
     user_goals := Some goals;
     user_preference_tags :=
       Some (map (fun t => {| tag_id := t; priority := None |}) preferred) |}.

(** A stream of [Math.random()] draws. *)
Definition draws (k : nat) : Q := 1 # 4.

Definition mealIds (i : nat) : string :=
  match i with
  | O => "meal_0"
  | Datatypes.S O => "meal_1"
  | Datatypes.S (Datatypes.S O) => "meal_2"
  | _ => "meal_3"
  end.

Definition quickCurry := sampleRecipe "r-curry" (Some ["t-quick"; "t-thai"]).
Definition cheapStew := sampleRecipe "r-stew" (Some ["t-cheap"]).
Definition plainToast := sampleRecipe "r-toast" (Some []).

Definition optionsFor (n : Z) (recent planned : list string) : Options :=
  {| count := n; excludeRecipeIds := None;
     recentRecipeIds := Some recent;
     currentMealPlanRecipeIds := Some planned |}.

(** Preferences used throughout: two goals in priority order, one
    preferred tag. *)
Definition prefs : UserPreferencesWithTags :=
  samplePreferences ["time"; "budget"] ["t-thai"].

Definition catalog : list RecipeWithTags := [quickCurry; cheapStew; plainToast].

(** Scoring contexts: nothing planned, and one recipe planned. *)
Definition fresh : ScoringContext :=
  {| ctx_recentRecipeIds := []; ctx_currentMealPlanRecipeIds := [] |}.

Definition planned : ScoringContext :=
  {| ctx_recentRecipeIds := []; ctx_currentMealPlanRecipeIds := ["r-stew"] |}.

(** Two backends: one that fails, one without rows. *)
Definition networkDown (_ : string) : MealPlanProvider.RpcResponse :=
  MealPlanProvider.RpcRejected "network down".

Definition noRows (_ : string) : MealPlanProvider.RpcResponse :=
  MealPlanProvider.RpcResolved (Some []) None.

End Fixtures.

(* ================================================================== *)
(** * [meal-plan-provider.tsx]: available recipes and the week store *)
(* ================================================================== *)

Module MealPlanStore.

Import RecipeRecommendationService MealPlanProvider.

(** An element of [p_meals], the payload of [replace_week_meal_plan]. *)
Record MealData := mkMealData {
  md_recipe_id : string;        (* recipe_id *)
  md_servings : Z;              (* servings *)
  md_sort_order : Z;            (* sort_order *)
  md_status : Status            (* status *)
}.

Record ReplaceArgs := mkReplaceArgs {
  p_week_id : string;
  p_meals : list MealData;
  p_user_id : option string
}.

Record StatusArgs := mkStatusArgs {
  su_week_id : string;          (* p_week_id *)
  su_status : Status;           (* p_status *)
  su_user_id : option string    (* p_user_id *)
}.

(** What awaiting a remote call that answers [{ error }] yields. *)
Inductive WriteResponse :=
| WriteRejected (message : string)
| WriteResolved (error : option string).

(** [inl message]: the [try] block throws an [Error] with that message. *)
Definition writeOutcome (response : WriteResponse) : string + unit :=
  match response with
  | WriteRejected message => inl message
  | WriteResolved (Some message) => inl message
  | WriteResolved None => inr tt
  end.

Section Store.

Variable recipes : list RecipeWithTags.
Variable userPreferences : option UserPreferencesWithTags.
(** [session?.user?.id]. *)
Variable sessionUserId : option string.

(** [getAvailableRecipes]. *)
Definition getAvailableRecipes (snapshot : list MealPlanItem)
  : list RecipeWithTags :=
  match userPreferences with
  | None => recipes
  | Some prefs =>
      let filtered := UseRecipeRecommendations.getFilteredRecipes recipes prefs in
      let currentMealPlanRecipeIds := planRecipeIds snapshot in
      filter (fun recipe =>
                negb (JS.includes currentMealPlanRecipeIds (recipe_id recipe)))
             filtered
  end.

(** The [mealsData] of [saveMealPlanForWeek]. *)
Definition mealsData (meals : list MealPlanItem) (status : Status)
  : list MealData :=
  mapi_from
    (fun index meal =>
       {| md_recipe_id := recipe_id (recipe meal);
          md_servings := servings meal;
          md_sort_order := Z.of_nat index;
          md_status := status |})
    0%nat meals.

(** [saveMealPlanForWeek(weekId, meals = currentMealPlan, status = "draft")];
    the second component tells whether the call returns or throws. *)
Definition saveMealPlanForWeek (snapshot : list MealPlanItem)
           (rpc : ReplaceArgs -> WriteResponse) (weekId : string)
           (meals : option (list MealPlanItem)) (status : option Status)
           (st : ProviderState) : ProviderState * (string + unit) :=
  let meals := match meals with Some m => m | None => snapshot end in
  let status := match status with Some s => s | None => draft end in
  let st1 := setError None (setLoading true st) in
  let response :=
    rpc {| p_week_id := weekId;
           p_meals := mealsData meals status;
           p_user_id := sessionUserId |} in
  match writeOutcome response with
  | inr _ => (setLoading false st1, inr tt)
  | inl err =>
      (setLoading false
         (setError (Some err) (consoleError "Error saving meal plan:" err st1)),
       inl err)
  end.

(** [updateMealPlanStatus]. *)
Definition updateMealPlanStatus (rpc : StatusArgs -> WriteResponse)
           (weekId : string) (status : Status)
           (st : ProviderState) : ProviderState * (string + unit) :=
  let st1 := setError None (setLoading true st) in
  let response :=
    rpc {| su_week_id := weekId; su_status := status;
           su_user_id := sessionUserId |} in
  match writeOutcome response with
  | inr _ => (setLoading false st1, inr tt)
  | inl err =>
      (setLoading false
         (setError (Some err)
                   (consoleError "Error updating meal plan status:" err st1)),
       inl err)
  end.

End Store.

End MealPlanStore.

(* ================================================================== *)
(** * [recipe-data-provider.tsx] ([src/unnamed/part_000]) *)
(* ================================================================== *)

Module RecipeDataProvider.

Section Catalog.

(** The [recipes] cell of the provider. *)
Variable recipes : list RecipeWithTags.

(** [filterByTagIds]: [recipe.tagIds?.some(...)] is [undefined] for a
    recipe without the array, and [filter] drops it. *)
Definition filterByTagIds (wanted : list string) : list RecipeWithTags :=
  match wanted with
  | [] => recipes
  | _ :: _ =>
      filter (fun recipe =>
                match tagIds recipe with
                | Some ids => existsb (fun tagId => JS.includes wanted tagId) ids
                | None => false
                end)
             recipes
  end.

Definition getRecipeById (ident : string) : option RecipeWithTags :=
  JS.find (fun recipe => String.eqb (recipe_id recipe) ident) recipes.

Definition getRecipesByIds (ids : list string) : list RecipeWithTags :=
  filter (fun recipe => JS.includes ids (recipe_id recipe)) recipes.

Definition getRecipesExcluding (excludeIds : list string) : list RecipeWithTags :=
  filter (fun recipe => negb (JS.includes excludeIds (recipe_id recipe))) recipes.

End Catalog.

End RecipeDataProvider.

(* ================================================================== *)
(** * [user-preferences-provider.tsx] ([src/unnamed/part_001]) *)
(* ================================================================== *)

Module UserPreferencesProvider.

(** The [useState] cells, and the [console.error] lines.  The setters
    [setLoading], [setError], [setInitialized] carry a prefix here. *)
Record PreferencesState := mkPreferencesState {
  preferences : option UserPreferencesWithTags;
  up_loading : bool;                          (* loading *)
  up_error : option string;                   (* error *)
  up_initialized : bool;                      (* initialized *)
  up_console_error : list (string * string)
}.

Definition initialPreferencesState : PreferencesState :=
  {| preferences := None; up_loading := false; up_error := None;
     up_initialized := false; up_console_error := [] |}.

Definition setPreferences
           (f : option UserPreferencesWithTags -> option UserPreferencesWithTags)
           (st : PreferencesState) : PreferencesState :=
  {| preferences := f (preferences st);
     up_loading := up_loading st; up_error := up_error st;
     up_initialized := up_initialized st;
     up_console_error := up_console_error st |}.

Definition setPrefsLoading (b : bool) (st : PreferencesState) : PreferencesState :=
  {| preferences := preferences st;
     up_loading := b; up_error := up_error st;
     up_initialized := up_initialized st;
     up_console_error := up_console_error st |}.

Definition setPrefsError (e : option string) (st : PreferencesState) : PreferencesState :=
  {| preferences := preferences st;
     up_loading := up_loading st; up_error := e;
     up_initialized := up_initialized st;
     up_console_error := up_console_error st |}.

Definition setPrefsInitialized (b : bool) (st : PreferencesState) : PreferencesState :=
  {| preferences := preferences st;
     up_loading := up_loading st; up_error := up_error st;
     up_initialized := b;
     up_console_error := up_console_error st |}.

Definition prefsConsoleError (label message : string) (st : PreferencesState)
  : PreferencesState :=
  {| preferences := preferences st;
     up_loading := up_loading st; up_error := up_error st;
     up_initialized := up_initialized st;
     up_console_error := up_console_error st ++ [(label, message)] |}.

(** The object spreads [{ ...prev, field: value }]. *)
Definition withMealsPerWeek (p : UserPreferencesWithTags) (meals : Z)
  : UserPreferencesWithTags :=
  {| pref_id := pref_id p; pref_user_id := pref_user_id p;
     meals_per_week := Some meals; serves_per_meal := serves_per_meal p;
     user_goals := user_goals p;
     user_preference_tags := user_preference_tags p |}.

Definition withServesPerMeal (p : UserPreferencesWithTags) (serves : Z)
  : UserPreferencesWithTags :=
  {| pref_id := pref_id p; pref_user_id := pref_user_id p;
     meals_per_week := meals_per_week p; serves_per_meal := Some serves;
     user_goals := user_goals p;
     user_preference_tags := user_preference_tags p |}.

Definition withGoals (p : UserPreferencesWithTags) (goals : list string)
  : UserPreferencesWithTags :=
  {| pref_id := pref_id p; pref_user_id := pref_user_id p;
     meals_per_week := meals_per_week p; serves_per_meal := serves_per_meal p;
     user_goals := Some goals;
     user_preference_tags := user_preference_tags p |}.

Definition withPreferenceTags (p : UserPreferencesWithTags)
           (newTags : list PreferenceTag) : UserPreferencesWithTags :=
  {| pref_id := pref_id p; pref_user_id := pref_user_id p;
     meals_per_week := meals_per_week p; serves_per_meal := serves_per_meal p;
     user_goals := user_goals p;
     user_preference_tags := Some newTags |}.

(** [tagIds.map((tagId, index) => ({ tag_id: tagId, priority: index }))]. *)
Definition newPreferenceTags (ids : list string) : list PreferenceTag :=
  MealPlanProvider.mapi_from
    (fun index tagId => {| tag_id := tagId; priority := Some (Z.of_nat index) |})
    0%nat ids.

(** What awaiting a table write yields: [None] when it went through, the
    message of the error it reported (or was rejected with) otherwise. *)
Definition DbWrite := option string.

(** The answers of the reads made by [fetchPreferences]. *)
Inductive PreferencesRead :=
| ReadRejected (message : string)
| ReadNotFound                                   (* error.code === "PGRST116" *)
| ReadFailed (message : string)                  (* any other error *)
| ReadRow (prefData : option UserPreferencesWithTags).

Record TagsRead := mkTagsRead {
  tr_data : option (list string);                (* rows of tag_id *)
  tr_error : option string
}.

Inductive CreateResponse :=
| CreateRejected (message : string)
| CreateResolved (data : option UserPreferencesWithTags) (error : option string).

Section Provider.

(** [session?.user?.id]. *)
Variable userId : option string.

Definition hasUser : bool :=
  match userId with
  | Some u => negb (String.eqb u "")
  | None => false
  end.

(** The guard [!preferences?.id || !userId] of the update callbacks,
    negated; [captured] is the [preferences] the closure holds. *)
Definition canUpdate (captured : option UserPreferencesWithTags) : bool :=
  match captured with
  | Some p => negb (String.eqb (pref_id p) "") && hasUser
  | None => false
  end.

(** The common shape of the four update callbacks: guard, [try] with
    the writes, [catch] that records and rethrows, [finally]. *)
Definition failWith (label err : string) (st : PreferencesState)
  : PreferencesState * (string + unit) :=
  (setPrefsLoading false (setPrefsError (Some err) (prefsConsoleError label err st)), inl err).

Definition updateMealsPerWeek (captured : option UserPreferencesWithTags)
           (write : DbWrite) (meals : Z) (st : PreferencesState)
  : PreferencesState * (string + unit) :=
  if negb (canUpdate captured) then (st, inr tt)
  else
    let st1 := setPrefsError None (setPrefsLoading true st) in
    match write with
    | Some err => failWith "Error updating meals per week:" err st1
    | None =>
        (setPrefsLoading false
           (setPreferences (option_map (fun prev => withMealsPerWeek prev meals)) st1),
         inr tt)
    end.

Definition updateServesPerMeal (captured : option UserPreferencesWithTags)
           (write : DbWrite) (serves : Z) (st : PreferencesState)
  : PreferencesState * (string + unit) :=
  if negb (canUpdate captured) then (st, inr tt)
  else
    let st1 := setPrefsError None (setPrefsLoading true st) in
    match write with
    | Some err => failWith "Error updating serves per meal:" err st1
    | None =>
        (setPrefsLoading false
           (setPreferences (option_map (fun prev => withServesPerMeal prev serves)) st1),
         inr tt)
    end.

Definition updateGoals (captured : option UserPreferencesWithTags)
           (write : DbWrite) (goals : list string) (st : PreferencesState)
  : PreferencesState * (string + unit) :=
  if negb (canUpdate captured) then (st, inr tt)
  else
    let st1 := setPrefsError None (setPrefsLoading true st) in
    match write with
    | Some err => failWith "Error updating goals:" err st1
    | None =>
        (setPrefsLoading false
           (setPreferences (option_map (fun prev => withGoals prev goals)) st1),
         inr tt)
    end.

(** [updatePreferenceTags]: the delete, then the insert unless the list
    is empty, then the local state. *)
Definition updatePreferenceTags (captured : option UserPreferencesWithTags)
           (deleteWrite insertWrite : DbWrite) (ids : list string)
           (st : PreferencesState) : PreferencesState * (string + unit) :=
  if negb (canUpdate captured) then (st, inr tt)
  else
    let st1 := setPrefsError None (setPrefsLoading true st) in
    let done :=
      (setPrefsLoading false
         (setPreferences
            (option_map (fun prev => withPreferenceTags prev (newPreferenceTags ids)))
            st1),
       inr tt) in
    match deleteWrite with
    | Some err => failWith "Error updating preference tags:" err st1
    | None =>
        match ids with
        | [] => done
        | _ :: _ =>
            match insertWrite with
            | Some err => failWith "Error updating preference tags:" err st1
            | None => done
            end
        end
    end.

(** The helpers. *)
Definition hasPreferences (st : PreferencesState) : bool :=
  match preferences st with
  | Some p => negb (String.eqb (pref_id p) "")
  | None => false
  end.

Definition hasGoals (st : PreferencesState) : bool :=
  match preferences st with
  | Some p => JS.has_length (user_goals p)
  | None => false
  end.

Definition hasPreferenceTags (st : PreferencesState) : bool :=
  match preferences st with
  | Some p => JS.has_length (user_preference_tags p)
  | None => false
  end.

Definition getPreferenceTagIds (st : PreferencesState) : list string :=
  match preferences st with
  | Some p =>
      match user_preference_tags p with
      | Some prefTags => map tag_id prefTags
      | None => []
      end
  | None => []
  end.

(** [defaultPrefs] of [fetchPreferences]. *)
Definition defaultPrefs (user : string) : UserPreferencesWithTags :=
  {| pref_id := ""; pref_user_id := user;
     meals_per_week := Some 4; serves_per_meal := Some 2;
     user_goals := Some []; user_preference_tags := Some [] |}.

(** [createDefaultPreferences]: never throws. *)
Definition createDefaultPreferences (create : CreateResponse)
           (st : PreferencesState) : PreferencesState :=
  match create with
  | CreateRejected message =>
      prefsConsoleError "Failed to create default preferences:" message st
  | CreateResolved _ (Some message) =>
      prefsConsoleError "Error creating default preferences:" message st
  | CreateResolved (Some data) None =>
      setPreferences (fun _ => Some (withPreferenceTags data [])) st
  | CreateResolved None None => st
  end.

(** [fetchPreferences]. *)
Definition fetchPreferences (read : PreferencesRead) (tagsRead : TagsRead)
           (create : CreateResponse) (st : PreferencesState) : PreferencesState :=
  match userId with
  | None => st
  | Some user =>
      if String.eqb user "" then st
      else
        let st1 := setPrefsError None (setPrefsLoading true st) in
        let failed err :=
          setPrefsError (Some err) (prefsConsoleError "Error fetching user preferences:" err st1) in
        let st2 :=
          match read with
          | ReadRejected message => failed message
          | ReadFailed message => failed message
          | ReadNotFound =>
              createDefaultPreferences create
                (setPrefsInitialized true
                   (setPreferences (fun _ => Some (defaultPrefs user)) st1))
          | ReadRow None => st1
          | ReadRow (Some prefData) =>
              let st' :=
                match tr_error tagsRead with
                | Some message =>
                    prefsConsoleError "Error fetching preference tags:" message st1
                | None => st1
                end in
              let completePreferences :=
                withPreferenceTags prefData
                  (map (fun t => {| tag_id := t; priority := None |})
                       (JS.or_empty (tr_data tagsRead))) in
              setPrefsInitialized true
                (setPreferences (fun _ => Some completePreferences) st')
          end in
        setPrefsLoading false st2
  end.

End Provider.

End UserPreferencesProvider.

(* ================================================================== *)
(** * [week-data-provider.tsx] *)
(* ================================================================== *)

Module WeeksProvider.

Inductive WeekStatus := past | current | future.

Definition WeekStatus_eqb (a b : WeekStatus) : bool :=
  match a, b with
  | past, past | current, current | future, future => true
  | _, _ => false
  end.

(** A row of the [weeks] table.  A date column is kept as the
    millisecond timestamp that [new Date(column).getTime()] gives. *)
Record WeekRow := mkWeekRow {
  week_ident : string;            (* id *)
  start_date : Z;
  end_date : Z;
  is_current_week : bool;
  display_title : option string
}.

(** [{ ...week, displayTitle, weekOffset, status }]. *)
Record WeekWithComputed := mkWeek {
  week_row : WeekRow;
  displayTitle : string;
  weekOffset : Z;
  status : WeekStatus
}.

Definition MS_PER_WEEK : Z := 7 * 24 * 60 * 60 * 1000.

(** [Math.round]: the nearest integer, halves going up. *)
Definition mathRound (x : Q) : Z := Qfloor (x + (1 # 2)).

(** The decimal digits that a template literal prints for an integer. *)
Definition showInteger (n : Z) : string :=
  DecimalString.NilZero.string_of_int (Z.to_int n).

(** The body of [data.map((week) => ...)] in [fetchWeeks]; [today] is
    the timestamp of [new Date()]. *)
Definition computeOffset (data : list WeekRow) (week : WeekRow) : Z :=
  match JS.find is_current_week data with
  | Some currentWeekData =>
      mathRound (inject_Z (start_date week - start_date currentWeekData)
                 / inject_Z MS_PER_WEEK)
  | None => 0
  end.

Definition computeTitle (week : WeekRow) (offset : Z) : string :=
  match display_title week with
  | Some (String c rest) => String c rest
  | _ =>
      if is_current_week week then "This week"
      else if Z.eqb offset 1 then "Next week"
      else if Z.eqb offset (-1) then "Last week"
      else if Z.ltb 1 offset then
        String.append "In " (String.append (showInteger offset) " weeks")
      else if Z.ltb offset (-1) then
        String.append (showInteger (Z.abs offset)) " weeks ago"
      else ""
  end.

Definition computeStatus (today : Z) (week : WeekRow) : WeekStatus :=
  if is_current_week week then current
  else if Z.ltb (end_date week) today then past
  else if Z.ltb today (start_date week) then future
  else future.

Definition processWeek (data : list WeekRow) (today : Z) (week : WeekRow)
  : WeekWithComputed :=
  let offset := computeOffset data week in
  {| week_row := week;
     displayTitle := computeTitle week offset;
     weekOffset := offset;
     status := computeStatus today week |}.

(** The [useState] cells, with the [console.error] and [console.warn]
    lines. *)
Record WeeksState := mkWeeksState {
  weeks : list WeekWithComputed;
  currentWeek : option WeekWithComputed;
  wk_loading : bool;                    (* loading *)
  wk_error : option string;             (* error *)
  wk_initialized : bool;                (* initialized *)
  wk_console : list (string * string)
}.

Definition initialWeeksState : WeeksState :=
  {| weeks := []; currentWeek := None; wk_loading := false;
     wk_error := None; wk_initialized := false; wk_console := [] |}.

(** The answer of the query on [weeks]: rejected, or [{ data, error }]. *)
Inductive WeeksResponse :=
| WeeksRejected (message : string)
| WeeksResolved (data : option (list WeekRow)) (error : option string).

(** [fetchWeeks]. *)
Definition fetchWeeks (response : WeeksResponse) (today : Z)
           (st : WeeksState) : WeeksState :=
  let failed err :=
    {| weeks := weeks st; currentWeek := currentWeek st; wk_loading := false;
       wk_error := Some err; wk_initialized := wk_initialized st;
       wk_console := wk_console st ++ [("Error fetching weeks:"%string, err)] |} in
  match response with
  | WeeksRejected message => failed message
  | WeeksResolved _ (Some message) => failed message
  | WeeksResolved data None =>
      let rows := JS.or_empty data in
      let processedWeeks := map (processWeek rows today) rows in
      match JS.find (fun w => is_current_week (week_row w)) processedWeeks with
      | Some cur =>
          {| weeks := processedWeeks; currentWeek := Some cur;
             wk_loading := false; wk_error := None; wk_initialized := true;
             wk_console := wk_console st |}
      | None =>
          {| weeks := processedWeeks; currentWeek := currentWeek st;
             wk_loading := false; wk_error := None; wk_initialized := true;
             wk_console :=
               wk_console st ++ [("warn"%string, "⚠️ No current week found in data"%string)] |}
      end
  end.

Section Queries.

Context {engine : JS.ArraySort}.
(** The [weeks] and [currentWeek] a callback captured. *)
Variable allWeeks : list WeekWithComputed.
Variable currentWk : option WeekWithComputed.

Definition getWeekById (weekId : string) : option WeekWithComputed :=
  JS.find (fun w => String.eqb (week_ident (week_row w)) weekId) allWeeks.

Definition getWeekByOffset (offset : Z) : option WeekWithComputed :=
  JS.find (fun w => Z.eqb (weekOffset w) offset) allWeeks.

Definition getWeeksRange (startOffset endOffset : Z) : list WeekWithComputed :=
  filter (fun w => Z.leb startOffset (weekOffset w) && Z.leb (weekOffset w) endOffset)
         allWeeks.

Definition getUpcomingWeeks (count : Z) : list WeekWithComputed :=
  JS.slice0
    (filter (fun w => WeekStatus_eqb (status w) current
                      || WeekStatus_eqb (status w) future) allWeeks)
    count.

Definition getPastWeeks (rnd : nat -> Q) (count : Z) : list WeekWithComputed :=
  JS.slice0
    (JS.sort rnd
       (fun (_ : Q) a b =>
          inject_Z (start_date (week_row b) - start_date (week_row a)))
       (filter (fun w => WeekStatus_eqb (status w) past) allWeeks))
    count.

Definition navigateToWeek (weekId : string) : option WeekWithComputed :=
  match getWeekById weekId with
  | Some week => Some week
  | None => None
  end.

Definition navigateToOffset (offset : Z) : option WeekWithComputed :=
  match getWeekByOffset offset with
  | Some week => Some week
  | None => None
  end.

Definition navigateToNextWeek : option WeekWithComputed :=
  match currentWk with
  | None => None
  | Some cur => navigateToOffset (weekOffset cur + 1)
  end.

Definition navigateToPreviousWeek : option WeekWithComputed :=
  match currentWk with
  | None => None
  | Some cur => navigateToOffset (weekOffset cur - 1)
  end.

Definition getCurrentWeekOffset : Z :=
  match currentWk with
  | Some cur => weekOffset cur
  | None => 0
  end.

Definition getWeekDateRange (weekId : string) : option (Z * Z) :=
  match getWeekById weekId with
  | None => None
  | Some week => Some (start_date (week_row week), end_date (week_row week))
  end.

Definition isCurrentWeek (weekId : string) : bool :=
  match getWeekById weekId with
  | Some week => is_current_week (week_row week)
  | None => false
  end.

Definition isPastWeek (weekId : string) : bool :=
  match getWeekById weekId with
  | Some week => WeekStatus_eqb (status week) past
  | None => false
  end.

Definition isFutureWeek (weekId : string) : bool :=
  match getWeekById weekId with
  | Some week => WeekStatus_eqb (status week) future
  | None => false
  end.

End Queries.

End WeeksProvider.

(* ================================================================== *)
(** * Vocabulary for the further properties *)
(* ================================================================== *)

Module CoverageSpec.

Import RecipeRecommendationService.

(** The scoring context that [getRecommendations] builds from its
    options. *)
Definition contextOf (options : Options) : ScoringContext :=
  {| ctx_recentRecipeIds := JS.or_empty (recentRecipeIds options);
     ctx_currentMealPlanRecipeIds :=
       JS.or_empty (currentMealPlanRecipeIds options) |}.

(** The diversity and recency terms, as the guards of [scoreRecipe] and
    [calculateDiversityBonus] give them. *)
Definition diversityTerm (config : RecommendationConfig)
           (recipe : RecipeWithTags) (context : ScoringContext) : Q :=
  match ctx_currentMealPlanRecipeIds context with
  | [] => 0%Q
  | _ :: _ =>
      if JS.has_length (tagIds recipe) && JS.has_length (diversityTagTypes config)
      then diversity (weights config) else 0%Q
  end.

Definition recencyTerm (config : RecommendationConfig)
           (recipe : RecipeWithTags) (context : ScoringContext) : Q :=
  if JS.includes (ctx_recentRecipeIds context) (recipe_id recipe)
  then recency (weights config) else 0%Q.

(** The three weights that only ever add to a score are not negative. *)
Definition bonusWeightsNonNegative (config : RecommendationConfig) : Prop :=
  (0 <= preferenceTag (weights config))%Q
  /\ (0 <= w_goalAlignment (weights config))%Q
  /\ (0 <= diversity (weights config))%Q.

(** The options [generateInitialMealPlan] passes to the hook. *)
Definition generateOptions (prefs : UserPreferencesWithTags)
           (snapshot : list MealPlanProvider.MealPlanItem) : Options :=
  {| count := JS.nullish (meals_per_week prefs) 4;
     excludeRecipeIds := Some (MealPlanProvider.planRecipeIds snapshot);
     recentRecipeIds := None;
     currentMealPlanRecipeIds := Some (MealPlanProvider.planRecipeIds snapshot) |}.

Definition generatedEntry (prefs : UserPreferencesWithTags) (ids : nat -> string)
           (i : nat) (r : ScoredRecipe)  : MealPlanProvider.MealPlanItem :=
  {| MealPlanProvider.id := ids i;
     MealPlanProvider.recipe := scored_recipe r;
     MealPlanProvider.servings := JS.num_or (serves_per_meal prefs)
                        (JS.num_or (default_servings (scored_recipe r)) 1);
     MealPlanProvider.status := None; MealPlanProvider.week_id := None;
     MealPlanProvider.user_id := None;
     MealPlanProvider.created_at := None;
     MealPlanProvider.updated_at := None |}.

(** The backend gave the week a title ([week.display_title] is truthy). *)
Definition hasBackendTitle (week : WeeksProvider.WeekRow) : bool :=
  match WeeksProvider.display_title week with
  | Some (String _ _) => true
  | _ => false
  end.

(** Descending order of a numeric key. *)
Definition descending {A} (key : A -> Q) (a b : A) : Prop := (key b <= key a)%Q.

(** The comparator orders [a] and [b] as a numeric key does, the
    larger key first: its answer is negative exactly when [a] has the
    larger key and positive exactly when [a] has the smaller one (so it
    is zero exactly on equal keys), whatever the draw. *)
Definition signsAgree {A} (cmp : Q -> A -> A -> Q) (key : A -> Q) (a b : A)
  : Prop :=
  forall u, ((cmp u a b < 0)%Q <-> (key b < key a)%Q)
            /\ ((0 < cmp u a b)%Q <-> (key a < key b)%Q).

(** What [Array.prototype.sort] promises besides keeping the elements:
    for a comparator that is consistent on the elements of the array,
    here one that agrees in sign with a key on every two of them, the
    sorted array is in the order of the key. *)
Definition SortsByComparator (engine : JS.ArraySort) : Prop :=
  forall (A : Type) (rnd : nat -> Q) (cmp : Q -> A -> A -> Q)
         (key : A -> Q) (l : list A),
    (forall a b, In a l -> In b l -> signsAgree cmp key a b) ->
    StronglySorted (descending key) (JS.sort rnd cmp l).

(** The same promise from an engine that never asks the comparator
    about an element and itself: on an array without repetition the
    comparator need only agree with the key on different elements. *)
Definition SortsDistinctElements (engine : JS.ArraySort) : Prop :=
  forall (A : Type) (rnd : nat -> Q) (cmp : Q -> A -> A -> Q)
         (key : A -> Q) (l : list A),
    NoDup l ->
    (forall a b, In a l -> In b l -> a <> b -> signsAgree cmp key a b) ->
    StronglySorted (descending key) (JS.sort rnd cmp l).

(** A second engine, which tests the comparator for a negative answer:
    insertion sort that places the new element [x] in front of the
    first [y] for which the comparator answers a negative number on
    [(x, y)]. *)
Fixpoint insert_ahead {A} (rnd : nat -> Q) (cmp : Q -> A -> A -> Q)
         (k : nat) (x : A) (l : list A) : list A * nat :=
  match l with
  | [] => ([x], k)
  | y :: l' =>
      if JS.lt (cmp (rnd k) x y) 0
      then (x :: y :: l', Datatypes.S k)
      else let '(r, k') := insert_ahead rnd cmp (Datatypes.S k) x l' in
           (y :: r, k')
  end.

Fixpoint ahead_sort_from {A} (rnd : nat -> Q) (cmp : Q -> A -> A -> Q)
         (k : nat) (acc : list A) (l : list A) : list A :=
  match l with
  | [] => acc
  | x :: l' =>
      let '(acc', k') := insert_ahead rnd cmp k x acc in
      ahead_sort_from rnd cmp k' acc' l'
  end.

Definition ahead_sort {A} (rnd : nat -> Q) (cmp : Q -> A -> A -> Q)
           (l : list A) : list A :=
  ahead_sort_from rnd cmp 0%nat [] l.

(** Numbers on which the rationals used here and the doubles of the
    code agree: the integer multiples of 1/1024 of size at most 1024.
    With such weights and at most 1024 goals, every value the scoring
    computes for an array (fewer than 2^32 tags) is a multiple of
    1/1024 below 2^43, which binary64 holds and adds exactly, and the
    comparison with 0.01 comes out the same.  The default weights
    1, 2, 0.5 and -0.5 are of this kind. *)
Definition dyadic (q : Q) : Prop :=
  exists n : Z, Z.abs n <= 2 ^ 20 /\ (q == n # 1024)%Q.

Definition exactScoring (config : RecommendationConfig)
           (preferences : UserPreferencesWithTags) : Prop :=
  dyadic (preferenceTag (weights config))
  /\ dyadic (w_goalAlignment (weights config))
  /\ dyadic (diversity (weights config))
  /\ dyadic (recency (weights config))
  /\ (List.length (JS.or_empty (user_goals preferences)) <= 1024)%nat.

(** No two candidates have scores closer than the tie margin 0.01. *)
Definition noNearTies (candidates : list ScoredRecipe) : Prop :=
  forall a b, In a candidates -> In b candidates -> a <> b ->
              (1 # 100 <= Qabs (score a - score b))%Q.

End CoverageSpec.

(* ================================================================== *)
(** * Further sample data *)
(* ================================================================== *)

Module CoverageFixtures.

Import RecipeRecommendationService.
Open Scope string_scope.

(** The default configuration without its minimum score. *)
Definition noFloorConfig : RecommendationConfig :=
  {| weights := weights DEFAULT_CONFIG;
     diversityTagTypes := diversityTagTypes DEFAULT_CONFIG;
     recencyWindowDays := recencyWindowDays DEFAULT_CONFIG;
     minimumScore := None |}.

(** Two recommendations wanted, the stew excluded. *)
Definition withoutStew : Options :=
  {| count := 2; excludeRecipeIds := Some ["r-stew"];
     recentRecipeIds := None; currentMealPlanRecipeIds := None |}.

(** A user who has chosen neither tags nor goals. *)
Definition newUser : UserPreferencesWithTags :=
  Fixtures.samplePreferences [] [].

(** Two saved rows: one for a catalog recipe, one for a recipe that has
    left the catalog. *)
Definition curryRow : MealPlanProvider.SavedRow :=
  {| MealPlanProvider.row_id := "41";
     MealPlanProvider.row_recipe_id := "r-curry";
     MealPlanProvider.row_recipe_name := "Curry";
     MealPlanProvider.row_recipe_image_url := None;
     MealPlanProvider.row_recipe_total_time := Some 30;
     MealPlanProvider.row_servings := 3;
     MealPlanProvider.row_status := MealPlanProvider.confirmed;
     MealPlanProvider.row_week_id := "week-1";
     MealPlanProvider.row_user_id := "u1";
     MealPlanProvider.row_created_at := "2025-01-02";
     MealPlanProvider.row_updated_at := "2025-01-03" |}.

Definition goneRow : MealPlanProvider.SavedRow :=
  {| MealPlanProvider.row_id := "42";
     MealPlanProvider.row_recipe_id := "r-gone";
     MealPlanProvider.row_recipe_name := "Retired soup";
     MealPlanProvider.row_recipe_image_url := Some "soup.png";
     MealPlanProvider.row_recipe_total_time := Some 45;
     MealPlanProvider.row_servings := 2;
     MealPlanProvider.row_status := MealPlanProvider.confirmed;
     MealPlanProvider.row_week_id := "week-1";
     MealPlanProvider.row_user_id := "u1";
     MealPlanProvider.row_created_at := "2025-01-02";
     MealPlanProvider.row_updated_at := "2025-01-03" |}.

Definition savedWeek (_ : string) : MealPlanProvider.RpcResponse :=
  MealPlanProvider.RpcResolved (Some [curryRow; goneRow]) None.

(** A backend that holds a plan for week 1 only. *)
Definition weekOneOnly (weekId : string) : MealPlanProvider.RpcResponse :=
  if String.eqb weekId "week-1" then savedWeek weekId
  else MealPlanProvider.RpcResolved (Some []) None.

(** Remote writes that go through, and that fail. *)
Definition acceptReplace (_ : MealPlanStore.ReplaceArgs)
  : MealPlanStore.WriteResponse := MealPlanStore.WriteResolved None.

Definition refuseReplace (_ : MealPlanStore.ReplaceArgs)
  : MealPlanStore.WriteResponse :=
  MealPlanStore.WriteResolved (Some "permission denied").

Definition acceptStatus (_ : MealPlanStore.StatusArgs)
  : MealPlanStore.WriteResponse := MealPlanStore.WriteResolved None.

Definition refuseStatus (_ : MealPlanStore.StatusArgs)
  : MealPlanStore.WriteResponse := MealPlanStore.WriteRejected "offline".

(** Stored preferences of a signed-in user. *)
Definition savedPrefs : UserPreferencesWithTags :=
  Fixtures.samplePreferences ["time"] ["t-thai"].

Definition prefsLoaded : UserPreferencesProvider.PreferencesState :=
  {| UserPreferencesProvider.preferences := Some savedPrefs;
     UserPreferencesProvider.up_loading := false;
     UserPreferencesProvider.up_error := None;
     UserPreferencesProvider.up_initialized := true;
     UserPreferencesProvider.up_console_error := [] |}.

(** Three weeks; the third starts an hour late, as after a clock
    change. *)
Definition lastWeekRow : WeeksProvider.WeekRow :=
  {| WeeksProvider.week_ident := "w-1";
     WeeksProvider.start_date := 1735516800000;
     WeeksProvider.end_date := 1736035200000;
     WeeksProvider.is_current_week := false;
     WeeksProvider.display_title := None |}.

Definition thisWeekRow : WeeksProvider.WeekRow :=
  {| WeeksProvider.week_ident := "w0";
     WeeksProvider.start_date := 1736121600000;
     WeeksProvider.end_date := 1736640000000;
     WeeksProvider.is_current_week := true;
     WeeksProvider.display_title := Some "6 - 12 Jan" |}.

Definition inTwoWeeksRow : WeeksProvider.WeekRow :=
  {| WeeksProvider.week_ident := "w2";
     WeeksProvider.start_date := 1737334800000;
     WeeksProvider.end_date := 1737853200000;
     WeeksProvider.is_current_week := false;
     WeeksProvider.display_title := None |}.

Definition weekRows : list WeeksProvider.WeekRow :=
  [lastWeekRow; thisWeekRow; inTwoWeeksRow].

(** A Wednesday of the current week. *)
Definition today : Z := 1736300000000.

Definition weeksLoaded : WeeksProvider.WeeksState :=
  WeeksProvider.fetchWeeks (WeeksProvider.WeeksResolved (Some weekRows) None)
                           today WeeksProvider.initialWeeksState.

End CoverageFixtures.

(* ================================================================== *)
(** * Properties of the built-ins *)
(* ================================================================== *)

Module JSFacts.

Import JS.

Lemma insert_by_permutation {A} (rnd : nat -> Q) (cmp : Q -> A -> A -> Q)
      (x : A) (l : list A) :
  forall k, Permutation (fst (insert_by rnd cmp k x l)) (x :: l).
Proof.
  induction l as [|y l IH]; intro k; simpl.
  - apply Permutation_refl.
  - destruct (lt 0 (cmp (rnd k) y x)); simpl.
    + apply Permutation_refl.
    + specialize (IH (Datatypes.S k)).
      destruct (insert_by rnd cmp (Datatypes.S k) x l) as [r k']; simpl in *.
      eapply perm_trans; [apply perm_skip, IH | apply perm_swap].
Qed.

Lemma insertion_sort_from_permutation {A} (rnd : nat -> Q)
      (cmp : Q -> A -> A -> Q) (l : list A) :
  forall k acc, Permutation (insertion_sort_from rnd cmp k acc l) (acc ++ l).
Proof.
  induction l as [|x l IH]; intros k acc; simpl.
  - rewrite app_nil_r. apply Permutation_refl.
  - pose proof (insert_by_permutation rnd cmp x acc k) as Hins.
    destruct (insert_by rnd cmp k x acc) as [acc' k']; simpl in Hins.
    eapply perm_trans; [apply IH|].
    eapply perm_trans; [apply Permutation_app_tail, Hins|].
    simpl. apply Permutation_middle.
Qed.

Lemma insertion_sort_permutation {A} (rnd : nat -> Q)
      (cmp : Q -> A -> A -> Q) (l : list A) :
  Permutation (insertion_sort rnd cmp l) l.
Proof.
  unfold insertion_sort.
  apply (insertion_sort_from_permutation rnd cmp l 0%nat []).
Qed.

(** The insertion-sort engine is an [ArraySort].  It is not registered
    as an instance: the general statements below hold for every
    engine, and the worked examples name this one. *)
Definition insertionEngine : ArraySort :=
  {| sort := @insertion_sort;
     sort_permutation := @insertion_sort_permutation |}.

Lemma slice0_is_prefix {A} (l : list A) (e : Z) :
  exists n, slice0 l e = firstn n l.
Proof. unfold slice0. eexists. reflexivity. Qed.

Lemma slice0_length_le {A} (l : list A) (e : Z) :
  0 <= e -> Z.of_nat (List.length (slice0 l e)) <= e.
Proof.
  intro He. unfold slice0.
  destruct (Z.ltb_spec e 0) as [Hneg|_]; [lia|].
  rewrite length_firstn. lia.
Qed.

Lemma slice0_positive {A} (l : list A) (e : Z) :
  0 <= e -> slice0 l e = firstn (Z.to_nat e) l.
Proof.
  intro He. unfold slice0.
  destruct (Z.ltb_spec e 0) as [Hneg|_]; [lia|].
  destruct (Z.le_gt_cases e (Z.of_nat (List.length l))) as [Hle|Hgt].
  - rewrite Z.min_l by assumption. reflexivity.
  - rewrite Z.min_r by lia. rewrite Nat2Z.id.
    rewrite firstn_all. symmetry. apply firstn_all2. lia.
Qed.

Lemma In_firstn {A} (n : nat) (l : list A) (x : A) :
  In x (firstn n l) -> In x l.
Proof.
  intro Hin. rewrite <- (firstn_skipn n l). apply in_or_app. now left.
Qed.

Lemma NoDup_firstn {A} (n : nat) (l : list A) :
  NoDup l -> NoDup (firstn n l).
Proof.
  revert n. induction l as [|x l IH]; intros [|n] Hnd; simpl;
    try constructor.
  - inversion Hnd as [|? ? Hx Hl]; subst.
    intro Hin. apply Hx. eapply In_firstn; eassumption.
  - inversion Hnd; subst. apply IH. assumption.
Qed.

Lemma NoDup_map_filter {K V} (key : V -> K) (keep : V -> bool) :
  forall xs : list V,
    NoDup (map key xs) -> NoDup (map key (filter keep xs)).
Proof.
  intro xs. induction xs as [|x xs IH]; simpl; intro Hnd; [constructor|].
  inversion Hnd as [|? ? Hx Hl]; subst.
  destruct (keep x); simpl; [constructor|]; auto.
  intro Hin. apply Hx.
  apply in_map_iff in Hin. destruct Hin as [y [Hy Hin]].
  apply filter_In in Hin. apply in_map_iff. exists y. tauto.
Qed.

Lemma In_slice0 {A} (l : list A) (e : Z) (x : A) :
  In x (slice0 l e) -> In x l.
Proof. unfold slice0. apply In_firstn. Qed.

Lemma includes_spec (l : list string) (x : string) :
  includes l x = true <-> In x l.
Proof.
  unfold includes. rewrite existsb_exists. split.
  - intros [y [Hin Heq]]. apply String.eqb_eq in Heq. subst. assumption.
  - intro Hin. exists x. split; [assumption | apply String.eqb_refl].
Qed.

Lemma num_or_ge_1 (a : option Z) (d : Z) :
  match a with Some v => 0 <= v | None => True end ->
  1 <= d -> 1 <= num_or a d.
Proof.
  destruct a as [v|]; simpl; intros Ha Hd; [|assumption].
  destruct v; simpl; lia.
Qed.

End JSFacts.

(* ================================================================== *)
(** * The recommendation selector *)
(* ================================================================== *)

Module SelectorFacts.

Import JS JSFacts RecipeRecommendationService.

Ltac distinct_strings :=
  repeat (constructor; [simpl; intuition discriminate|]); constructor.

Section WithEngine.

Context {engine : ArraySort}.
Variable config : RecommendationConfig.

Lemma scoreRecipe_recipe recipe preferences tags context :
  scored_recipe (scoreRecipe config recipe preferences tags context) = recipe.
Proof.
  unfold scoreRecipe.
  destruct (scorePreferenceTags config recipe preferences).
  destruct (scoreGoalAlignment config recipe preferences tags).
  reflexivity.
Qed.

Lemma availableRecipes_subset recipes options r :
  In r (availableRecipes recipes options) -> In r recipes.
Proof.
  unfold availableRecipes.
  destruct (excludeRecipeIds options) as [[|e es]|]; auto.
  intro Hin. apply filter_In in Hin. tauto.
Qed.

Lemma availableRecipes_distinct recipes options :
  NoDup (map recipe_id recipes) ->
  NoDup (map recipe_id (availableRecipes recipes options)).
Proof.
  unfold availableRecipes.
  destruct (excludeRecipeIds options) as [[|e es]|]; auto.
  apply NoDup_map_filter.
Qed.

Lemma scoredRecipes_ids recipes preferences tags options :
  map (fun r => recipe_id (scored_recipe r))
      (scoredRecipes config recipes preferences tags options)
  = map recipe_id (availableRecipes recipes options).
Proof.
  unfold scoredRecipes. rewrite map_map. apply map_ext.
  intro r. now rewrite scoreRecipe_recipe.
Qed.

(** Every recommendation is the scoring of a catalog recipe. *)
Lemma getRecommendations_from_catalog rnd recipes preferences tags options r :
  In r (getRecommendations config rnd recipes preferences tags options) ->
  In (scored_recipe r) recipes.
Proof.
  unfold getRecommendations. intro Hin.
  apply In_slice0 in Hin.
  eapply Permutation_in in Hin; [|apply sort_permutation].
  unfold validRecipes in Hin. apply filter_In in Hin. destruct Hin as [Hin _].
  unfold scoredRecipes in Hin. apply in_map_iff in Hin.
  destruct Hin as [x [Hx Hin]]. subst r. rewrite scoreRecipe_recipe.
  eapply availableRecipes_subset; eassumption.
Qed.

Lemma getRandomRecommendations_from_catalog rnd recipes n excluded r :
  In r (getRandomRecommendations rnd recipes n excluded) -> In r recipes.
Proof.
  unfold getRandomRecommendations. intro Hin.
  apply In_slice0 in Hin.
  eapply Permutation_in in Hin; [|apply sort_permutation].
  apply filter_In in Hin. tauto.
Qed.

Lemma getRecommendations_distinct rnd recipes preferences tags options :
  NoDup (map recipe_id recipes) ->
  NoDup (map (fun r => recipe_id (scored_recipe r))
             (getRecommendations config rnd recipes preferences tags options)).
Proof.
  intro Hnd. unfold getRecommendations.
  destruct (slice0_is_prefix
              (sort rnd (compareScores)
                 (validRecipes config
                    (scoredRecipes config recipes preferences tags options)))
              (count options)) as [n Hn].
  rewrite Hn, <- firstn_map. apply NoDup_firstn.
  eapply Permutation_NoDup.
  - apply Permutation_map, Permutation_sym, sort_permutation.
  - unfold validRecipes. apply NoDup_map_filter.
    rewrite scoredRecipes_ids. now apply availableRecipes_distinct.
Qed.

(** ** The hook in front of the service *)

Lemma hook_recommendations_from_catalog recipes tags rnd prefs options r :
  In r (UseRecipeRecommendations.getRecommendations
          config recipes tags rnd prefs options) ->
  In (scored_recipe r) recipes.
Proof.
  unfold UseRecipeRecommendations.getRecommendations.
  destruct recipes as [|r0 rs] eqn:Hcat; [intros []|].
  rewrite <- Hcat.
  destruct (negb (has_length (user_preference_tags prefs))
            && negb (has_length (user_goals prefs))).
  - intro Hin. apply in_map_iff in Hin. destruct Hin as [x [Hx Hin]].
    subst r. simpl.
    eapply getRandomRecommendations_from_catalog; eassumption.
  - apply getRecommendations_from_catalog.
Qed.

Lemma hook_recommendations_distinct recipes tags rnd prefs options :
  NoDup (map recipe_id recipes) ->
  NoDup (map (fun r => recipe_id (scored_recipe r))
             (UseRecipeRecommendations.getRecommendations
                config recipes tags rnd prefs options)).
Proof.
  intro Hnd. unfold UseRecipeRecommendations.getRecommendations.
  destruct recipes as [|r0 rs] eqn:Hcat; [constructor|].
  rewrite <- Hcat in *.
  destruct (negb (has_length (user_preference_tags prefs))
            && negb (has_length (user_goals prefs))).
  - rewrite map_map. simpl.
    unfold getRandomRecommendations.
    match goal with
    | |- NoDup (map _ (slice0 ?l ?e)) =>
        destruct (slice0_is_prefix l e) as [n Hn]; rewrite Hn
    end.
    rewrite <- firstn_map. apply NoDup_firstn.
    eapply Permutation_NoDup.
    + apply Permutation_map, Permutation_sym, sort_permutation.
    + now apply NoDup_map_filter.
  - now apply getRecommendations_distinct.
Qed.

Lemma hook_recommendations_length recipes tags rnd prefs options :
  0 <= count options ->
  Z.of_nat (List.length (UseRecipeRecommendations.getRecommendations
                           config recipes tags rnd prefs options))
  <= count options.
Proof.
  intro Hcount. unfold UseRecipeRecommendations.getRecommendations.
  destruct recipes as [|r0 rs] eqn:Hcat; [simpl; lia|].
  rewrite <- Hcat.
  destruct (negb (has_length (user_preference_tags prefs))
            && negb (has_length (user_goals prefs))).
  - rewrite length_map. unfold getRandomRecommendations.
    now apply slice0_length_le.
  - unfold getRecommendations. now apply slice0_length_le.
Qed.

(** C1 (as amended).  For a count that is not negative the result of
    [getRecommendations] has at most [count] entries, whatever the
    size of the catalog; and when the recipe identifiers of the
    catalog are pairwise distinct, so are those of the result.  The
    same holds for the hook's [getRecommendations], which also covers
    the random selection made for a user without preferences. *)
Theorem getRecommendations_bounded_distinct
        rnd recipes preferences tags options :
  let out := getRecommendations config rnd recipes preferences tags options in
  let viaHook :=
    UseRecipeRecommendations.getRecommendations
      config recipes tags rnd preferences options in
  (0 <= count options ->
   Z.of_nat (List.length out) <= count options
   /\ Z.of_nat (List.length viaHook) <= count options)
  /\ (NoDup (map recipe_id recipes) ->
      NoDup (map (fun r => recipe_id (scored_recipe r)) out)
      /\ NoDup (map (fun r => recipe_id (scored_recipe r)) viaHook)).
Proof.
  intros out viaHook. subst out viaHook. split.
  - intro Hcount. split.
    + unfold getRecommendations. now apply slice0_length_le.
    + now apply hook_recommendations_length.
  - intro Hnd. split.
    + now apply getRecommendations_distinct.
    + now apply hook_recommendations_distinct.
Qed.

(** C2 (as amended).  When the current plan is not empty, the
    diversity term of [scoreRecipe] is the configured diversity weight
    for a recipe that has at least one tag identifier (the list of
    diversity tag types being non-empty) and 0 otherwise; the planned
    recipes and the taxonomy have no influence on it. *)
Theorem diversity_term_flat recipe preferences tags context :
  ctx_currentMealPlanRecipeIds context <> [] ->
  diversityBonus (scoreBreakdown (scoreRecipe config recipe preferences tags context))
  = if has_length (tagIds recipe) && has_length (diversityTagTypes config)
    then diversity (weights config) else 0%Q.
Proof.
  intro Hplan. unfold scoreRecipe.
  destruct (scorePreferenceTags config recipe preferences).
  destruct (scoreGoalAlignment config recipe preferences tags).
  simpl. destruct (ctx_currentMealPlanRecipeIds context) as [|p ps];
    [congruence|].
  unfold calculateDiversityBonus.
  destruct (has_length (tagIds recipe)),
           (has_length (diversityTagTypes config)); reflexivity.
Qed.

End WithEngine.

(** C3 (as amended).  Under the default configuration the minimum-score
    step keeps exactly the scored recipes whose total is at least 0, in
    their order: a recipe with a negative total is dropped before the
    ranking, and no recommendation has a negative score. *)
Theorem default_minimum_score_filters {engine : ArraySort} :
  (forall scored,
      validRecipes DEFAULT_CONFIG scored
      = filter (fun r => Qle_bool 0 (score r)) scored)
  /\ (forall scored r,
         In r (validRecipes DEFAULT_CONFIG scored)
         <-> In r scored /\ (0 <= score r)%Q)
  /\ (forall rnd recipes preferences tags options r,
         In r (getRecommendations DEFAULT_CONFIG rnd recipes preferences tags options) ->
         (0 <= score r)%Q).
Proof.
  assert (Hkeep : forall scored r,
             In r (validRecipes DEFAULT_CONFIG scored)
             <-> In r scored /\ (0 <= score r)%Q).
  { intros scored r. unfold validRecipes. rewrite filter_In. simpl.
    rewrite Qle_bool_iff. tauto. }
  split; [reflexivity|]. split; [exact Hkeep|].
  intros rnd recipes preferences tags options r Hin.
  unfold getRecommendations in Hin. apply In_slice0 in Hin.
  eapply Permutation_in in Hin; [|apply sort_permutation].
  now apply Hkeep in Hin.
Qed.

End SelectorFacts.

Module SelectorExamples.

Import JS JSFacts RecipeRecommendationService Fixtures SelectorFacts.
Open Scope string_scope.

Definition select := getRecommendations (engine := insertionEngine) DEFAULT_CONFIG.

Definition ids (out : list ScoredRecipe) : list string :=
  map (fun r => recipe_id (scored_recipe r)) out.

Example select_ranks_by_score :
  ids (select draws [plainToast; cheapStew; quickCurry] prefs taxonomy
              (optionsFor 2 [] []))
  = ["r-curry"; "r-stew"].
Proof. vm_compute. reflexivity. Qed.

(** C1, the claim as stated fails twice: a catalog that lists one
    identifier twice gives it back twice, and a negative count makes
    [slice] drop from the end, leaving more than [count] entries. *)
Lemma select_duplicates_and_negative_count :
  ~ NoDup (ids (select draws [quickCurry; quickCurry] prefs taxonomy
                       (optionsFor 2 [] [])))
  /\ ~ (Z.of_nat (List.length
                    (select draws [quickCurry; cheapStew; plainToast] prefs
                            taxonomy (optionsFor (-1) [] [])))
        <= count (optionsFor (-1) [] [])).
Proof.
  split.
  - intro Hnd. vm_compute in Hnd.
    inversion Hnd as [|x l Hx Hl]; subst. apply Hx. now left.
  - vm_compute. intro H. apply H. reflexivity.
Qed.

Lemma select_bounded_distinct_witness :
  Z.of_nat (List.length
              (select draws [quickCurry; cheapStew; plainToast] prefs taxonomy
                      (optionsFor 2 [] []))) <= 2
  /\ NoDup (ids (select draws [quickCurry; cheapStew; plainToast] prefs taxonomy
                        (optionsFor 2 [] []))).
Proof.
  destruct (getRecommendations_bounded_distinct
              (engine := insertionEngine) DEFAULT_CONFIG draws
              [quickCurry; cheapStew; plainToast] prefs taxonomy
              (optionsFor 2 [] [])) as [Hlen Hnd].
  split.
  - apply Hlen. simpl. lia.
  - apply Hnd. simpl. distinct_strings.
Defined.

(** C2, the claim as stated fails for a recipe without tag identifiers:
    with a non-empty plan its diversity term is 0, not the weight 1/2. *)
Lemma diversity_zero_without_tags :
  ctx_currentMealPlanRecipeIds planned <> []
  /\ ~ (diversityBonus
          (scoreBreakdown (scoreRecipe DEFAULT_CONFIG plainToast prefs taxonomy planned))
        == diversity (weights DEFAULT_CONFIG))%Q.
Proof.
  split; [discriminate|].
  vm_compute. discriminate.
Qed.

Lemma diversity_term_flat_witness :
  diversityBonus
    (scoreBreakdown (scoreRecipe DEFAULT_CONFIG quickCurry prefs taxonomy planned))
  = 1 # 2.
Proof.
  rewrite (diversity_term_flat DEFAULT_CONFIG quickCurry prefs taxonomy planned).
  - reflexivity.
  - simpl. discriminate.
Defined.

(** C3, the claim as stated fails: a recipe whose only term is the
    recency penalty is scored -1/2 and does not survive the
    minimum-score step of the default configuration. *)
Lemma default_floor_drops_negative_total :
  let options := optionsFor 1 ["r-toast"] [] in
  let scored := scoredRecipes DEFAULT_CONFIG [plainToast] prefs taxonomy options in
  (map score scored = [- (1 # 2)]%Q)
  /\ validRecipes DEFAULT_CONFIG scored = []
  /\ select draws [plainToast] prefs taxonomy options = [].
Proof. vm_compute. repeat split. Qed.

Lemma default_minimum_score_witness :
  (0 <= score (scoreRecipe DEFAULT_CONFIG quickCurry prefs taxonomy fresh))%Q.
Proof.
  apply (proj2 (proj2 (default_minimum_score_filters (engine := insertionEngine)))
               draws [plainToast; quickCurry] prefs taxonomy
               (optionsFor 1 ["r-toast"] [])).
  vm_compute. left. reflexivity.
Defined.

End SelectorExamples.

(* ================================================================== *)
(** * The scoring engine *)
(* ================================================================== *)

Module ScoringFacts.

Import JS JSFacts RecipeRecommendationService ScoringSpec.

Section Scoring.

Variable config : RecommendationConfig.
Variable preferences : UserPreferencesWithTags.

Let w_pref := preferenceTag (weights config).
Let w_goal := w_goalAlignment (weights config).

(** ** The total and its four terms *)

Lemma scoreRecipe_terms recipe tags context :
  let s := scoreRecipe config recipe preferences tags context in
  preferenceTagMatches (scoreBreakdown s) = fst (scorePreferenceTags config recipe preferences)
  /\ goalAlignment (scoreBreakdown s) = fst (scoreGoalAlignment config recipe preferences tags)
  /\ diversityBonus (scoreBreakdown s)
     = match ctx_currentMealPlanRecipeIds context with
       | _ :: _ =>
           calculateDiversityBonus config recipe
             (ctx_currentMealPlanRecipeIds context) tags
       | [] => 0%Q
       end
  /\ recencyPenalty (scoreBreakdown s)
     = (if includes (ctx_recentRecipeIds context) (recipe_id recipe)
        then recency (weights config) else 0%Q)
  /\ matchedTagIds s = snd (scorePreferenceTags config recipe preferences)
  /\ matchedGoals s = snd (scoreGoalAlignment config recipe preferences tags)
  /\ score s = total (scoreBreakdown s)
  /\ score s = (preferenceTagMatches (scoreBreakdown s)
                + goalAlignment (scoreBreakdown s)
                + diversityBonus (scoreBreakdown s)
                + recencyPenalty (scoreBreakdown s))%Q.
Proof.
  unfold scoreRecipe.
  destruct (scorePreferenceTags config recipe preferences).
  destruct (scoreGoalAlignment config recipe preferences tags).
  simpl. repeat split; reflexivity.
Qed.

(** ** Preference-tag matches *)

Lemma isPreferred_needs_tags t :
  has_length (user_preference_tags preferences) = false ->
  isPreferred (user_preference_tags preferences) t = false.
Proof.
  unfold isPreferred.
  destruct (user_preference_tags preferences) as [[|p ps]|];
    simpl; intro H; (reflexivity || discriminate).
Qed.

Lemma preference_loop (ids : list string) :
  forall index (acc : Q * list string),
    let out :=
      forEach_from
        (fun (acc : Q * list string) tagId (_ : nat) =>
           if isPreferred (user_preference_tags preferences) tagId
           then ((fst acc + preferenceTag (weights config))%Q, snd acc ++ [tagId])
           else acc)
        ids index acc in
    (fst out ==
     fst acc
     + inject_Z (Z.of_nat (List.length
                             (filter (isPreferred (user_preference_tags preferences)) ids)))
       * w_pref)%Q
    /\ snd out
       = snd acc ++ filter (isPreferred (user_preference_tags preferences)) ids.
Proof.
  induction ids as [|t ids IH]; intros index acc; simpl.
  - split; [unfold inject_Z; simpl; lra | now rewrite app_nil_r].
  - destruct (isPreferred (user_preference_tags preferences) t) eqn:Ht.
    + destruct (IH (Datatypes.S index)
                   ((fst acc + preferenceTag (weights config))%Q, snd acc ++ [t]))
        as [Hq Hl].
      split.
      * rewrite Hq. simpl fst. cbn [List.length].
        rewrite Nat2Z.inj_succ, <- Z.add_1_r, inject_Z_plus.
        change (inject_Z 1) with 1%Q. unfold w_pref. ring.
      * rewrite Hl. simpl snd. now rewrite <- app_assoc.
    + apply IH.
Qed.

Lemma scorePreferenceTags_spec recipe :
  (fst (scorePreferenceTags config recipe preferences)
   == inject_Z (Z.of_nat (preferredCount recipe preferences)) * w_pref)%Q
  /\ snd (scorePreferenceTags config recipe preferences)
     = filter (isPreferred (user_preference_tags preferences))
              (or_empty (tagIds recipe)).
Proof.
  unfold scorePreferenceTags, preferredCount.
  destruct (tagIds recipe) as [ids|]; simpl.
  - destruct (has_length (user_preference_tags preferences)) eqn:Hlen.
    + destruct (preference_loop ids 0%nat (0%Q, [])) as [Hq Hl].
      unfold forEach. split.
      * rewrite Hq. simpl fst. lra.
      * rewrite Hl. reflexivity.
    + assert (Hnone : filter (isPreferred (user_preference_tags preferences)) ids = []).
      { induction ids as [|t ids IH]; simpl; [reflexivity|].
        now rewrite isPreferred_needs_tags. }
      rewrite Hnone. simpl. split; [unfold inject_Z; simpl; lra | reflexivity].
  - split; [unfold inject_Z; simpl; lra | reflexivity].
Qed.

(** ** Goal alignment *)

Lemma goalTags_nonempty (tags : list Tag) ids goalType :
  match goalTagsOf (recipeTagsOf ids tags) goalType with
  | [] => false
  | _ :: _ => true
  end
  = existsb (fun tag => includes ids (tag_ident tag)
                        && String.eqb (tag_type tag) goalType) tags.
Proof.
  unfold goalTagsOf, recipeTagsOf.
  induction tags as [|tag rest IH]; simpl; [reflexivity|].
  destruct (includes ids (tag_ident tag)); simpl; [|exact IH].
  destruct (String.eqb (tag_type tag) goalType); simpl; [reflexivity|exact IH].
Qed.

Lemma goal_loop (tags : list Tag) recipe ids (n : nat) (goals : list string) :
  tagIds recipe = Some ids ->
  forall index (acc : Q * list string),
    let out :=
      forEach_from
        (fun (acc : Q * list string) goalType index =>
           let priority := (Z.of_nat n - Z.of_nat index)%Z in
           match goalTagsOf (recipeTagsOf ids tags) goalType with
           | _ :: _ =>
               ((fst acc + inject_Z priority * w_goalAlignment (weights config))%Q,
                snd acc ++ [goalType])
           | [] => acc
           end)
        goals index acc in
    (fst out == fst acc + goalAlignmentFrom w_goal n recipe tags goals index)%Q
    /\ snd out = snd acc ++ filter (matchesGoal recipe tags) goals.
Proof.
  intro Hids.
  assert (Hmatch : forall g,
             matchesGoal recipe tags g
             = match goalTagsOf (recipeTagsOf ids tags) g with
               | [] => false
               | _ :: _ => true
               end).
  { intro g. unfold matchesGoal. rewrite Hids. simpl or_empty.
    symmetry. apply goalTags_nonempty. }
  induction goals as [|g gs IH]; intros index acc.
  - simpl. split; [lra | now rewrite app_nil_r].
  - cbn [forEach_from goalAlignmentFrom filter]. unfold goalTerm.
    rewrite (Hmatch g).
    destruct (goalTagsOf (recipeTagsOf ids tags) g) as [|tag rest].
    + destruct (IH (Datatypes.S index) acc) as [Hq Hl].
      split.
      * eapply Qeq_trans; [apply Hq | lra].
      * exact Hl.
    + destruct (IH (Datatypes.S index)
                   ((fst acc + inject_Z (Z.of_nat n - Z.of_nat index)
                               * w_goalAlignment (weights config))%Q,
                    snd acc ++ [g])) as [Hq Hl].
      split.
      * eapply Qeq_trans; [apply Hq|]. simpl fst. unfold w_goal. lra.
      * eapply eq_trans; [apply Hl|]. simpl snd.
        rewrite <- app_assoc. reflexivity.
Qed.

Lemma goalAlignmentFrom_no_match (tags : list Tag) w n recipe goals :
  (forall g, matchesGoal recipe tags g = false) ->
  forall index,
    (goalAlignmentFrom w n recipe tags goals index == 0)%Q
    /\ filter (matchesGoal recipe tags) goals = [].
Proof.
  intro Hno. induction goals as [|g gs IH]; intro index; simpl.
  - split; [lra | reflexivity].
  - unfold goalTerm. rewrite Hno. destruct (IH (Datatypes.S index)) as [Hq Hl].
    split; [rewrite Hq; lra | exact Hl].
Qed.

Lemma scoreGoalAlignment_spec (tags : list Tag) recipe :
  (fst (scoreGoalAlignment config recipe preferences tags)
   == goalAlignmentSpec config recipe preferences tags)%Q
  /\ snd (scoreGoalAlignment config recipe preferences tags)
     = filter (matchesGoal recipe tags) (or_empty (user_goals preferences)).
Proof.
  unfold scoreGoalAlignment, goalAlignmentSpec.
  destruct (tagIds recipe) as [ids|] eqn:Hids.
  - destruct (user_goals preferences) as [[|g gs]|]; simpl or_empty;
      try (simpl; split; [lra | reflexivity]).
    destruct tags as [|tag rest].
    + assert (Hno : forall g', matchesGoal recipe [] g' = false)
        by reflexivity.
      destruct (goalAlignmentFrom_no_match []
                  (w_goalAlignment (weights config))
                  (List.length (g :: gs)) recipe (g :: gs) Hno 0%nat)
        as [Hq Hl].
      rewrite Hq, Hl. simpl. split; [lra | reflexivity].
    + destruct (goal_loop (tag :: rest) recipe ids (List.length (g :: gs)) (g :: gs) Hids
                          0%nat (0%Q, [])) as [Hq Hl].
      unfold forEach. split.
      * eapply Qeq_trans; [apply Hq|]. simpl fst. unfold w_goal. lra.
      * eapply eq_trans; [apply Hl|]. reflexivity.
  - assert (Hno : forall g, matchesGoal recipe tags g = false).
    { intro g. unfold matchesGoal. rewrite Hids. simpl.
      induction tags as [|tag rest IH]; simpl; [reflexivity | exact IH]. }
    destruct (goalAlignmentFrom_no_match tags
                (w_goalAlignment (weights config))
                (List.length (or_empty (user_goals preferences))) recipe
                (or_empty (user_goals preferences)) Hno 0%nat) as [Hq Hl].
    rewrite Hq, Hl. simpl. split; [lra | reflexivity].
Qed.


(** ** Monotonicity in the recipe's tags *)

Lemma goalTerm_nonneg tags w n recipe g index :
  (0 <= w)%Q -> (index <= n)%nat ->
  (0 <= goalTerm w n recipe tags g index)%Q.
Proof.
  intros Hw Hle. unfold goalTerm.
  destruct (matchesGoal recipe tags g); [|lra].
  apply Qmult_le_0_compat; [|assumption].
  change 0%Q with (inject_Z 0). rewrite <- Zle_Qle. lia.
Qed.

Lemma goalAlignmentFrom_monotone tags w n a b goals :
  (0 <= w)%Q ->
  (forall g, matchesGoal a tags g = true -> matchesGoal b tags g = true) ->
  forall index,
    (index + List.length goals <= n)%nat ->
    (goalAlignmentFrom w n a tags goals index
     <= goalAlignmentFrom w n b tags goals index)%Q.
Proof.
  intros Hw Hsub. induction goals as [|g gs IH]; intros index Hle; simpl.
  - lra.
  - simpl in Hle.
    assert (Hterm : (goalTerm w n a tags g index
                     <= goalTerm w n b tags g index)%Q).
    { destruct (matchesGoal a tags g) eqn:Ha.
      - unfold goalTerm. rewrite Ha, (Hsub g Ha). lra.
      - unfold goalTerm at 1. rewrite Ha.
        apply goalTerm_nonneg; [assumption | lia]. }
    specialize (IH (Datatypes.S index)).
    assert (Hrest : (Datatypes.S index + List.length gs <= n)%nat) by lia.
    specialize (IH Hrest). lra.
Qed.

Lemma includes_insert l1 l2 t x :
  includes (l1 ++ l2) x = true -> includes (l1 ++ t :: l2) x = true.
Proof.
  rewrite !includes_spec, !in_app_iff. simpl. tauto.
Qed.

Lemma matchesGoal_insert tags recipe l1 l2 t g :
  or_empty (tagIds recipe) = l1 ++ l2 ->
  matchesGoal recipe tags g = true ->
  matchesGoal (withTagIds recipe (Some (l1 ++ t :: l2))) tags g = true.
Proof.
  unfold matchesGoal. intros Hids. rewrite Hids. simpl or_empty.
  rewrite !existsb_exists. intros [tag [Hin Htag]].
  exists tag. split; [assumption|].
  apply andb_true_iff in Htag. destruct Htag as [Hinc Hty].
  apply andb_true_iff. split; [now apply includes_insert | assumption].
Qed.

Lemma preferredCount_insert recipe l1 l2 t :
  or_empty (tagIds recipe) = l1 ++ l2 ->
  isPreferred (user_preference_tags preferences) t = true ->
  preferredCount (withTagIds recipe (Some (l1 ++ t :: l2))) preferences
  = Datatypes.S (preferredCount recipe preferences).
Proof.
  unfold preferredCount. intros Hids Ht. rewrite Hids. simpl or_empty.
  rewrite !filter_app. simpl. rewrite Ht.
  rewrite !length_app. simpl. lia.
Qed.

(** C7.  With non-negative preference-tag, goal and diversity weights
    (the default ones are), inserting into the recipe's tag identifiers
    one more identifier that the user prefers never lowers the total
    score, the other inputs being the same. *)
Theorem score_monotone_in_preferred_tag tags context recipe l1 l2 t :
  (0 <= preferenceTag (weights config))%Q ->
  (0 <= w_goalAlignment (weights config))%Q ->
  (0 <= diversity (weights config))%Q ->
  or_empty (tagIds recipe) = l1 ++ l2 ->
  isPreferred (user_preference_tags preferences) t = true ->
  (score (scoreRecipe config recipe preferences tags context)
   <= score (scoreRecipe config (withTagIds recipe (Some (l1 ++ t :: l2)))
                         preferences tags context))%Q.
Proof.
  intros Hwp Hwg Hwd Hids Ht.
  set (recipe' := withTagIds recipe (Some (l1 ++ t :: l2))).
  destruct (scoreRecipe_terms recipe tags context)
    as (Hp & Hg & Hd & Hr & _ & _ & _ & Hs).
  destruct (scoreRecipe_terms recipe' tags context)
    as (Hp' & Hg' & Hd' & Hr' & _ & _ & _ & Hs').
  cbv zeta in *. rewrite Hs, Hs'. rewrite Hp, Hg, Hd, Hr, Hp', Hg', Hd', Hr'.
  (* preference-tag matches *)
  destruct (scorePreferenceTags_spec recipe) as [Hpq _].
  destruct (scorePreferenceTags_spec recipe') as [Hpq' _].
  unfold recipe' in Hpq'.
  rewrite (preferredCount_insert recipe l1 l2 t Hids Ht) in Hpq'.
  rewrite Nat2Z.inj_succ, <- Z.add_1_r, inject_Z_plus in Hpq'.
  change (inject_Z 1) with 1%Q in Hpq'. fold recipe' in Hpq'.
  (* goal alignment *)
  destruct (scoreGoalAlignment_spec tags recipe) as [Hgq _].
  destruct (scoreGoalAlignment_spec tags recipe') as [Hgq' _].
  assert (Hgoal : (goalAlignmentSpec config recipe preferences tags
                   <= goalAlignmentSpec config recipe' preferences tags)%Q).
  { unfold goalAlignmentSpec. apply goalAlignmentFrom_monotone.
    - assumption.
    - intros g Hm. now apply matchesGoal_insert.
    - simpl. lia. }
  (* diversity bonus *)
  assert (Hdiv : (match ctx_currentMealPlanRecipeIds context with
                  | [] => 0
                  | _ :: _ => calculateDiversityBonus config recipe
                                (ctx_currentMealPlanRecipeIds context) tags
                  end
                  <= match ctx_currentMealPlanRecipeIds context with
                     | [] => 0
                     | _ :: _ => calculateDiversityBonus config recipe'
                                   (ctx_currentMealPlanRecipeIds context) tags
                     end)%Q).
  { destruct (ctx_currentMealPlanRecipeIds context) as [|p ps]; [lra|].
    unfold calculateDiversityBonus.
    assert (Hnew : has_length (tagIds recipe') = true).
    { unfold recipe'. simpl. now destruct l1. }
    rewrite Hnew.
    destruct (has_length (tagIds recipe)),
             (has_length (diversityTagTypes config)); simpl; lra. }
  (* recency penalty: same identifier *)
  change (recipe_id recipe') with (recipe_id recipe).
  set (rec := if includes (ctx_recentRecipeIds context) (recipe_id recipe)
              then recency (weights config) else 0%Q).
  rewrite Hpq, Hpq', Hgq, Hgq'.
  set (c := inject_Z (Z.of_nat (preferredCount recipe preferences))).
  assert (Hc : ((c + 1) * w_pref == c * w_pref + w_pref)%Q) by ring.
  rewrite Hc. unfold w_pref. lra.
Qed.

End Scoring.

End ScoringFacts.

Module ScoringExamples.

Import JS RecipeRecommendationService ScoringSpec Fixtures ScoringFacts.
Open Scope string_scope.

Definition goalTermOf (r : RecipeWithTags) : Q :=
  goalAlignment (scoreBreakdown (scoreRecipe DEFAULT_CONFIG r prefs taxonomy fresh)).

Example time_only_scores_4 : goalTermOf quickCurry = 4%Q.
Proof. vm_compute. reflexivity. Qed.

Example budget_only_scores_2 : goalTermOf cheapStew = 2%Q.
Proof. vm_compute. reflexivity. Qed.


Lemma score_monotone_witness :
  (score (scoreRecipe DEFAULT_CONFIG cheapStew prefs taxonomy fresh)
   <= score (scoreRecipe DEFAULT_CONFIG
                         (withTagIds cheapStew (Some ["t-cheap"; "t-thai"]))
                         prefs taxonomy fresh))%Q.
Proof.
  apply (score_monotone_in_preferred_tag DEFAULT_CONFIG prefs taxonomy fresh
           cheapStew ["t-cheap"] [] "t-thai");
    try reflexivity; vm_compute; discriminate.
Defined.

End ScoringExamples.

(* ================================================================== *)
(** * The meal-plan provider *)
(* ================================================================== *)

Module PlanFacts.

Import JS JSFacts RecipeRecommendationService MealPlanProvider PlanSpec.

Lemma mapi_from_In {A B} (f : nat -> A -> B) (l : list A) :
  forall i y, In y (mapi_from f i l) -> exists j x, In x l /\ y = f j x.
Proof.
  induction l as [|x l IH]; intros i y; simpl; [tauto|].
  intros [Hy|Hin].
  - exists i, x. split; [now left | now symmetry].
  - destruct (IH _ _ Hin) as (j & x' & Hx' & Hy).
    exists j, x'. split; [now right | assumption].
Qed.

Lemma mapi_from_map {A B C} (f : nat -> A -> B) (g : B -> C) (h : A -> C)
      (l : list A) :
  (forall i x, g (f i x) = h x) ->
  forall i, map g (mapi_from f i l) = map h l.
Proof.
  intro Hgf. induction l as [|x l IH]; intro i; simpl; [reflexivity|].
  now rewrite Hgf, IH.
Qed.

Lemma find_existsb {A} (p : A -> bool) (l : list A) :
  truthy (find p l) = existsb p l.
Proof.
  unfold find. induction l as [|x l IH]; simpl; [reflexivity|].
  destruct (p x); simpl; [reflexivity | exact IH].
Qed.

Section Plan.

Context {engine : ArraySort}.
Variable config : RecommendationConfig.
Variable recipes : list RecipeWithTags.
Variable tags : list Tag.
Variable userPreferences : option UserPreferencesWithTags.

#[local] Set Warnings "-notation-for-abbreviation".
Notation generateInitialMealPlan :=
  (generateInitialMealPlan config recipes tags userPreferences).
Notation applyOp := (applyOp config recipes tags userPreferences).
Notation runOps := (runOps config recipes tags userPreferences).
Notation addMealToPlan := (addMealToPlan userPreferences).
Notation environmentServingsOk := (environmentServingsOk recipes userPreferences).

(** ** What [generateInitialMealPlan] leaves behind *)

Lemma generate_cases snapshot rnd ids st :
  (userPreferences = None /\ generateInitialMealPlan snapshot rnd ids st = st)
  \/ exists prefs recommendations,
      userPreferences = Some prefs
      /\ (forall r, In r recommendations -> In (scored_recipe r) recipes)
      /\ (NoDup (map recipe_id recipes) ->
          NoDup (map (fun r => recipe_id (scored_recipe r)) recommendations))
      /\ generateInitialMealPlan snapshot rnd ids st
         = {| currentMealPlan :=
                mapi_from
                  (fun i (r : ScoredRecipe) =>
                     {| id := ids i;
                        recipe := scored_recipe r;
                        servings :=
                          num_or (serves_per_meal prefs)
                                 (num_or (default_servings (scored_recipe r)) 1);
                        status := None; week_id := None; user_id := None;
                        created_at := None; updated_at := None |})
                  0%nat recommendations;
              loading := false;
              error := None;
              initialized := true;
              console_error := console_error st |}.
Proof.
  unfold MealPlanProvider.generateInitialMealPlan.
  destruct userPreferences as [prefs|]; [right | left; split; reflexivity].
  eexists prefs, _. split; [reflexivity|].
  split; [|split; [|reflexivity]].
  - intros r Hin. eapply SelectorFacts.hook_recommendations_from_catalog.
    exact Hin.
  - apply SelectorFacts.hook_recommendations_distinct.
Qed.

(** ** Servings *)

Lemma generate_servings snapshot rnd ids st :
  environmentServingsOk ->
  servingsAtLeastOne (currentMealPlan st) ->
  servingsAtLeastOne
    (currentMealPlan (generateInitialMealPlan snapshot rnd ids st)).
Proof.
  intros [Hprefs Hcat] Hinv.
  destruct (generate_cases snapshot rnd ids st)
    as [[_ Heq] | (prefs & recs & Hp & Hfrom & _ & Heq)]; rewrite Heq.
  - exact Hinv.
  - simpl. rewrite Hp in Hprefs.
    apply Forall_forall. intros meal Hin.
    apply mapi_from_In in Hin. destruct Hin as (j & r & Hr & Hmeal).
    subst meal. simpl.
    apply num_or_ge_1; [assumption|].
    apply num_or_ge_1; [|lia].
    rewrite Forall_forall in Hcat. apply Hcat, Hfrom, Hr.
Qed.

Lemma applyOp_servings op st :
  environmentServingsOk ->
  opServingsOk op ->
  servingsAtLeastOne (currentMealPlan st) ->
  servingsAtLeastOne (currentMealPlan (applyOp op st)).
Proof.
  intros Henv Hop Hinv.
  destruct op as [rnd ids | rnd ids | recipe servings newId | mealId
                 | mealId servings |]; simpl.
  - now apply generate_servings.
  - unfold regenerateMealPlan. apply generate_servings; [assumption|].
    simpl. constructor.
  - unfold MealPlanProvider.addMealToPlan.
    destruct (find _ (currentMealPlan st)); [assumption|]. simpl.
    apply Forall_app. split; [assumption|].
    constructor; [|constructor]. simpl.
    destruct Hop as [Hs Hd]. destruct Henv as [Hprefs _].
    unfold newServings.
    apply num_or_ge_1; [assumption|].
    apply num_or_ge_1; [destruct userPreferences; [assumption | exact I]|].
    apply num_or_ge_1; [assumption | lia].
  - unfold removeMealFromPlan. simpl.
    apply Forall_forall. intros meal Hin. apply filter_In in Hin.
    unfold servingsAtLeastOne in Hinv. rewrite Forall_forall in Hinv.
    apply Hinv. tauto.
  - unfold updateMealServings. simpl.
    apply Forall_forall. intros meal Hin. apply in_map_iff in Hin.
    destruct Hin as (m & Hm & Hin).
    unfold servingsAtLeastOne in Hinv. rewrite Forall_forall in Hinv.
    destruct (String.eqb (id m) mealId); subst meal;
      [exact Hop | now apply Hinv].
  - constructor.
Qed.


(** ** No recipe twice *)

Lemma planRecipeIds_app p q :
  planRecipeIds (p ++ q) = planRecipeIds p ++ planRecipeIds q.
Proof. apply map_app. Qed.

Lemma find_recipe_none plan recipe :
  find (fun meal => String.eqb (recipe_id (MealPlanProvider.recipe meal))
                               (recipe_id recipe)) plan = None ->
  ~ In (recipe_id recipe) (planRecipeIds plan).
Proof.
  unfold find. intros Hnone Hin. unfold planRecipeIds in Hin.
  apply in_map_iff in Hin. destruct Hin as (meal & Hid & Hin).
  pose proof (find_none _ _ Hnone meal Hin) as Hneq. simpl in Hneq.
  rewrite Hid, String.eqb_refl in Hneq. discriminate.
Qed.

Lemma add_existing_recipe st recipe servings newId :
  isMealInPlan (currentMealPlan st) (recipe_id recipe) = true ->
  applyOp (OpAdd recipe servings newId) st = st.
Proof.
  intro Hin. simpl. unfold MealPlanProvider.addMealToPlan.
  unfold isMealInPlan in Hin. rewrite <- find_existsb in Hin.
  destruct (find _ (currentMealPlan st)); [reflexivity | discriminate].
Qed.

Lemma add_then_in_plan st recipe servings newId :
  isMealInPlan (currentMealPlan (applyOp (OpAdd recipe servings newId) st))
               (recipe_id recipe) = true.
Proof.
  simpl. unfold MealPlanProvider.addMealToPlan.
  destruct (find _ (currentMealPlan st)) eqn:Hfind.
  - unfold isMealInPlan. rewrite <- find_existsb.
    unfold find in *. now rewrite Hfind.
  - simpl. unfold isMealInPlan. rewrite existsb_app. simpl.
    rewrite String.eqb_refl. now rewrite orb_true_r.
Qed.

Lemma add_keeps_distinct st recipe servings newId :
  noDuplicateRecipes (currentMealPlan st) ->
  noDuplicateRecipes
    (currentMealPlan (applyOp (OpAdd recipe servings newId) st)).
Proof.
  intro Hnd. simpl. unfold MealPlanProvider.addMealToPlan.
  destruct (find _ (currentMealPlan st)) eqn:Hfind; [assumption|].
  simpl. unfold noDuplicateRecipes. rewrite planRecipeIds_app. simpl.
  apply find_recipe_none in Hfind.
  apply NoDup_app; [assumption | repeat constructor; simpl; tauto|].
  intros x Hx [Hx'|[]]. subst x. contradiction.
Qed.

(** The check of [addMealToPlan] reads the captured plan, the update
    appends to the current one. *)
Lemma add_captured_recipe snapshot st recipe servings newId :
  isMealInPlan snapshot (recipe_id recipe) = true ->
  addMealToPlan snapshot recipe servings newId st = st.
Proof.
  intro Hin. unfold MealPlanProvider.addMealToPlan.
  unfold isMealInPlan in Hin. rewrite <- find_existsb in Hin.
  destruct (find _ snapshot); [reflexivity | discriminate].
Qed.

Lemma isMealInPlan_ids plan rid :
  isMealInPlan plan rid = includes (planRecipeIds plan) rid.
Proof.
  unfold isMealInPlan, includes, planRecipeIds.
  induction plan as [|m plan IH]; simpl; [reflexivity|].
  rewrite IH. now rewrite (String.eqb_sym rid).
Qed.

Lemma add_with_current_ids snapshot st recipe servings newId :
  planRecipeIds snapshot = planRecipeIds (currentMealPlan st) ->
  addMealToPlan snapshot recipe servings newId st
  = addMealToPlan (currentMealPlan st) recipe servings newId st.
Proof.
  intro Hids. unfold MealPlanProvider.addMealToPlan.
  pose proof (find_existsb
                (fun meal => String.eqb (recipe_id (MealPlanProvider.recipe meal))
                                        (recipe_id recipe)) snapshot) as Hs.
  pose proof (find_existsb
                (fun meal => String.eqb (recipe_id (MealPlanProvider.recipe meal))
                                        (recipe_id recipe)) (currentMealPlan st)) as Hc.
  fold (isMealInPlan snapshot (recipe_id recipe)) in Hs.
  fold (isMealInPlan (currentMealPlan st) (recipe_id recipe)) in Hc.
  rewrite isMealInPlan_ids in Hs, Hc. rewrite Hids, <- Hc in Hs.
  destruct (find _ snapshot), (find _ (currentMealPlan st));
    try reflexivity; discriminate.
Qed.

Lemma add_current_then_in_plan st recipe servings newId :
  isMealInPlan
    (currentMealPlan (addMealToPlan (currentMealPlan st) recipe servings newId st))
    (recipe_id recipe) = true.
Proof.
  unfold MealPlanProvider.addMealToPlan.
  destruct (find _ (currentMealPlan st)) eqn:Hfind.
  - unfold isMealInPlan. rewrite <- find_existsb.
    unfold find in *. now rewrite Hfind.
  - simpl. unfold isMealInPlan. rewrite existsb_app. simpl.
    rewrite String.eqb_refl. now rewrite orb_true_r.
Qed.

Lemma add_current_keeps_distinct st recipe servings newId :
  noDuplicateRecipes (currentMealPlan st) ->
  noDuplicateRecipes
    (currentMealPlan (addMealToPlan (currentMealPlan st) recipe servings newId st)).
Proof.
  intro Hnd. unfold MealPlanProvider.addMealToPlan.
  destruct (find _ (currentMealPlan st)) eqn:Hfind; [assumption|].
  simpl. unfold noDuplicateRecipes. rewrite planRecipeIds_app. simpl.
  apply find_recipe_none in Hfind.
  apply NoDup_app; [assumption | repeat constructor; simpl; tauto|].
  intros x Hx [Hx'|[]]. subst x. contradiction.
Qed.

(** C5 (as amended).  [addMealToPlan] leaves the state as it is when
    the plan its closure captured holds the recipe's identifier.  When
    the captured plan holds the recipe identifiers of the current plan
    (the call goes through the callbacks of the latest render), adding
    a recipe and then, after the re-render, adding it again changes
    nothing the second time, in particular not the size of the plan,
    and adding to a plan without duplicate recipe identifiers yields
    a plan without duplicates. *)
Theorem addMealToPlan_no_duplicates
        snapshot st recipe servings1 newId1 servings2 newId2 :
  let once := addMealToPlan snapshot recipe servings1 newId1 st in
  let twice :=
    addMealToPlan (currentMealPlan once) recipe servings2 newId2 once in
  (isMealInPlan snapshot (recipe_id recipe) = true -> once = st)
  /\ (planRecipeIds snapshot = planRecipeIds (currentMealPlan st) ->
      twice = once
      /\ List.length (currentMealPlan twice) = List.length (currentMealPlan once)
      /\ (noDuplicateRecipes (currentMealPlan st) ->
          noDuplicateRecipes (currentMealPlan once))).
Proof.
  intros once twice.
  split; [apply add_captured_recipe|].
  intro Hids.
  assert (Honce : once
                  = addMealToPlan (currentMealPlan st) recipe servings1 newId1 st)
    by (subst once; now apply add_with_current_ids).
  assert (Htwice : twice = once).
  { subst twice. apply add_captured_recipe. rewrite Honce.
    apply add_current_then_in_plan. }
  split; [exact Htwice|].
  split; [now rewrite Htwice|].
  rewrite Honce. apply add_current_keeps_distinct.
Qed.

(** The same invariant along whole sequences of operations, for a
    catalog whose identifiers are pairwise distinct. *)
Lemma applyOp_no_duplicates op st :
  NoDup (map recipe_id recipes) ->
  noDuplicateRecipes (currentMealPlan st) ->
  noDuplicateRecipes (currentMealPlan (applyOp op st)).
Proof.
  intros Hcat Hinv.
  assert (Hgen : forall snapshot rnd ids st',
             noDuplicateRecipes (currentMealPlan st') ->
             noDuplicateRecipes
               (currentMealPlan (generateInitialMealPlan snapshot rnd ids st'))).
  { intros snapshot rnd ids st' Hst'.
    destruct (generate_cases snapshot rnd ids st')
      as [[_ Heq] | (prefs & recs & _ & _ & Hnd & Heq)]; rewrite Heq.
    - exact Hst'.
    - simpl. unfold noDuplicateRecipes, planRecipeIds.
      erewrite mapi_from_map; [apply Hnd, Hcat|]. reflexivity. }
  destruct op as [rnd ids | rnd ids | recipe servings newId | mealId
                 | mealId servings |].
  - now apply Hgen.
  - simpl. unfold regenerateMealPlan. apply Hgen. simpl. constructor.
  - now apply add_keeps_distinct.
  - simpl. unfold noDuplicateRecipes, planRecipeIds.
    now apply NoDup_map_filter.
  - simpl. unfold noDuplicateRecipes, planRecipeIds. rewrite map_map.
    erewrite map_ext; [exact Hinv|].
    intro m. simpl. now destruct (String.eqb (id m) mealId).
  - constructor.
Qed.

Lemma runOps_no_duplicates (ops : list PlanOp) :
  NoDup (map recipe_id recipes) ->
  noDuplicateRecipes (currentMealPlan (runOps ops initialState)).
Proof.
  intro Hcat.
  assert (Hgen : forall st,
             noDuplicateRecipes (currentMealPlan st) ->
             noDuplicateRecipes (currentMealPlan (runOps ops st))).
  { induction ops as [|op ops IH]; intros st Hinv; simpl.
    - exact Hinv.
    - apply IH. now apply applyOp_no_duplicates. }
  apply Hgen. constructor.
Qed.

(** ** Loading the plan of a week *)

Lemma fetchMealPlan_nothing response :
  FetchedNothing response -> fetchMealPlan recipes response = inr [].
Proof. intros []; reflexivity. Qed.

Lemma fetchMealPlan_failed response message :
  FetchFailed response message -> fetchMealPlan recipes response = inl message.
Proof. intros [m | [[|row rows]|] m]; reflexivity. Qed.

(** [getMealPlanForWeek] swallows every error: its own caller never
    sees a thrown one. *)
Lemma getMealPlanForWeek_never_throws rpc weekId st :
  exists meals, snd (getMealPlanForWeek recipes rpc weekId st) = inr meals.
Proof.
  unfold getMealPlanForWeek.
  destruct (fetchMealPlan recipes (rpc weekId)); eexists; reflexivity.
Qed.

Lemma generate_console snapshot rnd ids st :
  console_error (generateInitialMealPlan snapshot rnd ids st)
  = console_error st.
Proof.
  destruct (generate_cases snapshot rnd ids st)
    as [[_ Heq] | (prefs & recs & _ & _ & _ & Heq)]; now rewrite Heq.
Qed.

(** When the fetch of [loadMealPlanForWeek] yields no rows, or fails,
    the captured [generateInitialMealPlan] runs; in the failing case
    the message of the fetch error has first been written with
    [console.error]. *)
Lemma load_runs_generate snapshot rpc weekId rnd ids st :
  let started := setError None (setLoading true st) in
  let loaded :=
    loadMealPlanForWeek config recipes tags userPreferences
                        snapshot rpc weekId rnd ids st in
  (FetchedNothing (rpc weekId) ->
   loaded = setLoading false (generateInitialMealPlan snapshot rnd ids started))
  /\ (forall message,
         FetchFailed (rpc weekId) message ->
         loaded
         = setLoading false
             (generateInitialMealPlan snapshot rnd ids
                (consoleError "Error fetching meal plan:" message started))
         /\ In ("Error fetching meal plan:"%string, message)
               (console_error loaded)).
Proof.
  intros started loaded. subst loaded.
  unfold loadMealPlanForWeek, getMealPlanForWeek. fold started. split.
  - intro Hnone. now rewrite (fetchMealPlan_nothing _ Hnone).
  - intros message Hfail. rewrite (fetchMealPlan_failed _ _ Hfail).
    split; [reflexivity|].
    simpl. rewrite generate_console. simpl.
    apply in_or_app. right. now left.
Qed.

(** In the failing case the [error] cell of the provider does not
    hold the fetch error afterwards. *)
Remark loadMealPlanForWeek_error_cell snapshot rpc weekId rnd ids st message :
  FetchFailed (rpc weekId) message ->
  error (loadMealPlanForWeek config recipes tags userPreferences
                             snapshot rpc weekId rnd ids st) = None.
Proof.
  intro Hfail.
  unfold loadMealPlanForWeek, getMealPlanForWeek.
  rewrite (fetchMealPlan_failed _ _ Hfail). simpl.
  match goal with
  | |- error (generateInitialMealPlan ?sn ?r ?i ?s) = None =>
      destruct (generate_cases sn r i s)
        as [[_ Heq] | (prefs & recs & _ & _ & _ & Heq)]; now rewrite Heq
  end.
Qed.

End Plan.

(** ** Editing and reading the plan *)

(** C9.  [updateMealServings] keeps the number and the order of the
    entries, every identifier and every recipe; the entry at a position
    is replaced by itself with the new servings when its identifier is
    the given one and is left as it is otherwise; without a matching
    entry the whole state is unchanged. *)
Theorem updateMealServings_frame st mealId newServings :
  let plan := currentMealPlan st in
  let st' := updateMealServings mealId newServings st in
  let plan' := currentMealPlan st' in
  List.length plan' = List.length plan
  /\ map id plan' = map id plan
  /\ map recipe plan' = map recipe plan
  /\ (forall i meal,
         nth_error plan i = Some meal ->
         nth_error plan' i
         = Some (if String.eqb (id meal) mealId
                 then withServings meal newServings else meal))
  /\ (forall meal,
         servings (withServings meal newServings) = newServings
         /\ id (withServings meal newServings) = id meal
         /\ recipe (withServings meal newServings) = recipe meal
         /\ status (withServings meal newServings) = status meal
         /\ week_id (withServings meal newServings) = week_id meal
         /\ user_id (withServings meal newServings) = user_id meal
         /\ created_at (withServings meal newServings) = created_at meal
         /\ updated_at (withServings meal newServings) = updated_at meal)
  /\ ((forall meal, In meal plan -> id meal <> mealId) -> st' = st)
  /\ (loading st', error st', initialized st', console_error st')
     = (loading st, error st, initialized st, console_error st).
Proof.
  intros plan st' plan'. subst st' plan'. unfold updateMealServings. simpl.
  fold plan.
  split; [apply length_map|].
  split; [rewrite map_map; apply map_ext; intro m;
          now destruct (String.eqb (id m) mealId)|].
  split; [rewrite map_map; apply map_ext; intro m;
          now destruct (String.eqb (id m) mealId)|].
  split; [intros i meal Hnth; rewrite nth_error_map, Hnth; reflexivity|].
  split; [intro meal; repeat split|].
  split; [|reflexivity].
  intro Hnone.
  assert (Hsame : map (fun meal => if String.eqb (id meal) mealId
                                   then withServings meal newServings else meal)
                      plan = plan).
  { clear -Hnone. induction plan as [|m rest IH]; simpl; [reflexivity|].
    rewrite IH by (intros meal Hin; apply Hnone; now right).
    destruct (String.eqb_spec (id m) mealId) as [Heq|Hneq]; [|reflexivity].
    exfalso. apply (Hnone m); [now left | assumption]. }
  unfold setCurrentMealPlan. fold plan. rewrite Hsame.
  subst plan. now destruct st.
Qed.

(** C10.  [getCurrentMealPlan(limit)] returns the first [limit] entries
    of the plan for a positive [limit], and the whole plan for the
    limit 0 (as it does without a limit). *)
Theorem getCurrentMealPlan_limit (plan : list MealPlanItem) (limit : Z) :
  (0 < limit ->
   getCurrentMealPlan plan (Some limit) = firstn (Z.to_nat limit) plan)
  /\ getCurrentMealPlan plan (Some 0) = plan
  /\ getCurrentMealPlan plan None = plan.
Proof.
  split; [|split; reflexivity].
  intro Hpos. unfold getCurrentMealPlan.
  destruct limit as [|l|l]; try lia.
  apply slice0_positive. lia.
Qed.

End PlanFacts.

Module PlanExamples.

Import JS JSFacts RecipeRecommendationService MealPlanProvider PlanSpec Fixtures PlanFacts.
Open Scope string_scope.

Definition run : list PlanOp -> ProviderState -> ProviderState :=
  runOps (engine := insertionEngine) DEFAULT_CONFIG catalog taxonomy (Some prefs).

Definition apply1 : PlanOp -> ProviderState -> ProviderState :=
  applyOp (engine := insertionEngine) DEFAULT_CONFIG catalog taxonomy (Some prefs).

Definition load (rpc : string -> RpcResponse) : ProviderState :=
  loadMealPlanForWeek (engine := insertionEngine) DEFAULT_CONFIG catalog taxonomy
                      (Some prefs) [] rpc "week-1" draws mealIds initialState.

Definition summary (st : ProviderState) : list (string * string * Z) :=
  map (fun m => (id m, recipe_id (recipe m), servings m)) (currentMealPlan st).

Example generate_then_edit :
  summary (run [OpGenerate draws mealIds;
                OpAdd plainToast (Some 0) "meal_a";
                OpUpdateServings "meal_0" 5;
                OpRemove "meal_1"] initialState)
  = [("meal_0", "r-curry", 5); ("meal_2", "r-toast", 2)].
Proof. vm_compute. reflexivity. Qed.



Definition oneMeal : ProviderState :=
  run [OpAdd quickCurry None "meal_a"] initialState.

Lemma addMealToPlan_witness :
  addMealToPlan (Some prefs) (currentMealPlan oneMeal) quickCurry (Some 4)
                "meal_b" oneMeal = oneMeal
  /\ noDuplicateRecipes
       (currentMealPlan
          (addMealToPlan (Some prefs) (currentMealPlan oneMeal) cheapStew None
                         "meal_b" oneMeal)).
Proof.
  destruct (addMealToPlan_no_duplicates
              (Some prefs) (currentMealPlan oneMeal) oneMeal quickCurry
              (Some 4) "meal_b" None "meal_c") as [Hnoop _].
  destruct (addMealToPlan_no_duplicates
              (Some prefs) (currentMealPlan oneMeal) oneMeal cheapStew
              None "meal_b" None "meal_c") as [_ Hfresh].
  split.
  - apply Hnoop. reflexivity.
  - destruct (Hfresh eq_refl) as (_ & _ & Hnd).
    apply Hnd. unfold noDuplicateRecipes. simpl.
    SelectorFacts.distinct_strings.
Defined.

(** C5, the claim as stated fails.  The check of [addMealToPlan] reads
    the plan its closure captured.  Two calls made through the
    callbacks of one render both see the plan without the recipe, and
    the two state updates append it twice: the second add grows the
    plan from one entry to two, and the plan holds the recipe
    identifier twice. *)
Lemma add_twice_within_one_render :
  let once := addMealToPlan (Some prefs) [] quickCurry None "meal_a" initialState in
  let twice := addMealToPlan (Some prefs) [] quickCurry None "meal_b" once in
  List.length (currentMealPlan once) = 1%nat
  /\ List.length (currentMealPlan twice) = 2%nat
  /\ planRecipeIds (currentMealPlan twice) = ["r-curry"; "r-curry"]
  /\ ~ noDuplicateRecipes (currentMealPlan twice).
Proof.
  repeat split. intro Hnd. vm_compute in Hnd.
  inversion Hnd as [|x l Hx _]; subst. apply Hx. now left.
Qed.

Example load_after_failure :
  summary (load networkDown)
  = [("meal_0", "r-curry", 2); ("meal_1", "r-stew", 2); ("meal_2", "r-toast", 2)]
  /\ console_error (load networkDown)
     = [("Error fetching meal plan:", "network down")]
  /\ error (load networkDown) = None.
Proof. vm_compute. repeat split. Qed.

Definition threeMeals : ProviderState := run [OpGenerate draws mealIds] initialState.

Example update_one_entry :
  summary (updateMealServings "meal_1" 5 threeMeals)
  = [("meal_0", "r-curry", 2); ("meal_1", "r-stew", 5); ("meal_2", "r-toast", 2)].
Proof. vm_compute. reflexivity. Qed.

Lemma updateMealServings_witness :
  option_map servings
    (nth_error (currentMealPlan (updateMealServings "meal_1" 5 threeMeals)) 1)
  = Some 5
  /\ updateMealServings "meal_9" 5 threeMeals = threeMeals.
Proof.
  split.
  - destruct (updateMealServings_frame threeMeals "meal_1" 5)
      as (_ & _ & _ & Hnth & _).
    rewrite (Hnth 1%nat _ eq_refl). reflexivity.
  - apply (updateMealServings_frame threeMeals "meal_9" 5).
    intros meal Hin. vm_compute in Hin.
    destruct Hin as [H|[H|[H|[]]]]; subst meal; simpl; discriminate.
Defined.

Example limit_zero_is_no_limit :
  List.length (getCurrentMealPlan (currentMealPlan threeMeals) (Some 0)) = 3%nat.
Proof. reflexivity. Qed.

Lemma getCurrentMealPlan_witness :
  map id (getCurrentMealPlan (currentMealPlan threeMeals) (Some 2))
  = ["meal_0"; "meal_1"].
Proof.
  rewrite (proj1 (getCurrentMealPlan_limit (currentMealPlan threeMeals) 2)).
  - reflexivity.
  - lia.
Defined.

End PlanExamples.

(* ================================================================== *)
(** * More on the scoring engine and the selector *)
(* ================================================================== *)

Module ServiceCoverage.

Import JS JSFacts RecipeRecommendationService ScoringSpec CoverageSpec.
Import ScoringFacts SelectorFacts.

Lemma filter_all_kept {A} (p : A -> bool) (xs : list A) :
  (forall x, In x xs -> p x = true) -> filter p xs = xs.
Proof.
  induction xs as [|x xs IH]; intro Hall; simpl; [reflexivity|].
  rewrite (Hall x) by now left.
  f_equal. apply IH. intros y Hy. apply Hall. now right.
Qed.

Lemma filter_none_kept {A} (p : A -> bool) (xs : list A) :
  (forall x, In x xs -> p x = false) -> filter p xs = [].
Proof.
  induction xs as [|x xs IH]; intro Hnone; simpl; [reflexivity|].
  rewrite (Hnone x) by now left.
  apply IH. intros y Hy. apply Hnone. now right.
Qed.

Lemma slice0_length_exact {A} (xs : list A) (e : Z) :
  0 <= e ->
  List.length (slice0 xs e) = Nat.min (Z.to_nat e) (List.length xs).
Proof.
  intro He. rewrite slice0_positive by assumption. apply length_firstn.
Qed.

Section WithEngine.

Context {engine : ArraySort}.
Variable config : RecommendationConfig.

Lemma sort_length {A} rnd (cmp : Q -> A -> A -> Q) (xs : list A) :
  List.length (sort rnd cmp xs) = List.length xs.
Proof. apply Permutation_length, sort_permutation. Qed.

Lemma sort_empty {A} rnd (cmp : Q -> A -> A -> Q) :
  sort rnd cmp (@nil A) = [].
Proof. apply Permutation_nil, Permutation_sym, sort_permutation. Qed.

(** ** The score as a sum *)

Lemma diversity_term_cases recipe preferences tags context :
  diversityBonus (scoreBreakdown (scoreRecipe config recipe preferences tags context))
  = diversityTerm config recipe context.
Proof.
  destruct (scoreRecipe_terms config preferences recipe tags context)
    as (_ & _ & Hd & _).
  cbv zeta in Hd. rewrite Hd. unfold diversityTerm, calculateDiversityBonus.
  destruct (ctx_currentMealPlanRecipeIds context); [reflexivity|].
  destruct (has_length (tagIds recipe)),
           (has_length (diversityTagTypes config)); reflexivity.
Qed.

Lemma score_as_sum preferences tags context recipe :
  (score (scoreRecipe config recipe preferences tags context) ==
   inject_Z (Z.of_nat (preferredCount recipe preferences))
   * preferenceTag (weights config)
   + goalAlignmentSpec config recipe preferences tags
   + diversityTerm config recipe context
   + recencyTerm config recipe context)%Q.
Proof.
  destruct (scoreRecipe_terms config preferences recipe tags context)
    as (Hp & Hg & _ & Hr & _ & _ & _ & Hs).
  cbv zeta in *.
  destruct (scorePreferenceTags_spec config preferences recipe) as [Hpq _].
  destruct (scoreGoalAlignment_spec config preferences tags recipe) as [Hgq _].
  rewrite Hs, Hp, Hg, Hr, (diversity_term_cases recipe preferences tags context).
  rewrite Hpq, Hgq. unfold recencyTerm. reflexivity.
Qed.

(** X1.  For weights that binary64 holds and adds exactly (multiples
    of 1/1024 of size at most 1024, as the defaults are) and at most
    1024 goals, the score of a recipe is the sum of four terms: the
    preference-tag weight times the number of the recipe's tag
    identifiers found among the user's preferred tags (a repeated
    identifier counts each time), the goal-alignment sum, the diversity
    term and the recency term.  [total] repeats the score, and
    [matchedTagIds] lists the matching identifiers in the recipe's
    order. *)
Theorem score_closed_form preferences tags context recipe :
  exactScoring config preferences ->
  let s := scoreRecipe config recipe preferences tags context in
  (score s ==
   inject_Z (Z.of_nat (preferredCount recipe preferences))
   * preferenceTag (weights config)
   + goalAlignmentSpec config recipe preferences tags
   + diversityTerm config recipe context
   + recencyTerm config recipe context)%Q
  /\ total (scoreBreakdown s) = score s
  /\ recencyPenalty (scoreBreakdown s) = recencyTerm config recipe context
  /\ diversityBonus (scoreBreakdown s) = diversityTerm config recipe context
  /\ matchedTagIds s
     = filter (isPreferred (user_preference_tags preferences))
              (or_empty (tagIds recipe)).
Proof.
  intros _ s. subst s.
  destruct (scoreRecipe_terms config preferences recipe tags context)
    as (_ & _ & _ & Hr & Hm & _ & Ht & _).
  cbv zeta in *.
  destruct (scorePreferenceTags_spec config preferences recipe) as [_ Hpl].
  split; [apply score_as_sum|].
  split; [now symmetry|]. split; [exact Hr|].
  split; [apply diversity_term_cases|]. now rewrite Hm.
Qed.

(** ** Scores that cannot be negative *)

Lemma goalAlignmentFrom_nonneg tags w n recipe goals :
  (0 <= w)%Q ->
  forall index,
    (index + List.length goals <= n)%nat ->
    (0 <= goalAlignmentFrom w n recipe tags goals index)%Q.
Proof.
  intro Hw. induction goals as [|g gs IH]; intros index Hle; simpl.
  - lra.
  - simpl in Hle.
    assert (Hi : (index <= n)%nat) by lia.
    pose proof (goalTerm_nonneg tags w n recipe g index Hw Hi) as Hterm.
    assert (Hrest : (Datatypes.S index + List.length gs <= n)%nat) by lia.
    specialize (IH _ Hrest). lra.
Qed.

Lemma score_nonneg preferences tags context recipe :
  bonusWeightsNonNegative config ->
  includes (ctx_recentRecipeIds context) (recipe_id recipe) = false ->
  (0 <= score (scoreRecipe config recipe preferences tags context))%Q.
Proof.
  intros (Hwp & Hwg & Hwd) Hrecent.
  rewrite (score_as_sum preferences tags context recipe).
  assert (Hp : (0 <= inject_Z (Z.of_nat (preferredCount recipe preferences))
                     * preferenceTag (weights config))%Q).
  { apply Qmult_le_0_compat; [|assumption].
    change 0%Q with (inject_Z 0). rewrite <- Zle_Qle. lia. }
  assert (Hg : (0 <= goalAlignmentSpec config recipe preferences tags)%Q).
  { unfold goalAlignmentSpec. apply goalAlignmentFrom_nonneg; [assumption|].
    simpl. lia. }
  assert (Hd : (0 <= diversityTerm config recipe context)%Q).
  { unfold diversityTerm.
    destruct (ctx_currentMealPlanRecipeIds context); [lra|].
    destruct (has_length (tagIds recipe) && has_length (diversityTagTypes config));
      [assumption | lra]. }
  unfold recencyTerm. rewrite Hrecent. lra.
Qed.

(** ** What the selector returns *)

Lemma scoredRecipes_In recipes preferences tags options r :
  In r (scoredRecipes config recipes preferences tags options) <->
  exists recipe,
    In recipe (availableRecipes recipes options)
    /\ r = scoreRecipe config recipe preferences tags (contextOf options).
Proof.
  unfold scoredRecipes. rewrite in_map_iff. split.
  - intros (recipe & Hr & Hin). exists recipe. split; [assumption | now symmetry].
  - intros (recipe & Hin & Hr). exists recipe. split; [now symmetry | assumption].
Qed.

Lemma availableRecipes_not_excluded recipes options recipe :
  In recipe (availableRecipes recipes options) ->
  In recipe recipes
  /\ ~ In (recipe_id recipe) (or_empty (excludeRecipeIds options)).
Proof.
  unfold availableRecipes.
  destruct (excludeRecipeIds options) as [[|e es]|]; cbn [or_empty];
    try (intro Hin; split; [assumption | intros []]).
  intro Hin. apply filter_In in Hin. destruct Hin as [Hin Hnot].
  split; [assumption|].
  apply negb_true_iff in Hnot. intro Hex.
  apply (includes_spec (e :: es)) in Hex. congruence.
Qed.

(** X2.  Every recommendation is the scoring, in the context given by
    the options, of a catalog recipe whose identifier is not excluded,
    and its score passes the minimum-score test. *)
Theorem recommendation_is_scored_candidate
        rnd recipes preferences tags options r :
  In r (getRecommendations config rnd recipes preferences tags options) ->
  In (scored_recipe r) recipes
  /\ ~ In (recipe_id (scored_recipe r)) (or_empty (excludeRecipeIds options))
  /\ r = scoreRecipe config (scored_recipe r) preferences tags (contextOf options)
  /\ ge_opt (score r) (minimumScore config) = true.
Proof.
  unfold getRecommendations. intro Hin.
  apply In_slice0 in Hin.
  eapply Permutation_in in Hin; [|apply sort_permutation].
  unfold validRecipes in Hin. apply filter_In in Hin. destruct Hin as [Hin Hmin].
  apply scoredRecipes_In in Hin. destruct Hin as (recipe & Havail & Hr).
  apply availableRecipes_not_excluded in Havail. destruct Havail as [Hcat Hex].
  subst r. rewrite scoreRecipe_recipe. repeat split; assumption.
Qed.

Lemma validRecipes_all recipes preferences tags options m :
  bonusWeightsNonNegative config ->
  minimumScore config = Some m -> (m <= 0)%Q ->
  (forall recipe, In recipe recipes ->
                  includes (or_empty (recentRecipeIds options)) (recipe_id recipe) = false) ->
  validRecipes config (scoredRecipes config recipes preferences tags options)
  = scoredRecipes config recipes preferences tags options.
Proof.
  intros Hw Hmin Hm Hrecent. unfold validRecipes. apply filter_all_kept.
  intros r Hin. apply scoredRecipes_In in Hin.
  destruct Hin as (recipe & Havail & Hr). subst r.
  rewrite Hmin. simpl. apply Qle_bool_iff.
  apply availableRecipes_subset in Havail.
  pose proof (score_nonneg preferences tags (contextOf options) recipe Hw
                           (Hrecent recipe Havail)) as Hs.
  lra.
Qed.

(** X3.  For a count that is not negative, [getRecommendations]
    returns exactly as many recipes as asked for, or all that pass the
    minimum-score test when they are fewer.  With non-negative
    preference, goal and diversity weights, a floor that is not
    positive, and no catalog recipe among the recent ones, nothing is
    dropped by the floor: the result has [count] entries, or one per
    available recipe when they are fewer. *)
Theorem getRecommendations_fills_request
        rnd recipes preferences tags options :
  0 <= count options ->
  let out := getRecommendations config rnd recipes preferences tags options in
  List.length out
  = Nat.min (Z.to_nat (count options))
            (List.length (validRecipes config
                            (scoredRecipes config recipes preferences tags options)))
  /\ (bonusWeightsNonNegative config ->
      (exists m, minimumScore config = Some m /\ (m <= 0)%Q) ->
      (forall recipe, In recipe recipes ->
                      includes (or_empty (recentRecipeIds options))
                               (recipe_id recipe) = false) ->
      List.length out
      = Nat.min (Z.to_nat (count options))
                (List.length (availableRecipes recipes options))).
Proof.
  intros Hcount out. subst out. unfold getRecommendations.
  rewrite slice0_length_exact by assumption. rewrite sort_length.
  split; [reflexivity|].
  intros Hw (m & Hmin & Hm) Hrecent.
  rewrite (validRecipes_all recipes preferences tags options m Hw Hmin Hm Hrecent).
  unfold scoredRecipes. now rewrite length_map.
Qed.

(** X4.  When the configuration carries no minimum score (the field is
    optional), the comparison with [undefined] fails for every recipe
    and [getRecommendations] returns nothing, whatever the catalog. *)
Theorem no_minimum_score_no_recommendations
        rnd recipes preferences tags options :
  minimumScore config = None ->
  getRecommendations config rnd recipes preferences tags options = [].
Proof.
  intro Hnone. unfold getRecommendations, validRecipes.
  rewrite filter_none_kept by (intros x _; now rewrite Hnone).
  rewrite sort_empty. unfold slice0. now rewrite firstn_nil.
Qed.

(** ** The random selection *)

(** X5.  [getRandomRecommendations] returns catalog recipes whose
    identifiers are not excluded; for a count that is not negative it
    returns [count] of them, or all the recipes that are not excluded
    when they are fewer; and it repeats no identifier when the catalog
    does not. *)
Theorem getRandomRecommendations_sample rnd recipes n excluded :
  let out := getRandomRecommendations rnd recipes n excluded in
  (forall r, In r out -> In r recipes /\ ~ In (recipe_id r) excluded)
  /\ (0 <= n ->
      List.length out
      = Nat.min (Z.to_nat n)
                (List.length
                   (filter (fun r => negb (includes excluded (recipe_id r)))
                           recipes)))
  /\ (NoDup (map recipe_id recipes) -> NoDup (map recipe_id out)).
Proof.
  intro out. subst out. unfold getRandomRecommendations. split; [|split].
  - intros r Hin. apply In_slice0 in Hin.
    eapply Permutation_in in Hin; [|apply sort_permutation].
    apply filter_In in Hin. destruct Hin as [Hin Hnot].
    split; [assumption|]. apply negb_true_iff in Hnot.
    intro Hex. apply includes_spec in Hex. congruence.
  - intro Hn. rewrite slice0_length_exact by assumption.
    now rewrite sort_length.
  - intro Hnd.
    match goal with
    | |- NoDup (map _ (slice0 ?l ?e)) =>
        destruct (slice0_is_prefix l e) as [k Hk]; rewrite Hk
    end.
    rewrite <- firstn_map. apply NoDup_firstn.
    eapply Permutation_NoDup.
    + apply Permutation_map, Permutation_sym, sort_permutation.
    + now apply NoDup_map_filter.
Qed.

(** ** Ranking *)

Lemma sorted_app_cross {A} (R : A -> A -> Prop) (l1 l2 : list A) :
  StronglySorted R (l1 ++ l2) ->
  StronglySorted R l1 /\ forall a b, In a l1 -> In b l2 -> R a b.
Proof.
  induction l1 as [|x l1 IH]; simpl; intro Hs.
  - split; [constructor | intros a b []].
  - inversion Hs as [|? ? Hrest Hall]; subst.
    destruct (IH Hrest) as [Hs1 Hcross].
    rewrite Forall_forall in Hall. split.
    + constructor; [assumption|].
      apply Forall_forall. intros y Hy. apply Hall, in_or_app. now left.
    + intros a b [Ha|Ha] Hb.
      * subst a. apply Hall, in_or_app. now right.
      * now apply Hcross.
Qed.

Lemma candidates_distinct recipes preferences tags options :
  NoDup (map recipe_id recipes) ->
  NoDup (validRecipes config (scoredRecipes config recipes preferences tags options)).
Proof.
  intro Hnd.
  apply (NoDup_map_inv (fun r => recipe_id (scored_recipe r))).
  unfold validRecipes. apply NoDup_map_filter.
  rewrite scoredRecipes_ids. now apply availableRecipes_distinct.
Qed.

Lemma compareScores_separated a b :
  (1 # 100 <= Qabs (score a - score b))%Q ->
  signsAgree compareScores score a b.
Proof.
  intros Hsep u. unfold compareScores, lt.
  destruct (Qle_bool (1 # 100) (Qabs (score a - score b))) eqn:Hle.
  - simpl. split; split; intro H; lra.
  - exfalso. apply Qle_bool_iff in Hsep. congruence.
Qed.

(** X6.  On an engine that sorts by a comparator consistent on the
    different elements of an array, for weights that binary64 holds and
    adds exactly and at most 1024 goals, a catalog without repeated
    identifiers and candidates no two of which score within 0.01 of
    each other, the recommendations come in descending order of score,
    and every candidate left out scores no higher than any recipe
    returned. *)
Theorem recommendations_are_ranked rnd recipes preferences tags options :
  SortsDistinctElements engine ->
  exactScoring config preferences ->
  NoDup (map recipe_id recipes) ->
  let candidates :=
    validRecipes config (scoredRecipes config recipes preferences tags options) in
  noNearTies candidates ->
  let out := getRecommendations config rnd recipes preferences tags options in
  StronglySorted (descending score) out
  /\ forall r r', In r out -> In r' candidates -> ~ In r' out ->
                  (score r' <= score r)%Q.
Proof.
  intros Hlaw _ Hnd candidates Hties out. subst out. unfold getRecommendations.
  fold candidates.
  assert (Hsorted : StronglySorted (descending score)
                                   (sort rnd compareScores candidates)).
  { apply Hlaw.
    - now apply candidates_distinct.
    - intros a b Ha Hb Hab. apply compareScores_separated.
      now apply Hties. }
  destruct (slice0_is_prefix (sort rnd compareScores candidates) (count options))
    as [n Hn].
  rewrite Hn. rewrite <- (firstn_skipn n (sort rnd compareScores candidates)) in Hsorted.
  apply sorted_app_cross in Hsorted. destruct Hsorted as [Hfirst Hcross].
  split; [assumption|].
  intros r r' Hr Hr' Hout. apply (Hcross r r' Hr).
  assert (Hin : In r' (sort rnd compareScores candidates)).
  { eapply Permutation_in; [apply Permutation_sym, sort_permutation | assumption]. }
  rewrite <- (firstn_skipn n (sort rnd compareScores candidates)) in Hin.
  apply in_app_or in Hin. destruct Hin as [Hin|Hin]; [contradiction | assumption].
Qed.

End WithEngine.

(** ** Two engines that keep the promise

    Insertion sort that tests the comparator for a positive answer,
    and insertion sort that tests it for a negative one. *)

Lemma lt_true_iff (a b : Q) : lt a b = true <-> (a < b)%Q.
Proof.
  unfold lt. rewrite negb_true_iff. split.
  - intro H. apply Qnot_le_lt. intro Hle. apply Qle_bool_iff in Hle. congruence.
  - intro H. destruct (Qle_bool b a) eqn:Hle; [|reflexivity].
    apply Qle_bool_iff in Hle. lra.
Qed.

Lemma insert_by_sorted {A} (rnd : nat -> Q) (cmp : Q -> A -> A -> Q)
      (key : A -> Q) (x : A) (acc : list A) :
  (forall u y, In y acc -> ((0 < cmp u y x)%Q <-> (key y < key x)%Q)) ->
  StronglySorted (descending key) acc ->
  forall k, StronglySorted (descending key) (fst (insert_by rnd cmp k x acc)).
Proof.
  intros Hcmp Hs. induction Hs as [|y acc Hs IH Hall]; intro k; simpl.
  - constructor; constructor.
  - destruct (lt 0 (cmp (rnd k) y x)) eqn:Htest; simpl.
    + apply lt_true_iff in Htest. apply Hcmp in Htest; [|now left].
      constructor; [constructor; assumption|].
      constructor; [unfold descending; lra|].
      rewrite Forall_forall in *. intros z Hz.
      specialize (Hall z Hz). unfold descending in *. lra.
    + assert (Hge : (key x <= key y)%Q).
      { apply Qnot_lt_le. intro Hlt.
        apply (Hcmp (rnd k) y) in Hlt; [|now left].
        apply lt_true_iff in Hlt. congruence. }
      pose proof (insert_by_permutation rnd cmp x acc (Datatypes.S k)) as Hperm.
      specialize (IH (fun u z Hz => Hcmp u z (or_intror Hz)) (Datatypes.S k)).
      destruct (insert_by rnd cmp (Datatypes.S k) x acc) as [r k']; simpl in *.
      constructor; [assumption|].
      apply Forall_forall. intros z Hz.
      eapply Permutation_in in Hz; [|exact Hperm].
      destruct Hz as [Hz|Hz]; [subst z; exact Hge|].
      rewrite Forall_forall in Hall. now apply Hall.
Qed.

(** The pairs an insertion sort compares are made of an element and
    one that came earlier in the array; [ok earlier later] is what is
    known of such a pair. *)
Lemma insertion_sort_from_sorted {A} (rnd : nat -> Q) (cmp : Q -> A -> A -> Q)
      (key : A -> Q) (ok : A -> A -> Prop) :
  (forall y x, ok y x -> forall u, (0 < cmp u y x)%Q <-> (key y < key x)%Q) ->
  forall l k acc,
    (forall y x, In y acc -> In x l -> ok y x) ->
    ForallOrdPairs ok l ->
    StronglySorted (descending key) acc ->
    StronglySorted (descending key) (insertion_sort_from rnd cmp k acc l).
Proof.
  intro Hsign. induction l as [|x l IH]; intros k acc Hacc Hpairs Hs; simpl;
    [assumption|].
  pose proof (insert_by_permutation rnd cmp x acc k) as Hperm.
  pose proof (insert_by_sorted rnd cmp key x acc) as Hins.
  assert (Hpre : forall u y, In y acc -> ((0 < cmp u y x)%Q <-> (key y < key x)%Q)).
  { intros u y Hy. apply Hsign, Hacc; [assumption | now left]. }
  specialize (Hins Hpre Hs k).
  inversion Hpairs as [|x' l' Hx Hrest]; subst.
  destruct (insert_by rnd cmp k x acc) as [acc' k']; simpl in *.
  apply IH; [|assumption|assumption].
  intros y z Hy Hz. eapply Permutation_in in Hy; [|exact Hperm].
  destruct Hy as [Hy|Hy].
  - subst y. rewrite Forall_forall in Hx. now apply Hx.
  - apply Hacc; [assumption | now right].
Qed.

Lemma insert_ahead_permutation {A} (rnd : nat -> Q) (cmp : Q -> A -> A -> Q)
      (x : A) (acc : list A) :
  forall k, Permutation (fst (insert_ahead rnd cmp k x acc)) (x :: acc).
Proof.
  induction acc as [|y acc IH]; intro k; simpl.
  - apply Permutation_refl.
  - destruct (lt (cmp (rnd k) x y) 0); simpl.
    + apply Permutation_refl.
    + specialize (IH (Datatypes.S k)).
      destruct (insert_ahead rnd cmp (Datatypes.S k) x acc) as [r k']; simpl in *.
      eapply perm_trans; [apply perm_skip, IH | apply perm_swap].
Qed.

Lemma ahead_sort_from_permutation {A} (rnd : nat -> Q)
      (cmp : Q -> A -> A -> Q) (l : list A) :
  forall k acc, Permutation (ahead_sort_from rnd cmp k acc l) (acc ++ l).
Proof.
  induction l as [|x l IH]; intros k acc; simpl.
  - rewrite app_nil_r. apply Permutation_refl.
  - pose proof (insert_ahead_permutation rnd cmp x acc k) as Hins.
    destruct (insert_ahead rnd cmp k x acc) as [acc' k']; simpl in Hins.
    eapply perm_trans; [apply IH|].
    eapply perm_trans; [apply Permutation_app_tail, Hins|].
    simpl. apply Permutation_middle.
Qed.

Lemma ahead_sort_permutation (A : Type) (rnd : nat -> Q)
      (cmp : Q -> A -> A -> Q) (l : list A) :
  Permutation (ahead_sort rnd cmp l) l.
Proof. unfold ahead_sort. apply (ahead_sort_from_permutation rnd cmp l 0%nat []). Qed.

Definition aheadEngine : ArraySort :=
  {| sort := @ahead_sort; sort_permutation := ahead_sort_permutation |}.

Lemma insert_ahead_sorted {A} (rnd : nat -> Q) (cmp : Q -> A -> A -> Q)
      (key : A -> Q) (x : A) (acc : list A) :
  (forall u y, In y acc -> ((cmp u x y < 0)%Q <-> (key y < key x)%Q)) ->
  StronglySorted (descending key) acc ->
  forall k, StronglySorted (descending key) (fst (insert_ahead rnd cmp k x acc)).
Proof.
  intros Hcmp Hs. induction Hs as [|y acc Hs IH Hall]; intro k; simpl.
  - constructor; constructor.
  - destruct (lt (cmp (rnd k) x y) 0) eqn:Htest; simpl.
    + apply lt_true_iff in Htest. apply Hcmp in Htest; [|now left].
      constructor; [constructor; assumption|].
      constructor; [unfold descending; lra|].
      rewrite Forall_forall in *. intros z Hz.
      specialize (Hall z Hz). unfold descending in *. lra.
    + assert (Hge : (key x <= key y)%Q).
      { apply Qnot_lt_le. intro Hlt.
        apply (Hcmp (rnd k) y) in Hlt; [|now left].
        apply lt_true_iff in Hlt. congruence. }
      pose proof (insert_ahead_permutation rnd cmp x acc (Datatypes.S k)) as Hperm.
      specialize (IH (fun u z Hz => Hcmp u z (or_intror Hz)) (Datatypes.S k)).
      destruct (insert_ahead rnd cmp (Datatypes.S k) x acc) as [r k']; simpl in *.
      constructor; [assumption|].
      apply Forall_forall. intros z Hz.
      eapply Permutation_in in Hz; [|exact Hperm].
      destruct Hz as [Hz|Hz]; [subst z; exact Hge|].
      rewrite Forall_forall in Hall. now apply Hall.
Qed.

Lemma ahead_sort_from_sorted {A} (rnd : nat -> Q) (cmp : Q -> A -> A -> Q)
      (key : A -> Q) (ok : A -> A -> Prop) :
  (forall y x, ok y x -> forall u, (cmp u x y < 0)%Q <-> (key y < key x)%Q) ->
  forall l k acc,
    (forall y x, In y acc -> In x l -> ok y x) ->
    ForallOrdPairs ok l ->
    StronglySorted (descending key) acc ->
    StronglySorted (descending key) (ahead_sort_from rnd cmp k acc l).
Proof.
  intro Hsign. induction l as [|x l IH]; intros k acc Hacc Hpairs Hs; simpl;
    [assumption|].
  pose proof (insert_ahead_permutation rnd cmp x acc k) as Hperm.
  pose proof (insert_ahead_sorted rnd cmp key x acc) as Hins.
  assert (Hpre : forall u y, In y acc -> ((cmp u x y < 0)%Q <-> (key y < key x)%Q)).
  { intros u y Hy. apply Hsign, Hacc; [assumption | now left]. }
  specialize (Hins Hpre Hs k).
  inversion Hpairs as [|x' l' Hx Hrest]; subst.
  destruct (insert_ahead rnd cmp k x acc) as [acc' k']; simpl in *.
  apply IH; [|assumption|assumption].
  intros y z Hy Hz. eapply Permutation_in in Hy; [|exact Hperm].
  destruct Hy as [Hy|Hy].
  - subst y. rewrite Forall_forall in Hx. now apply Hx.
  - apply Hacc; [assumption | now right].
Qed.

(** What is known of the pairs of an array: both are elements, and,
    without repetition, an earlier and a later one differ. *)
Lemma pairs_of_elements {A} (l0 l : list A) :
  incl l l0 -> ForallOrdPairs (fun a b => In a l0 /\ In b l0) l.
Proof.
  induction l as [|x l IH]; intro Hincl; constructor.
  - apply Forall_forall. intros z Hz. split; apply Hincl; [now left | now right].
  - apply IH. intros z Hz. apply Hincl. now right.
Qed.

Lemma pairs_of_distinct_elements {A} (l0 l : list A) :
  incl l l0 -> NoDup l ->
  ForallOrdPairs (fun a b => In a l0 /\ In b l0 /\ a <> b) l.
Proof.
  induction l as [|x l IH]; intros Hincl Hnd; constructor.
  - inversion Hnd as [|x' l' Hx _]; subst.
    apply Forall_forall. intros z Hz.
    split; [apply Hincl; now left|]. split; [apply Hincl; now right|].
    intro Heq. subst z. contradiction.
  - inversion Hnd; subst. apply IH; [|assumption].
    intros z Hz. apply Hincl. now right.
Qed.

Lemma insertionEngine_sorts : SortsByComparator insertionEngine.
Proof.
  intros A rnd cmp key l Hcmp. simpl. unfold insertion_sort.
  apply (insertion_sort_from_sorted rnd cmp key (fun a b => In a l /\ In b l)).
  - intros y x [Hy Hx] u. apply (Hcmp y x Hy Hx u).
  - intros y x [].
  - apply pairs_of_elements, incl_refl.
  - constructor.
Qed.

Lemma insertionEngine_sorts_distinct : SortsDistinctElements insertionEngine.
Proof.
  intros A rnd cmp key l Hnd Hcmp. simpl. unfold insertion_sort.
  apply (insertion_sort_from_sorted rnd cmp key
           (fun a b => In a l /\ In b l /\ a <> b)).
  - intros y x (Hy & Hx & Hxy) u. apply (Hcmp y x Hy Hx Hxy u).
  - intros y x [].
  - now apply pairs_of_distinct_elements; [apply incl_refl|].
  - constructor.
Qed.

Lemma aheadEngine_sorts : SortsByComparator aheadEngine.
Proof.
  intros A rnd cmp key l Hcmp. simpl. unfold ahead_sort.
  apply (ahead_sort_from_sorted rnd cmp key (fun a b => In a l /\ In b l)).
  - intros y x [Hy Hx] u. apply (Hcmp x y Hx Hy u).
  - intros y x [].
  - apply pairs_of_elements, incl_refl.
  - constructor.
Qed.

Lemma aheadEngine_sorts_distinct : SortsDistinctElements aheadEngine.
Proof.
  intros A rnd cmp key l Hnd Hcmp. simpl. unfold ahead_sort.
  apply (ahead_sort_from_sorted rnd cmp key
           (fun a b => In a l /\ In b l /\ a <> b)).
  - intros y x (Hy & Hx & Hxy) u.
    apply (Hcmp x y Hx Hy (fun Heq => Hxy (eq_sym Heq)) u).
  - intros y x [].
  - now apply pairs_of_distinct_elements; [apply incl_refl|].
  - constructor.
Qed.

End ServiceCoverage.
(* ================================================================== *)
(** * More on the hook and the meal-plan provider *)
(* ================================================================== *)

Module PlanCoverage.

Import JS JSFacts RecipeRecommendationService ScoringSpec CoverageSpec.
Import MealPlanProvider MealPlanStore PlanSpec.
Import SelectorFacts ServiceCoverage PlanFacts.

(** ** The hook *)

Lemma isPreferred_includes prefTags t :
  isPreferred prefTags t = includes (map tag_id (or_empty prefTags)) t.
Proof.
  unfold isPreferred. rewrite find_existsb. unfold includes.
  induction (or_empty prefTags) as [|p ps IH]; simpl; [reflexivity|].
  rewrite IH. f_equal. apply String.eqb_sym.
Qed.

Lemma existsb_same_test {T} (p q : T -> bool) (xs : list T) :
  (forall x, p x = q x) -> existsb p xs = existsb q xs.
Proof.
  intro Hpq. induction xs as [|x xs IH]; simpl; [reflexivity|].
  now rewrite Hpq, IH.
Qed.

(** X7.  [getFilteredRecipes] returns the whole catalog for a user
    without preferred tags, and otherwise exactly the catalog recipes
    that carry at least one preferred tag; it is the recipe provider's
    [filterByTagIds] applied to the identifiers of the preferred
    tags. *)
Theorem getFilteredRecipes_by_preferred_tags recipes prefs :
  UseRecipeRecommendations.getFilteredRecipes recipes prefs
  = RecipeDataProvider.filterByTagIds
      recipes (map tag_id (or_empty (user_preference_tags prefs)))
  /\ (has_length (user_preference_tags prefs) = false ->
      UseRecipeRecommendations.getFilteredRecipes recipes prefs = recipes)
  /\ (has_length (user_preference_tags prefs) = true ->
      forall r,
        In r (UseRecipeRecommendations.getFilteredRecipes recipes prefs)
        <-> In r recipes
            /\ exists t, In t (or_empty (tagIds r))
                         /\ isPreferred (user_preference_tags prefs) t = true).
Proof.
  unfold UseRecipeRecommendations.getFilteredRecipes,
         RecipeDataProvider.filterByTagIds.
  split; [|split].
  - destruct (user_preference_tags prefs) as [[|p ps]|] eqn:Hp;
      [reflexivity | | reflexivity].
    cbn [has_length or_empty map].
    apply filter_ext. intro r.
    destruct (tagIds r) as [[|t ts]|]; try reflexivity.
    apply existsb_same_test. intro x.
    rewrite isPreferred_includes. reflexivity.
  - intro Hlen. now rewrite Hlen.
  - intros Hlen r. rewrite Hlen. rewrite filter_In. split.
    + intros [Hin Hsome]. split; [assumption|].
      destruct (tagIds r) as [[|t ts]|]; try discriminate.
      apply existsb_exists in Hsome. destruct Hsome as (x & Hx & Hpref).
      exists x. split; assumption.
    + intros [Hin (t & Ht & Hpref)]. split; [assumption|].
      destruct (tagIds r) as [[|t0 ts]|]; simpl in Ht; try contradiction.
      apply existsb_exists. exists t. split; assumption.
Qed.

Section WithEngine.

Context {engine : ArraySort}.
Variable config : RecommendationConfig.

#[local] Set Warnings "-notation-for-abbreviation".
Notation hookRecommendations :=
  (UseRecipeRecommendations.getRecommendations config).

Lemma hook_cases recipes tags rnd prefs options :
  (recipes = [] /\ hookRecommendations recipes tags rnd prefs options = [])
  \/ (recipes <> []
      /\ has_length (user_preference_tags prefs) = false
      /\ has_length (user_goals prefs) = false
      /\ hookRecommendations recipes tags rnd prefs options
         = map (UseRecipeRecommendations.zeroScored)
               (getRandomRecommendations rnd recipes (count options)
                  (or_empty (excludeRecipeIds options))))
  \/ (recipes <> []
      /\ (has_length (user_preference_tags prefs) = true
          \/ has_length (user_goals prefs) = true)
      /\ hookRecommendations recipes tags rnd prefs options
         = getRecommendations config rnd recipes prefs tags options).
Proof.
  unfold UseRecipeRecommendations.getRecommendations.
  destruct recipes as [|r0 rs]; [left; split; reflexivity|].
  right.
  destruct (has_length (user_preference_tags prefs)),
           (has_length (user_goals prefs)); simpl.
  - right. split; [discriminate|]. split; [now left | reflexivity].
  - right. split; [discriminate|]. split; [now left | reflexivity].
  - right. split; [discriminate|]. split; [now right | reflexivity].
  - left. split; [discriminate|]. repeat split; reflexivity.
Qed.

Lemma availableRecipes_length recipes options :
  List.length (availableRecipes recipes options)
  = List.length (filter (fun r => negb (includes (or_empty (excludeRecipeIds options))
                                                 (recipe_id r))) recipes).
Proof.
  unfold availableRecipes.
  destruct (excludeRecipeIds options) as [[|e es]|]; simpl or_empty;
    try reflexivity; now rewrite filter_all_kept.
Qed.

Lemma hook_not_excluded recipes tags rnd prefs options r :
  In r (hookRecommendations recipes tags rnd prefs options) ->
  ~ In (recipe_id (scored_recipe r)) (or_empty (excludeRecipeIds options)).
Proof.
  destruct (hook_cases recipes tags rnd prefs options)
    as [[_ Heq] | [(_ & _ & _ & Heq) | (_ & _ & Heq)]]; rewrite Heq.
  - intros [].
  - intro Hin. apply in_map_iff in Hin. destruct Hin as (x & Hx & Hin).
    subst r. simpl.
    unfold getRandomRecommendations in Hin. apply In_slice0 in Hin.
    eapply Permutation_in in Hin; [|apply sort_permutation].
    apply filter_In in Hin. destruct Hin as [_ Hnot].
    apply negb_true_iff in Hnot. intro Hex. apply includes_spec in Hex. congruence.
  - intro Hin. unfold getRecommendations in Hin. apply In_slice0 in Hin.
    eapply Permutation_in in Hin; [|apply sort_permutation].
    unfold validRecipes in Hin. apply filter_In in Hin. destruct Hin as [Hin _].
    apply scoredRecipes_In in Hin. destruct Hin as (recipe & Havail & Hr).
    subst r. rewrite scoreRecipe_recipe.
    now apply availableRecipes_not_excluded in Havail.
Qed.

Lemma hook_length_exact recipes tags rnd prefs options :
  0 <= count options ->
  bonusWeightsNonNegative config ->
  (exists m, minimumScore config = Some m /\ (m <= 0)%Q) ->
  recentRecipeIds options = None ->
  List.length (hookRecommendations recipes tags rnd prefs options)
  = match recipes with
    | [] => 0%nat
    | _ :: _ =>
        Nat.min (Z.to_nat (count options))
                (List.length
                   (filter (fun r => negb (includes (or_empty (excludeRecipeIds options))
                                                    (recipe_id r))) recipes))
    end.
Proof.
  intros Hcount Hw (m & Hmin & Hm) Hrecent.
  destruct (hook_cases recipes tags rnd prefs options)
    as [[Hcat Heq] | [(Hcat & _ & _ & Heq) | (Hcat & _ & Heq)]]; rewrite Heq.
  - now rewrite Hcat.
  - destruct recipes as [|r0 rs] eqn:Hrs; [congruence|]. rewrite <- Hrs.
    rewrite length_map. unfold getRandomRecommendations.
    rewrite slice0_length_exact by assumption. now rewrite sort_length.
  - destruct recipes as [|r0 rs] eqn:Hrs; [congruence|]. rewrite <- Hrs.
    unfold getRecommendations.
    rewrite slice0_length_exact by assumption. rewrite sort_length.
    rewrite (validRecipes_all config recipes prefs tags options m Hw Hmin Hm).
    + unfold scoredRecipes. rewrite length_map. now rewrite availableRecipes_length.
    + intros recipe _. now rewrite Hrecent.
Qed.

(** X8.  The hook's [getRecommendations] returns nothing for an empty
    catalog; for a user with neither preferred tags nor goals every
    result is a catalog recipe that is not excluded, with score 0, an
    all-zero breakdown and no matches; otherwise it is the service's
    selection on the hook's catalog and taxonomy. *)
Theorem hook_recommendations_paths recipes tags rnd prefs options :
  (recipes = [] -> hookRecommendations recipes tags rnd prefs options = [])
  /\ (has_length (user_preference_tags prefs) = false ->
      has_length (user_goals prefs) = false ->
      forall r, In r (hookRecommendations recipes tags rnd prefs options) ->
                r = UseRecipeRecommendations.zeroScored (scored_recipe r)
                /\ In (scored_recipe r) recipes
                /\ ~ In (recipe_id (scored_recipe r))
                        (or_empty (excludeRecipeIds options)))
  /\ (recipes <> [] ->
      has_length (user_preference_tags prefs) = true
      \/ has_length (user_goals prefs) = true ->
      hookRecommendations recipes tags rnd prefs options
      = getRecommendations config rnd recipes prefs tags options).
Proof.
  split; [|split].
  - intro Hcat.
    destruct (hook_cases recipes tags rnd prefs options)
      as [[_ Heq] | [(Hne & _) | (Hne & _)]]; congruence.
  - intros Hp Hg r Hin.
    split; [|split;
             [eapply hook_recommendations_from_catalog; eassumption
             | eapply hook_not_excluded; eassumption]].
    destruct (hook_cases recipes tags rnd prefs options)
      as [[_ Heq] | [(_ & _ & _ & Heq) | (_ & [H|H] & _)]]; try congruence.
    + rewrite Heq in Hin. contradiction.
    + rewrite Heq in Hin. apply in_map_iff in Hin.
      destruct Hin as (x & Hx & _). now subst r.
  - intros Hne Hsome.
    destruct (hook_cases recipes tags rnd prefs options)
      as [[Hcat _] | [(_ & Hp & Hg & _) | (_ & _ & Heq)]];
      [congruence | destruct Hsome; congruence | exact Heq].
Qed.

End WithEngine.

(** ** Small facts on the built-ins used below *)

Lemma num_or_nonzero (a : option Z) (d : Z) : d <> 0 -> num_or a d <> 0.
Proof. destruct a as [[|v|v]|]; simpl; intros Hd; try assumption; discriminate. Qed.

Lemma num_or_explicit (v d : Z) : v <> 0 -> num_or (Some v) d = v.
Proof. destruct v; simpl; intro Hv; [contradiction | reflexivity | reflexivity]. Qed.

Lemma mapi_from_length {A B} (f : nat -> A -> B) (xs : list A) :
  forall i, List.length (mapi_from f i xs) = List.length xs.
Proof. induction xs as [|x xs IH]; intro i; simpl; [reflexivity | now rewrite IH]. Qed.

Lemma mapi_from_indexed {A B C} (f : nat -> A -> B) (g : B -> C) (h : nat -> C)
      (xs : list A) :
  (forall i x, g (f i x) = h i) ->
  forall i, map g (mapi_from f i xs) = map h (seq i (List.length xs)).
Proof.
  intro Hgf. induction xs as [|x xs IH]; intro i; simpl; [reflexivity|].
  now rewrite Hgf, IH.
Qed.

Lemma min_of_empty_catalog {A} (p : A -> bool) (n : nat) (xs : list A) :
  match xs with
  | [] => 0%nat
  | _ :: _ => Nat.min n (List.length (filter p xs))
  end
  = Nat.min n (List.length (filter p xs)).
Proof. destruct xs; [simpl; lia | reflexivity]. Qed.

Lemma find_after_filter {A} (p q : A -> bool) (xs : list A) :
  (forall x, p x = true -> q x = true) ->
  JS.find p (filter q xs) = JS.find p xs.
Proof.
  intro Hpq. unfold find. induction xs as [|x xs IH]; simpl; [reflexivity|].
  destruct (q x) eqn:Hq; simpl.
  - destruct (p x); [reflexivity | exact IH].
  - destruct (p x) eqn:Hp; [|exact IH].
    apply Hpq in Hp. congruence.
Qed.

Lemma isMealInPlan_includes plan recipeId :
  isMealInPlan plan recipeId = includes (planRecipeIds plan) recipeId.
Proof.
  unfold isMealInPlan, includes, planRecipeIds.
  induction plan as [|m plan IH]; simpl; [reflexivity|].
  rewrite IH. f_equal. apply String.eqb_sym.
Qed.

Lemma total_from (plan : list MealPlanItem) :
  forall a, fold_left (fun total meal => total + servings meal) plan a
            = a + getTotalServings plan.
Proof.
  unfold getTotalServings.
  induction plan as [|m plan IH]; intro a; simpl; [lia|].
  rewrite (IH (a + servings m)), (IH (servings m)). lia.
Qed.

Lemma total_app p q :
  getTotalServings (p ++ q) = getTotalServings p + getTotalServings q.
Proof.
  unfold getTotalServings at 1. rewrite fold_left_app.
  fold (getTotalServings p). apply total_from.
Qed.

Section WithProvider.

Context {engine : ArraySort}.
Variable config : RecommendationConfig.
Variable recipes : list RecipeWithTags.
Variable tags : list Tag.
Variable userPreferences : option UserPreferencesWithTags.

#[local] Set Warnings "-notation-for-abbreviation".
Notation generate :=
  (generateInitialMealPlan config recipes tags userPreferences).
Notation regenerate :=
  (regenerateMealPlan config recipes tags userPreferences).
Notation applyOp := (applyOp config recipes tags userPreferences).

Lemma generate_with_preferences prefs snapshot rnd ids st :
  userPreferences = Some prefs ->
  generate snapshot rnd ids st
  = {| currentMealPlan :=
         mapi_from (generatedEntry prefs ids) 0%nat
           (UseRecipeRecommendations.getRecommendations
              config recipes tags rnd prefs (generateOptions prefs snapshot));
       loading := false; error := None; initialized := true;
       console_error := console_error st |}.
Proof.
  intro Hp. unfold generateInitialMealPlan. rewrite Hp. reflexivity.
Qed.

Lemma generate_without_preferences snapshot rnd ids st :
  userPreferences = None -> generate snapshot rnd ids st = st.
Proof. intro Hp. unfold generateInitialMealPlan. now rewrite Hp. Qed.

Lemma generated_meal_facts prefs snapshot rnd ids st meal :
  userPreferences = Some prefs ->
  In meal (currentMealPlan (generate snapshot rnd ids st)) ->
  In (recipe meal) recipes
  /\ ~ In (recipe_id (recipe meal)) (planRecipeIds snapshot)
  /\ servings meal
     = num_or (serves_per_meal prefs) (num_or (default_servings (recipe meal)) 1)
  /\ servings meal <> 0.
Proof.
  intros Hp Hin. rewrite (generate_with_preferences prefs _ _ _ _ Hp) in Hin.
  simpl in Hin. apply mapi_from_In in Hin. destruct Hin as (j & r & Hr & Hmeal).
  subst meal. simpl. split; [|split; [|split]].
  - eapply hook_recommendations_from_catalog. exact Hr.
  - apply (hook_not_excluded config recipes tags rnd prefs _ r Hr).
  - reflexivity.
  - apply num_or_nonzero, num_or_nonzero. discriminate.
Qed.

Lemma generated_ids prefs snapshot rnd ids st :
  userPreferences = Some prefs ->
  map id (currentMealPlan (generate snapshot rnd ids st))
  = map ids (seq 0 (List.length (currentMealPlan (generate snapshot rnd ids st)))).
Proof.
  intro Hp. rewrite (generate_with_preferences prefs _ _ _ _ Hp). simpl.
  rewrite mapi_from_length. apply mapi_from_indexed. reflexivity.
Qed.

Lemma generated_distinct prefs snapshot rnd ids st :
  userPreferences = Some prefs ->
  NoDup (map recipe_id recipes) ->
  noDuplicateRecipes (currentMealPlan (generate snapshot rnd ids st)).
Proof.
  intros Hp Hcat. rewrite (generate_with_preferences prefs _ _ _ _ Hp). simpl.
  unfold noDuplicateRecipes, planRecipeIds.
  rewrite (mapi_from_map _ _ (fun r => recipe_id (scored_recipe r)))
    by reflexivity.
  now apply hook_recommendations_distinct.
Qed.

Lemma generated_size prefs snapshot rnd ids st :
  userPreferences = Some prefs ->
  bonusWeightsNonNegative config ->
  (exists m, minimumScore config = Some m /\ (m <= 0)%Q) ->
  0 <= nullish (meals_per_week prefs) 4 ->
  List.length (currentMealPlan (generate snapshot rnd ids st))
  = Nat.min (Z.to_nat (nullish (meals_per_week prefs) 4))
            (List.length
               (filter (fun r => negb (includes (planRecipeIds snapshot) (recipe_id r)))
                       recipes)).
Proof.
  intros Hp Hw Hmin Hcount.
  rewrite (generate_with_preferences prefs _ _ _ _ Hp). simpl.
  rewrite mapi_from_length.
  rewrite (hook_length_exact config recipes tags rnd prefs
                             (generateOptions prefs snapshot) Hcount Hw Hmin eq_refl).
  apply min_of_empty_catalog.
Qed.

(** X9.  [generateInitialMealPlan] changes nothing without user
    preferences.  With preferences it replaces the plan: every new
    entry holds a catalog recipe that was not in the captured plan,
    with the user's servings per meal, else the recipe's default, else
    1 (never 0); entries take their identifiers in order; there are at
    most [meals_per_week] (default 4) of them; loading is cleared, no
    error is left and the provider is marked initialized. *)
Theorem generateInitialMealPlan_shape snapshot rnd ids st :
  (userPreferences = None -> generate snapshot rnd ids st = st)
  /\ (forall prefs,
         userPreferences = Some prefs ->
         let st' := generate snapshot rnd ids st in
         (loading st', error st', initialized st', console_error st')
         = (false, None, true, console_error st)
         /\ (forall meal,
                In meal (currentMealPlan st') ->
                In (recipe meal) recipes
                /\ ~ In (recipe_id (recipe meal)) (planRecipeIds snapshot)
                /\ servings meal
                   = num_or (serves_per_meal prefs)
                            (num_or (default_servings (recipe meal)) 1)
                /\ servings meal <> 0)
         /\ map id (currentMealPlan st')
            = map ids (seq 0 (List.length (currentMealPlan st')))
         /\ (0 <= nullish (meals_per_week prefs) 4 ->
             Z.of_nat (List.length (currentMealPlan st'))
             <= nullish (meals_per_week prefs) 4)).
Proof.
  split; [apply generate_without_preferences|].
  intros prefs Hp st'. subst st'.
  split; [now rewrite (generate_with_preferences prefs _ _ _ _ Hp)|].
  split; [intros meal Hin; eapply generated_meal_facts; eassumption|].
  rewrite (generate_with_preferences prefs _ _ _ _ Hp). simpl.
  rewrite mapi_from_length. split.
  - apply mapi_from_indexed. reflexivity.
  - intro Hcount.
    apply (hook_recommendations_length config recipes tags rnd prefs
                                       (generateOptions prefs snapshot) Hcount).
Qed.

(** X10.  When there are user preferences whose [meals_per_week]
    (default 4) is not negative, with non-negative preference, goal and
    diversity weights and a minimum score that is not positive (the
    default configuration), [generateInitialMealPlan] yields exactly
    [meals_per_week] entries, or one per catalog recipe outside the
    captured plan when those are fewer. *)
Theorem generateInitialMealPlan_size prefs snapshot rnd ids st :
  userPreferences = Some prefs ->
  bonusWeightsNonNegative config ->
  (exists m, minimumScore config = Some m /\ (m <= 0)%Q) ->
  0 <= nullish (meals_per_week prefs) 4 ->
  List.length (currentMealPlan (generate snapshot rnd ids st))
  = Nat.min (Z.to_nat (nullish (meals_per_week prefs) 4))
            (List.length
               (filter (fun r => negb (includes (planRecipeIds snapshot) (recipe_id r)))
                       recipes)).
Proof.
  intros Hp Hw Hmin Hcount.
  rewrite (generate_with_preferences prefs _ _ _ _ Hp). simpl.
  rewrite mapi_from_length.
  rewrite (hook_length_exact config recipes tags rnd prefs
                             (generateOptions prefs snapshot) Hcount Hw Hmin eq_refl).
  apply min_of_empty_catalog.
Qed.

(** X11.  [addMealToPlan], when the captured plan does not hold the
    recipe, appends exactly one entry at the end of the current plan:
    it carries the given identifier and recipe, its servings are never
    0, and they are the explicit servings whenever those are given and
    not 0; the other cells of the provider are untouched. *)
Theorem addMealToPlan_appends snapshot recipe servings newId st :
  isMealInPlan snapshot (recipe_id recipe) = false ->
  let st' := addMealToPlan userPreferences snapshot recipe servings newId st in
  exists entry,
    currentMealPlan st' = currentMealPlan st ++ [entry]
    /\ id entry = newId
    /\ MealPlanProvider.recipe entry = recipe
    /\ MealPlanProvider.servings entry <> 0
    /\ (forall v, servings = Some v -> v <> 0 -> MealPlanProvider.servings entry = v)
    /\ (servings = None \/ servings = Some 0 ->
        forall prefs v, userPreferences = Some prefs ->
                        serves_per_meal prefs = Some v -> v <> 0 ->
                        MealPlanProvider.servings entry = v)
    /\ (loading st', error st', initialized st', console_error st')
       = (loading st, error st, initialized st, console_error st).
Proof.
  intros Hnot st'. subst st'. unfold addMealToPlan.
  unfold isMealInPlan in Hnot. rewrite <- find_existsb in Hnot.
  destruct (find _ snapshot); [discriminate|].
  eexists. split; [reflexivity|]. simpl.
  split; [reflexivity|]. split; [reflexivity|]. split; [|split; [|split]].
  - unfold newServings. repeat apply num_or_nonzero. discriminate.
  - intros v Hs Hv. subst servings. unfold newServings. now apply num_or_explicit.
  - intros Hfalsy prefs v Hp Hv Hnz. unfold newServings. rewrite Hp, Hv.
    destruct Hfalsy as [Hs|Hs]; subst servings; simpl; now apply num_or_explicit.
  - reflexivity.
Qed.

(** X12.  [regenerateMealPlan] leaves an empty plan when there are no
    user preferences; with preferences it ends in the state
    [generateInitialMealPlan] gives.  As the generation still excludes
    the recipes of the plan it captured, regenerating never brings back
    a recipe of the plan it discards. *)
Theorem regenerateMealPlan_discards rnd ids st :
  (userPreferences = None ->
   forall snapshot, regenerate snapshot rnd ids st = clearMealPlan st)
  /\ (forall prefs snapshot,
         userPreferences = Some prefs ->
         regenerate snapshot rnd ids st = generate snapshot rnd ids st)
  /\ (forall meal,
         In meal (currentMealPlan (applyOp (OpRegenerate rnd ids) st)) ->
         ~ In (recipe_id (recipe meal)) (planRecipeIds (currentMealPlan st))).
Proof.
  split; [|split].
  - intros Hp snapshot. unfold regenerateMealPlan.
    now rewrite generate_without_preferences.
  - intros prefs snapshot Hp. unfold regenerateMealPlan.
    now rewrite !(generate_with_preferences prefs _ _ _ _ Hp).
  - intros meal Hin. simpl in Hin. unfold regenerateMealPlan in Hin.
    assert (Hcase : userPreferences = None
                    \/ exists prefs, userPreferences = Some prefs)
      by (clear; destruct userPreferences; eauto).
    destruct Hcase as [Hp | [prefs Hp]].
    + rewrite generate_without_preferences in Hin by assumption.
      simpl in Hin. contradiction.
    + eapply generated_meal_facts in Hin; [|exact Hp]. tauto.
Qed.

End WithProvider.

(** ** Removing, totals, lookups *)

(** X13.  [removeMealFromPlan] keeps exactly the entries with another
    identifier and never lengthens the plan; afterwards the identifier
    is not found, looking up any other identifier gives what it gave
    before, and without a matching entry the state is unchanged. *)
Theorem removeMealFromPlan_spec mealId st :
  let plan := currentMealPlan st in
  let st' := removeMealFromPlan mealId st in
  let plan' := currentMealPlan st' in
  (forall meal, In meal plan' <-> In meal plan /\ id meal <> mealId)
  /\ getMealById plan' mealId = None
  /\ (forall other, other <> mealId ->
                    getMealById plan' other = getMealById plan other)
  /\ ((forall meal, In meal plan -> id meal <> mealId) -> st' = st)
  /\ (List.length plan' <= List.length plan)%nat
  /\ (loading st', error st', initialized st', console_error st')
     = (loading st, error st, initialized st, console_error st).
Proof.
  intros plan st' plan'. subst st' plan'. unfold removeMealFromPlan. simpl.
  fold plan. split; [|split; [|split; [|split; [|split]]]].
  - intro meal. rewrite filter_In, negb_true_iff.
    destruct (String.eqb_spec (id meal) mealId); split;
      intros [Hin H]; split; congruence.
  - unfold getMealById, find.
    destruct (List.find _ (filter _ plan)) eqn:Hfind; [|reflexivity].
    apply find_some in Hfind. destruct Hfind as [Hin Heq].
    apply filter_In in Hin. destruct Hin as [_ Hne].
    apply negb_true_iff in Hne. congruence.
  - intros other Hother. unfold getMealById. apply find_after_filter.
    intros m Hm. apply String.eqb_eq in Hm. apply negb_true_iff.
    apply String.eqb_neq. congruence.
  - intro Hnone.
    assert (Hsame : filter (fun meal => negb (String.eqb (id meal) mealId)) plan = plan).
    { apply filter_all_kept. intros m Hm. apply negb_true_iff, String.eqb_neq.
      now apply Hnone. }
    unfold setCurrentMealPlan. fold plan. rewrite Hsame. subst plan. now destruct st.
  - apply filter_length_le.
  - reflexivity.
Qed.


End PlanCoverage.
(* ================================================================== *)
(** * Available recipes and the week store *)
(* ================================================================== *)

Module StoreCoverage.

Import JS JSFacts RecipeRecommendationService CoverageSpec.
Import MealPlanProvider MealPlanStore PlanSpec.
Import ServiceCoverage PlanFacts PlanCoverage.

(** X15.  Without user preferences [getAvailableRecipes] is the whole
    catalog, planned recipes included.  With preferences it holds
    exactly the recipes of the preference-filtered catalog that are not
    in the captured plan. *)
Theorem getAvailableRecipes_spec recipes userPreferences snapshot :
  (userPreferences = None ->
   getAvailableRecipes recipes userPreferences snapshot = recipes)
  /\ (forall prefs,
         userPreferences = Some prefs ->
         forall r,
           In r (getAvailableRecipes recipes userPreferences snapshot)
           <-> In r (UseRecipeRecommendations.getFilteredRecipes recipes prefs)
               /\ isMealInPlan snapshot (recipe_id r) = false).
Proof.
  unfold getAvailableRecipes. split.
  - intro Hp. now rewrite Hp.
  - intros prefs Hp r. rewrite Hp, filter_In, isMealInPlan_includes.
    now rewrite negb_true_iff.
Qed.

(** ** Reading a saved plan *)

Lemma hydrate_recipe_id recipes row :
  recipe_id (recipe (hydrate recipes row)) = row_recipe_id row.
Proof.
  unfold hydrate. simpl.
  destruct (find _ recipes) as [r|] eqn:Hfind; [|reflexivity].
  unfold find in Hfind. apply find_some in Hfind.
  destruct Hfind as [_ Heq]. now apply String.eqb_eq in Heq.
Qed.

(** X16.  For a fetch that answers rows without an error, the saved
    plan has one entry per row, in the rows' order.  Each entry has the
    identifier of its row with the prefix "saved_", the row's servings
    and status, and a recipe with the row's recipe identifier: the
    catalog's record when the catalog holds that identifier, and
    otherwise a record made of the row's name, image and total time,
    with no tags and one default serving. *)
Theorem saved_rows_are_hydrated recipes rows :
  fetchMealPlan recipes (RpcResolved (Some rows) None)
  = inr (map (hydrate recipes) rows)
  /\ forall row,
      let item := hydrate recipes row in
      id item = String.append "saved_" (row_id row)
      /\ recipe_id (recipe item) = row_recipe_id row
      /\ servings item = row_servings row
      /\ status item = Some (row_status row)
      /\ (forall r,
             RecipeDataProvider.getRecipeById recipes (row_recipe_id row) = Some r ->
             recipe item = r)
      /\ (RecipeDataProvider.getRecipeById recipes (row_recipe_id row) = None ->
          recipe_name (recipe item) = row_recipe_name row
          /\ image_url (recipe item) = row_recipe_image_url row
          /\ total_time (recipe item) = row_recipe_total_time row
          /\ tagIds (recipe item) = Some []
          /\ default_servings (recipe item) = Some 1).
Proof.
  split; [destruct rows; reflexivity|].
  intros row item. subst item.
  split; [reflexivity|]. split; [apply hydrate_recipe_id|].
  split; [reflexivity|]. split; [reflexivity|].
  unfold RecipeDataProvider.getRecipeById, hydrate. simpl. split.
  - intros r Hr. now rewrite Hr.
  - intro Hnone. rewrite Hnone. repeat split.
Qed.

Section WithProvider.

Context {engine : ArraySort}.
Variable config : RecommendationConfig.
Variable recipes : list RecipeWithTags.
Variable tags : list Tag.
Variable userPreferences : option UserPreferencesWithTags.

(** X17.  When the fetch answers at least one row and no error,
    [loadMealPlanForWeek] installs the hydrated rows as the plan and
    generates nothing: the [initialized] flag and the console are as
    before, loading is cleared and no error is left. *)
Theorem loadMealPlanForWeek_saved_plan snapshot rpc weekId rnd ids st row rows :
  rpc weekId = RpcResolved (Some (row :: rows)) None ->
  loadMealPlanForWeek config recipes tags userPreferences
                      snapshot rpc weekId rnd ids st
  = {| currentMealPlan := map (hydrate recipes) (row :: rows);
       loading := false;
       error := None;
       initialized := initialized st;
       console_error := console_error st |}.
Proof.
  intro Hrpc. unfold loadMealPlanForWeek, getMealPlanForWeek.
  rewrite Hrpc. reflexivity.
Qed.

(** ** The fallback of a load *)

Lemma fetch_outcomes_exclusive response message :
  FetchedNothing response -> FetchFailed response message -> False.
Proof. intros Hnone Hfail. destruct Hnone; inversion Hfail. Qed.

Lemma fetch_failure_message response m m' :
  FetchFailed response m -> FetchFailed response m' -> m = m'.
Proof. intros H H'. destruct H; inversion H'; reflexivity. Qed.

(** The state in which the fallback starts: the plan and the
    [initialized] flag as they were, no error, and the fetch error, if
    any, on the console. *)
Lemma load_fallback_state snapshot rpc weekId rnd ids st :
  FetchedNothing (rpc weekId) \/ (exists message, FetchFailed (rpc weekId) message) ->
  exists st0,
    loadMealPlanForWeek config recipes tags userPreferences
                        snapshot rpc weekId rnd ids st
    = setLoading false
        (generateInitialMealPlan config recipes tags userPreferences
                                 snapshot rnd ids st0)
    /\ currentMealPlan st0 = currentMealPlan st
    /\ initialized st0 = initialized st
    /\ error st0 = None
    /\ (FetchedNothing (rpc weekId) -> console_error st0 = console_error st)
    /\ (forall message,
           FetchFailed (rpc weekId) message ->
           console_error st0
           = console_error st ++ [("Error fetching meal plan:"%string, message)]).
Proof.
  destruct (load_runs_generate config recipes tags userPreferences
                               snapshot rpc weekId rnd ids st) as [Hnone Hfail].
  intros [Hn | (message & Hf)].
  - eexists. split; [apply Hnone, Hn|]. simpl. repeat split.
    intros m Hm. exfalso. eapply fetch_outcomes_exclusive; eassumption.
  - eexists. split; [apply (Hfail message Hf)|]. simpl. repeat split.
    + intro Hn. exfalso. eapply fetch_outcomes_exclusive; eassumption.
    + intros m Hm. now rewrite (fetch_failure_message _ _ _ Hf Hm).
Qed.

(** C8 (as amended).  When the fetch of [loadMealPlanForWeek] yields no
    rows or fails, the call ends with loading cleared and no error in
    the provider's [error] cell; a fetch error is written once with
    [console.error] and nowhere else.  With user preferences the plan
    is replaced by a generated one: catalog recipes outside the
    captured plan, with the servings fallback, generated identifiers
    in order, no recipe twice for a catalog without repeated
    identifiers, and, for the usual weights and floor, exactly
    [meals_per_week] entries or as many as the catalog allows; the
    provider is marked initialized.  Without user preferences nothing
    is generated: the plan and the [initialized] flag stay as they
    were. *)
Theorem loadMealPlanForWeek_fallback snapshot rpc weekId rnd ids st :
  let loaded :=
    loadMealPlanForWeek config recipes tags userPreferences
                        snapshot rpc weekId rnd ids st in
  FetchedNothing (rpc weekId) \/ (exists message, FetchFailed (rpc weekId) message) ->
  (loading loaded, error loaded) = (false, None)
  /\ (FetchedNothing (rpc weekId) -> console_error loaded = console_error st)
  /\ (forall message,
         FetchFailed (rpc weekId) message ->
         console_error loaded
         = console_error st ++ [("Error fetching meal plan:"%string, message)])
  /\ (userPreferences = None ->
      currentMealPlan loaded = currentMealPlan st
      /\ initialized loaded = initialized st)
  /\ (forall prefs,
         userPreferences = Some prefs ->
         initialized loaded = true
         /\ (forall meal,
                In meal (currentMealPlan loaded) ->
                In (recipe meal) recipes
                /\ ~ In (recipe_id (recipe meal)) (planRecipeIds snapshot)
                /\ servings meal
                   = num_or (serves_per_meal prefs)
                            (num_or (default_servings (recipe meal)) 1)
                /\ servings meal <> 0)
         /\ map id (currentMealPlan loaded)
            = map ids (seq 0 (List.length (currentMealPlan loaded)))
         /\ (NoDup (map recipe_id recipes) ->
             noDuplicateRecipes (currentMealPlan loaded))
         /\ (0 <= nullish (meals_per_week prefs) 4 ->
             bonusWeightsNonNegative config ->
             (exists m, minimumScore config = Some m /\ (m <= 0)%Q) ->
             List.length (currentMealPlan loaded)
             = Nat.min (Z.to_nat (nullish (meals_per_week prefs) 4))
                       (List.length
                          (filter (fun r => negb (includes (planRecipeIds snapshot)
                                                           (recipe_id r)))
                                  recipes)))).
Proof.
  intros loaded Hfetch. subst loaded.
  destruct (load_fallback_state snapshot rpc weekId rnd ids st Hfetch)
    as (st0 & Heq & Hplan & Hinit & Herr & Hquiet & Hlogged).
  rewrite Heq. clear Heq.
  assert (Hcase : userPreferences = None
                  \/ exists prefs, userPreferences = Some prefs)
    by (clear; destruct userPreferences; eauto).
  destruct Hcase as [Hnone | (prefs & Hsome)].
  - rewrite (generate_without_preferences
               config recipes tags userPreferences snapshot rnd ids st0 Hnone).
    simpl. rewrite Herr.
    split; [reflexivity|]. split; [exact Hquiet|]. split; [exact Hlogged|].
    split; [intros _; split; assumption|].
    intros prefs Hp. congruence.
  - pose proof (generate_with_preferences
                  config recipes tags userPreferences prefs snapshot rnd ids st0
                  Hsome) as Hgen.
    assert (Hsame : currentMealPlan
                      (setLoading false
                         (generateInitialMealPlan config recipes tags
                            userPreferences snapshot rnd ids st0))
                    = currentMealPlan
                        (generateInitialMealPlan config recipes tags
                           userPreferences snapshot rnd ids st0))
      by reflexivity.
    rewrite Hsame.
    split; [rewrite Hgen; reflexivity|].
    split; [intro Hn; rewrite Hgen; simpl; now apply Hquiet|].
    split; [intros m Hm; rewrite Hgen; simpl; now apply Hlogged|].
    split; [intro Hp; congruence|].
    intros prefs' Hp. assert (prefs' = prefs) by congruence. subst prefs'.
    split; [rewrite Hgen; reflexivity|].
    split; [intros meal Hin; eapply generated_meal_facts; eassumption|].
    split; [now apply (generated_ids config recipes tags userPreferences prefs)|].
    split; [now apply (generated_distinct config recipes tags userPreferences prefs)|].
    intros Hcount Hw Hmin.
    now apply (generated_size config recipes tags userPreferences prefs).
Qed.

End WithProvider.

(** ** Writing a plan *)

(** X18.  The payload that [saveMealPlanForWeek] sends lists the meals
    in order: recipe identifiers and servings as in the plan, positions
    0, 1, 2, ... as [sort_order], and the one status on every line. *)
Theorem mealsData_lists_the_plan meals status :
  map md_recipe_id (mealsData meals status) = planRecipeIds meals
  /\ map md_servings (mealsData meals status) = map servings meals
  /\ map md_sort_order (mealsData meals status)
     = map Z.of_nat (seq 0 (List.length meals))
  /\ map md_status (mealsData meals status) = map (fun _ => status) meals
  /\ List.length (mealsData meals status) = List.length meals.
Proof.
  unfold mealsData, planRecipeIds. repeat split.
  - apply mapi_from_map. reflexivity.
  - apply mapi_from_map. reflexivity.
  - apply mapi_from_indexed. reflexivity.
  - apply mapi_from_map. reflexivity.
  - apply mapi_from_length.
Qed.

(** The arguments of the remote call made by [saveMealPlanForWeek]. *)
Lemma save_outcome sessionUserId snapshot rpc weekId meals status st :
  let args :=
    {| p_week_id := weekId;
       p_meals := mealsData (match meals with Some m => m | None => snapshot end)
                            (match status with Some s => s | None => draft end);
       p_user_id := sessionUserId |} in
  saveMealPlanForWeek sessionUserId snapshot rpc weekId meals status st
  = match writeOutcome (rpc args) with
    | inr _ =>
        ({| currentMealPlan := currentMealPlan st; loading := false;
            error := None; initialized := initialized st;
            console_error := console_error st |}, inr tt)
    | inl err =>
        ({| currentMealPlan := currentMealPlan st; loading := false;
            error := Some err; initialized := initialized st;
            console_error :=
              console_error st ++ [("Error saving meal plan:"%string, err)] |},
         inl err)
    end.
Proof.
  intro args. subst args. unfold saveMealPlanForWeek.
  destruct (writeOutcome _); reflexivity.
Qed.

Lemma save_facts sessionUserId snapshot rpc weekId meals status st :
  let args :=
    {| p_week_id := weekId;
       p_meals := mealsData (match meals with Some m => m | None => snapshot end)
                            (match status with Some s => s | None => draft end);
       p_user_id := sessionUserId |} in
  let result := saveMealPlanForWeek sessionUserId snapshot rpc weekId meals status st in
  currentMealPlan (fst result) = currentMealPlan st
  /\ initialized (fst result) = initialized st
  /\ loading (fst result) = false
  /\ (rpc args = WriteResolved None ->
      snd result = inr tt /\ error (fst result) = None
      /\ console_error (fst result) = console_error st)
  /\ (forall message,
         rpc args = WriteRejected message \/ rpc args = WriteResolved (Some message) ->
         snd result = inl message
         /\ error (fst result) = Some message
         /\ console_error (fst result)
            = console_error st ++ [("Error saving meal plan:"%string, message)]).
Proof.
  intros args result. subst result.
  rewrite (save_outcome sessionUserId snapshot rpc weekId meals status st).
  cbv zeta. fold args.
  split; [destruct (writeOutcome (rpc args)); reflexivity|].
  split; [destruct (writeOutcome (rpc args)); reflexivity|].
  split; [destruct (writeOutcome (rpc args)); reflexivity|].
  split.
  - intro Hok. rewrite Hok. simpl. repeat split.
  - intros message [Hrej|Herr]; [rewrite Hrej | rewrite Herr]; simpl; repeat split.
Qed.

Lemma status_update_facts sessionUserId rpc weekId status st :
  let args :=
    {| su_week_id := weekId; su_status := status; su_user_id := sessionUserId |} in
  let result := updateMealPlanStatus sessionUserId rpc weekId status st in
  currentMealPlan (fst result) = currentMealPlan st
  /\ initialized (fst result) = initialized st
  /\ loading (fst result) = false
  /\ (rpc args = WriteResolved None ->
      snd result = inr tt /\ error (fst result) = None
      /\ console_error (fst result) = console_error st)
  /\ (forall message,
         rpc args = WriteRejected message \/ rpc args = WriteResolved (Some message) ->
         snd result = inl message
         /\ error (fst result) = Some message
         /\ console_error (fst result)
            = console_error st
              ++ [("Error updating meal plan status:"%string, message)]).
Proof.
  intros args result. subst result. unfold updateMealPlanStatus. fold args.
  split; [destruct (writeOutcome (rpc args)); reflexivity|].
  split; [destruct (writeOutcome (rpc args)); reflexivity|].
  split; [destruct (writeOutcome (rpc args)); reflexivity|].
  split.
  - intro Hok. rewrite Hok. simpl. repeat split.
  - intros message [Hrej|Herr]; [rewrite Hrej | rewrite Herr]; simpl; repeat split.
Qed.

(** X19.  [saveMealPlanForWeek] sends the captured plan when no meals
    are given and the status "draft" when no status is given;
    [updateMealPlanStatus] sends the week, the status and the user.
    Neither changes the working plan or the [initialized] flag, and
    both clear loading.  When the remote call reports an error or is
    rejected, the message is stored in [error], written with
    [console.error] and thrown again; otherwise no error is left and
    the call returns. *)
Theorem week_store_writes sessionUserId snapshot weekId st :
  (forall rpc meals status,
      let args :=
        {| p_week_id := weekId;
           p_meals := mealsData (match meals with Some m => m | None => snapshot end)
                                (match status with Some s => s | None => draft end);
           p_user_id := sessionUserId |} in
      let result :=
        saveMealPlanForWeek sessionUserId snapshot rpc weekId meals status st in
      currentMealPlan (fst result) = currentMealPlan st
      /\ initialized (fst result) = initialized st
      /\ loading (fst result) = false
      /\ (rpc args = WriteResolved None ->
          snd result = inr tt /\ error (fst result) = None
          /\ console_error (fst result) = console_error st)
      /\ (forall message,
             rpc args = WriteRejected message
             \/ rpc args = WriteResolved (Some message) ->
             snd result = inl message
             /\ error (fst result) = Some message
             /\ console_error (fst result)
                = console_error st ++ [("Error saving meal plan:"%string, message)]))
  /\ (forall rpc status,
         let args :=
           {| su_week_id := weekId; su_status := status;
              su_user_id := sessionUserId |} in
         let result := updateMealPlanStatus sessionUserId rpc weekId status st in
         currentMealPlan (fst result) = currentMealPlan st
         /\ initialized (fst result) = initialized st
         /\ loading (fst result) = false
         /\ (rpc args = WriteResolved None ->
             snd result = inr tt /\ error (fst result) = None
             /\ console_error (fst result) = console_error st)
         /\ (forall message,
                rpc args = WriteRejected message
                \/ rpc args = WriteResolved (Some message) ->
                snd result = inl message
                /\ error (fst result) = Some message
                /\ console_error (fst result)
                   = console_error st
                     ++ [("Error updating meal plan status:"%string, message)])).
Proof.
  split.
  - intros rpc meals status. apply save_facts.
  - intros rpc status. apply status_update_facts.
Qed.

End StoreCoverage.
(* ================================================================== *)
(** * The recipe catalog *)
(* ================================================================== *)

Module CatalogCoverage.

Import JS JSFacts RecipeRecommendationService RecipeDataProvider.
Import ServiceCoverage.

Lemma filter_split_permutation {T} (keep : T -> bool) (xs : list T) :
  Permutation (filter keep xs ++ filter (fun x => negb (keep x)) xs) xs.
Proof.
  induction xs as [|x xs IH]; simpl; [constructor|].
  destruct (keep x); simpl.
  - now constructor.
  - eapply perm_trans; [apply Permutation_sym, Permutation_middle|].
    now constructor.
Qed.

(** X20.  [getRecipesByIds] and [getRecipesExcluding], called with the
    same identifiers, split the catalog: together they hold every
    catalog recipe exactly as often as the catalog does, the first
    those whose identifier is listed and the second the others.  The
    candidate filter of the recommendation service is
    [getRecipesExcluding] on the excluded identifiers. *)
Theorem catalog_split_by_ids recipes ids :
  Permutation (getRecipesByIds recipes ids ++ getRecipesExcluding recipes ids)
              recipes
  /\ (forall r, In r (getRecipesByIds recipes ids)
                <-> In r recipes /\ In (recipe_id r) ids)
  /\ (forall r, In r (getRecipesExcluding recipes ids)
                <-> In r recipes /\ ~ In (recipe_id r) ids)
  /\ (forall options,
         availableRecipes recipes options
         = getRecipesExcluding recipes (or_empty (excludeRecipeIds options))).
Proof.
  unfold getRecipesByIds, getRecipesExcluding. split; [|split; [|split]].
  - apply filter_split_permutation.
  - intro r. rewrite filter_In, includes_spec. tauto.
  - intro r. rewrite filter_In, negb_true_iff.
    destruct (includes ids (recipe_id r)) eqn:Hinc.
    + apply includes_spec in Hinc. split; [intros [_ H]; discriminate | tauto].
    + split; [|tauto]. intros [Hin _]. split; [assumption|].
      intro Hex. apply includes_spec in Hex. congruence.
  - intro options. unfold availableRecipes.
    destruct (excludeRecipeIds options) as [[|e es]|]; simpl or_empty;
      try reflexivity; symmetry; now apply filter_all_kept.
Qed.

Lemma find_by_id_unique (recipes : list RecipeWithTags) (r : RecipeWithTags) :
  NoDup (map recipe_id recipes) ->
  In r recipes ->
  List.find (fun x => String.eqb (recipe_id x) (recipe_id r)) recipes = Some r.
Proof.
  induction recipes as [|x xs IH]; simpl; intros Hnd Hin; [contradiction|].
  inversion Hnd as [|? ? Hx Hrest]; subst.
  destruct Hin as [Heq|Hin].
  - subst x. now rewrite String.eqb_refl.
  - destruct (String.eqb_spec (recipe_id x) (recipe_id r)) as [Hsame|_].
    + exfalso. apply Hx. rewrite Hsame. now apply in_map.
    + now apply IH.
Qed.

(** X21.  [getRecipeById] returns a catalog recipe with the identifier
    asked for, namely the head of [getRecipesByIds] for that single
    identifier; it returns nothing exactly when no catalog recipe has
    the identifier; and in a catalog without repeated identifiers,
    looking a recipe up by its own identifier returns that recipe. *)
Theorem getRecipeById_lookup recipes ident :
  (forall r, getRecipeById recipes ident = Some r ->
             In r recipes /\ recipe_id r = ident)
  /\ (getRecipeById recipes ident = None <-> ~ In ident (map recipe_id recipes))
  /\ getRecipeById recipes ident = hd_error (getRecipesByIds recipes [ident])
  /\ (NoDup (map recipe_id recipes) ->
      forall r, In r recipes -> getRecipeById recipes (recipe_id r) = Some r).
Proof.
  unfold getRecipeById, getRecipesByIds, find. split; [|split; [|split]].
  - intros r Hfind. apply find_some in Hfind. destruct Hfind as [Hin Heq].
    split; [assumption | now apply String.eqb_eq].
  - split.
    + intros Hnone Hin. apply in_map_iff in Hin. destruct Hin as (r & Hid & Hin).
      pose proof (find_none _ _ Hnone r Hin) as Hneq. simpl in Hneq.
      rewrite Hid, String.eqb_refl in Hneq. discriminate.
    + intro Hnot. destruct (List.find _ recipes) as [r|] eqn:Hfind; [|reflexivity].
      apply find_some in Hfind. destruct Hfind as [Hin Heq].
      apply String.eqb_eq in Heq. exfalso. apply Hnot. subst ident.
      now apply in_map.
  - induction recipes as [|x xs IH]; simpl; [reflexivity|].
    unfold includes. simpl. rewrite orb_false_r, String.eqb_sym.
    destruct (String.eqb ident (recipe_id x)); [reflexivity | exact IH].
  - intros Hnd r Hin. now apply find_by_id_unique.
Qed.

End CatalogCoverage.

(* ================================================================== *)
(** * The user preferences provider *)
(* ================================================================== *)

Module PreferencesCoverage.

Import JS JSFacts UserPreferencesProvider.
Import PlanCoverage.

(** X22.  The four update callbacks do nothing, and return normally,
    unless the captured preferences exist with a non-empty identifier
    and a user is signed in.  The defaults that [fetchPreferences]
    builds locally have the empty identifier, so no update ever applies
    to them. *)
Theorem updates_need_saved_preferences userId captured st :
  canUpdate userId None = false
  /\ (forall user, canUpdate userId (Some (defaultPrefs user)) = false)
  /\ (canUpdate userId captured = false ->
      (forall write meals,
          updateMealsPerWeek userId captured write meals st = (st, inr tt))
      /\ (forall write serves,
             updateServesPerMeal userId captured write serves st = (st, inr tt))
      /\ (forall write goals,
             updateGoals userId captured write goals st = (st, inr tt))
      /\ (forall deleteWrite insertWrite ids,
             updatePreferenceTags userId captured deleteWrite insertWrite ids st
             = (st, inr tt))).
Proof.
  split; [reflexivity|]. split; [reflexivity|].
  intro Hno.
  unfold updateMealsPerWeek, updateServesPerMeal, updateGoals, updatePreferenceTags.
  rewrite Hno. simpl. repeat split.
Qed.

(** X23.  When the guard passes, an update of the meals per week, of
    the servings per meal or of the goals that the backend accepts
    replaces that one field of the stored preferences and leaves the
    others, clears loading and leaves no error; one that the backend
    refuses leaves the preferences as they were, stores and logs the
    message, and throws it. *)
Theorem scalar_updates_outcome userId captured st p :
  canUpdate userId captured = true ->
  preferences st = Some p ->
  (forall meals,
      let ok := updateMealsPerWeek userId captured None meals st in
      snd ok = inr tt
      /\ preferences (fst ok) = Some (withMealsPerWeek p meals)
      /\ up_error (fst ok) = None /\ up_loading (fst ok) = false)
  /\ (forall serves,
         let ok := updateServesPerMeal userId captured None serves st in
         snd ok = inr tt
         /\ preferences (fst ok) = Some (withServesPerMeal p serves)
         /\ up_error (fst ok) = None /\ up_loading (fst ok) = false)
  /\ (forall goals,
         let ok := updateGoals userId captured None goals st in
         snd ok = inr tt
         /\ preferences (fst ok) = Some (withGoals p goals)
         /\ up_error (fst ok) = None /\ up_loading (fst ok) = false)
  /\ (forall message meals serves goals failed,
         failed = updateMealsPerWeek userId captured (Some message) meals st
         \/ failed = updateServesPerMeal userId captured (Some message) serves st
         \/ failed = updateGoals userId captured (Some message) goals st ->
         snd failed = inl message
         /\ preferences (fst failed) = Some p
         /\ up_error (fst failed) = Some message
         /\ up_loading (fst failed) = false
         /\ exists label,
             up_console_error (fst failed)
             = up_console_error st ++ [(label, message)])
  /\ (forall meals serves goals,
         serves_per_meal (withMealsPerWeek p meals) = serves_per_meal p
         /\ user_goals (withMealsPerWeek p meals) = user_goals p
         /\ user_preference_tags (withMealsPerWeek p meals) = user_preference_tags p
         /\ meals_per_week (withServesPerMeal p serves) = meals_per_week p
         /\ user_goals (withServesPerMeal p serves) = user_goals p
         /\ user_preference_tags (withServesPerMeal p serves) = user_preference_tags p
         /\ meals_per_week (withGoals p goals) = meals_per_week p
         /\ serves_per_meal (withGoals p goals) = serves_per_meal p
         /\ user_preference_tags (withGoals p goals) = user_preference_tags p
         /\ pref_id (withMealsPerWeek p meals) = pref_id p
         /\ pref_id (withServesPerMeal p serves) = pref_id p
         /\ pref_id (withGoals p goals) = pref_id p).
Proof.
  intros Hcan Hp.
  unfold updateMealsPerWeek, updateServesPerMeal, updateGoals, failWith.
  rewrite Hcan. simpl. rewrite Hp. simpl.
  split; [intro; repeat split|]. split; [intro; repeat split|].
  split; [intro; repeat split|]. split; [|intros; repeat split].
  intros message meals serves goals failed [H|[H|H]]; subst failed; simpl;
    rewrite Hp; repeat split; eexists; reflexivity.
Qed.

Lemma newPreferenceTags_ids ids :
  map tag_id (newPreferenceTags ids) = ids
  /\ map priority (newPreferenceTags ids)
     = map (fun i => Some (Z.of_nat i)) (seq 0 (List.length ids)).
Proof.
  unfold newPreferenceTags. split.
  - rewrite (PlanFacts.mapi_from_map _ tag_id (fun t => t)) by reflexivity.
    apply map_id.
  - apply mapi_from_indexed. reflexivity.
Qed.

(** X24.  When the guard passes and the provider's state holds
    preferences: if the backend accepts the delete (and the insert,
    which is made only for a non-empty list), [updatePreferenceTags]
    stores the given tag identifiers in them: reading them back with
    [getPreferenceTagIds] gives the same list, the priorities are the
    positions 0, 1, 2, ..., and the other fields are kept.  If the
    delete fails, or the insert fails after the delete went through,
    the stored preferences stay as they were and the message is
    thrown. *)
Theorem updatePreferenceTags_outcome userId captured st p ids :
  canUpdate userId captured = true ->
  preferences st = Some p ->
  (forall insertWrite,
      insertWrite = None \/ ids = [] ->
      let ok := updatePreferenceTags userId captured None insertWrite ids st in
      snd ok = inr tt
      /\ getPreferenceTagIds (fst ok) = ids
      /\ preferences (fst ok) = Some (withPreferenceTags p (newPreferenceTags ids))
      /\ map priority (newPreferenceTags ids)
         = map (fun i => Some (Z.of_nat i)) (seq 0 (List.length ids))
      /\ hasPreferenceTags (fst ok) = negb (Nat.eqb (List.length ids) 0)
      /\ up_error (fst ok) = None /\ up_loading (fst ok) = false)
  /\ (forall message insertWrite,
         let failed :=
           updatePreferenceTags userId captured (Some message) insertWrite ids st in
         snd failed = inl message /\ preferences (fst failed) = Some p
         /\ up_error (fst failed) = Some message)
  /\ (forall message,
         ids <> [] ->
         let failed :=
           updatePreferenceTags userId captured None (Some message) ids st in
         snd failed = inl message /\ preferences (fst failed) = Some p
         /\ up_error (fst failed) = Some message).
Proof.
  intros Hcan Hp. destruct (newPreferenceTags_ids ids) as [Hids Hprio].
  unfold updatePreferenceTags, failWith. rewrite Hcan. simpl.
  split; [|split].
  - intros insertWrite Hok.
    assert (Hdone :
              forall ok,
                ok = (setPrefsLoading false
                        (setPreferences
                           (option_map (fun prev => withPreferenceTags prev
                                                      (newPreferenceTags ids)))
                           (setPrefsError None (setPrefsLoading true st))),
                      @inr string unit tt) ->
                snd ok = inr tt
                /\ getPreferenceTagIds (fst ok) = ids
                /\ preferences (fst ok)
                   = Some (withPreferenceTags p (newPreferenceTags ids))
                /\ map priority (newPreferenceTags ids)
                   = map (fun i => Some (Z.of_nat i)) (seq 0 (List.length ids))
                /\ hasPreferenceTags (fst ok) = negb (Nat.eqb (List.length ids) 0)
                /\ up_error (fst ok) = None /\ up_loading (fst ok) = false).
    { intros ok Hdef. subst ok. unfold getPreferenceTagIds, hasPreferenceTags.
      simpl. rewrite Hp. simpl. rewrite Hids.
      repeat split; try assumption.
      unfold newPreferenceTags. destruct ids; reflexivity. }
    apply Hdone. destruct ids as [|t ts]; [reflexivity|].
    destruct Hok as [Hok|Hok]; [now subst insertWrite | discriminate].
  - intros message insertWrite. simpl. rewrite Hp. repeat split.
  - intros message Hne. destruct ids as [|t ts]; [congruence|].
    simpl. rewrite Hp. repeat split.
Qed.

(** X25.  [fetchPreferences] does nothing without a signed-in user.
    When the backend has no row for the user, the preferences become
    the defaults (4 meals a week, 2 servings, no goals, no tags, empty
    identifier), or the row the backend creates, with an empty tag
    list; the provider is initialized either way.  When a row is read,
    its tag list is the list of tag identifiers read, or empty when
    that read gave nothing: it is never missing.  When the read fails
    the preferences stay as they were, the message is stored and
    logged, and nothing is thrown. *)
Theorem fetchPreferences_outcome userId read tagsRead create st :
  (hasUser userId = false ->
   fetchPreferences userId read tagsRead create st = st)
  /\ (forall user,
         userId = Some user -> user <> ""%string ->
         let st' := fetchPreferences userId read tagsRead create st in
         up_loading st' = false
         /\ (read = ReadNotFound ->
             up_initialized st' = true /\ up_error st' = None
             /\ ((forall data, create <> CreateResolved (Some data) None) ->
                 preferences st' = Some (defaultPrefs user)
                 /\ hasPreferences st' = false)
             /\ (forall data,
                    create = CreateResolved (Some data) None ->
                    preferences st' = Some (withPreferenceTags data [])))
         /\ (forall prefData,
                read = ReadRow (Some prefData) ->
                up_initialized st' = true /\ up_error st' = None
                /\ preferences st'
                   = Some (withPreferenceTags prefData
                             (map (fun t => {| tag_id := t; priority := None |})
                                  (or_empty (tr_data tagsRead))))
                /\ getPreferenceTagIds st' = or_empty (tr_data tagsRead))
         /\ (forall message,
                read = ReadRejected message \/ read = ReadFailed message ->
                preferences st' = preferences st
                /\ up_initialized st' = up_initialized st
                /\ up_error st' = Some message
                /\ up_console_error st'
                   = up_console_error st
                     ++ [("Error fetching user preferences:"%string, message)])).
Proof.
  split.
  - unfold hasUser, fetchPreferences. destruct userId as [u|]; [|reflexivity].
    intro H. apply negb_false_iff in H. now rewrite H.
  - intros user Hu Hne st'. subst st'. unfold fetchPreferences. rewrite Hu.
    apply String.eqb_neq in Hne. rewrite Hne.
    split; [|split; [|split]].
    + destruct read as [m| |m|[row|]]; reflexivity.
    + intro Hread. subst read. unfold createDefaultPreferences.
      split; [destruct create as [m|[d|] [m|]]; reflexivity|].
      split; [destruct create as [m|[d|] [m|]]; reflexivity|].
      split.
      * intro Hnot. destruct create as [m|[d|] [m|]]; simpl;
          try (split; reflexivity).
        exfalso. now apply (Hnot d).
      * intros data Hcreate. now subst create.
    + intros prefData Hread. subst read. simpl.
      unfold getPreferenceTagIds. simpl.
      destruct (tr_error tagsRead); simpl; repeat split;
        rewrite map_map; simpl; apply map_id.
    + intros message [Hread|Hread]; subst read; simpl; repeat split.
Qed.

End PreferencesCoverage.
(* ================================================================== *)
(** * The week calendar *)
(* ================================================================== *)

Module WeeksCoverage.

Import JS JSFacts WeeksProvider CoverageSpec.
Import ServiceCoverage PlanCoverage.

Lemma mathRound_weeks (a : Z) :
  mathRound (inject_Z a / inject_Z MS_PER_WEEK)
  = (a * 2 + MS_PER_WEEK) / (MS_PER_WEEK * 2).
Proof.
  unfold mathRound, Qfloor, Qdiv, Qinv, Qmult, Qplus, inject_Z, MS_PER_WEEK.
  simpl. f_equal. lia.
Qed.

Lemma offset_of_shift (k d : Z) :
  - MS_PER_WEEK <= 2 * d < MS_PER_WEEK ->
  mathRound (inject_Z (k * MS_PER_WEEK + d) / inject_Z MS_PER_WEEK) = k.
Proof.
  intro Hd. rewrite mathRound_weeks. symmetry.
  apply (Z.div_unique _ _ k (2 * d + MS_PER_WEEK)).
  - left. unfold MS_PER_WEEK in *. lia.
  - unfold MS_PER_WEEK in *. lia.
Qed.

Lemma weekOffset_current_aux data today week :
  (forall cur k d,
      find is_current_week data = Some cur ->
      start_date week = start_date cur + k * MS_PER_WEEK + d ->
      - MS_PER_WEEK <= 2 * d < MS_PER_WEEK ->
      weekOffset (processWeek data today week) = k)
  /\ (find is_current_week data = Some week ->
      weekOffset (processWeek data today week) = 0)
  /\ (find is_current_week data = None ->
      weekOffset (processWeek data today week) = 0).
Proof.
  unfold processWeek, computeOffset. simpl. split; [|split].
  - intros cur k d Hcur Hstart Hd. rewrite Hcur, Hstart.
    replace (start_date cur + k * MS_PER_WEEK + d - start_date cur)
      with (k * MS_PER_WEEK + d) by lia.
    now apply offset_of_shift.
  - intro Hcur. rewrite Hcur.
    replace (start_date week - start_date week) with (0 * MS_PER_WEEK + 0) by lia.
    apply offset_of_shift. unfold MS_PER_WEEK. lia.
  - intro Hnone. now rewrite Hnone.
Qed.

(** The status a week gets from [fetchWeeks]: a week flagged current is
    "current" whatever its dates; another week is "past" exactly when
    its end date lies before today. *)
Lemma computed_status data today week :
  (status (processWeek data today week) = current
   <-> is_current_week week = true)
  /\ (status (processWeek data today week) = past
      <-> is_current_week week = false /\ end_date week < today).
Proof.
  unfold processWeek, computeStatus. simpl.
  destruct (is_current_week week); simpl.
  - split; split; try tauto; try discriminate. intros [H _]. discriminate.
  - destruct (Z.ltb_spec (end_date week) today).
    + split; split; try discriminate; try tauto.
    + destruct (Z.ltb today (start_date week));
        split; split; try discriminate; intros [_ H']; lia.
Qed.

(** X26.  The offset of a week is the number of whole weeks between its
    start and the start of the first week flagged current in the data,
    rounded to the nearest week: a start that lies [k] weeks and less
    than half a week away (as under a daylight-saving shift) gives
    [k]; without a current week in the data every offset is 0.  A week
    flagged current gets the status "current" whatever its dates, and
    another week is "past" exactly when its end date lies before
    today. *)
Theorem processWeek_offset_and_status data today week :
  (forall cur k d,
      find is_current_week data = Some cur ->
      start_date week = start_date cur + k * MS_PER_WEEK + d ->
      - MS_PER_WEEK <= 2 * d < MS_PER_WEEK ->
      weekOffset (processWeek data today week) = k)
  /\ (find is_current_week data = None ->
      weekOffset (processWeek data today week) = 0)
  /\ (status (processWeek data today week) = current
      <-> is_current_week week = true)
  /\ (status (processWeek data today week) = past
      <-> is_current_week week = false /\ end_date week < today).
Proof.
  destruct (weekOffset_current_aux data today week) as (Hk & _ & H0).
  destruct (computed_status data today week) as [Hc Hp].
  split; [exact Hk|]. split; [exact H0|]. split; [exact Hc | exact Hp].
Qed.

(** ** What [fetchWeeks] stores *)

Lemma find_processed (f : WeekRow -> WeekWithComputed) (rows : list WeekRow) :
  (forall row, week_row (f row) = row) ->
  find (fun w => is_current_week (week_row w)) (map f rows)
  = option_map f (find is_current_week rows).
Proof.
  intro Hf. unfold find. induction rows as [|row rows IH]; simpl; [reflexivity|].
  rewrite Hf. destruct (is_current_week row); [reflexivity | exact IH].
Qed.

Lemma find_current_flag rows row :
  find is_current_week rows = Some row ->
  In row rows /\ is_current_week row = true.
Proof. unfold find. apply find_some. Qed.

Lemma find_current_none rows row :
  find is_current_week rows = None -> In row rows -> is_current_week row = false.
Proof. unfold find. intros Hnone Hin. exact (find_none _ _ Hnone row Hin). Qed.

Lemma title_of_backend week offset :
  hasBackendTitle week = true ->
  Some (computeTitle week offset) = display_title week.
Proof.
  unfold hasBackendTitle, computeTitle.
  destruct (display_title week) as [[|c rest]|]; try discriminate. reflexivity.
Qed.

Lemma title_without_backend week offset :
  hasBackendTitle week = false ->
  computeTitle week offset
  = if is_current_week week then "This week"%string
    else if Z.eqb offset 1 then "Next week"%string
    else if Z.eqb offset (-1) then "Last week"%string
    else if Z.ltb 1 offset then
      String.append "In " (String.append (showInteger offset) " weeks")
    else if Z.ltb offset (-1) then
      String.append (showInteger (Z.abs offset)) " weeks ago"
    else ""%string.
Proof.
  unfold hasBackendTitle, computeTitle.
  destruct (display_title week) as [[|c rest]|]; try discriminate; reflexivity.
Qed.

(** X27.  After a successful [fetchWeeks] whose data flags a current
    week, the provider holds one computed week per row, in the rows'
    order, and [currentWeek] is the computed form of the first flagged
    row: it is one of the stored weeks, its offset is 0, its status is
    "current", and its title is the backend's title when there is one
    and "This week" otherwise.  No error is left, loading is cleared
    and the provider is initialized. *)
Theorem fetchWeeks_with_current_week data today st row :
  let rows := or_empty data in
  let st' := fetchWeeks (WeeksResolved data None) today st in
  find is_current_week rows = Some row ->
  map week_row (weeks st') = rows
  /\ (wk_loading st', wk_error st', wk_initialized st', wk_console st')
     = (false, None, true, wk_console st)
  /\ exists cur,
      currentWeek st' = Some cur
      /\ In cur (weeks st')
      /\ week_row cur = row
      /\ weekOffset cur = 0
      /\ status cur = current
      /\ (hasBackendTitle row = true -> Some (displayTitle cur) = display_title row)
      /\ (hasBackendTitle row = false -> displayTitle cur = "This week"%string).
Proof.
  intros rows st' Hcur. subst st'. unfold fetchWeeks. fold rows.
  rewrite (find_processed (processWeek rows today) rows) by reflexivity.
  rewrite Hcur. simpl.
  destruct (find_current_flag rows row Hcur) as [Hin Hflag].
  split; [rewrite map_map; simpl; apply map_id|].
  split; [reflexivity|].
  exists (processWeek rows today row).
  split; [reflexivity|]. split; [now apply in_map|]. split; [reflexivity|].
  split.
  { apply (proj1 (proj2 (weekOffset_current_aux rows today row))). exact Hcur. }
  split; [unfold processWeek, computeStatus; simpl; now rewrite Hflag|].
  split.
  - intro Ht. now apply title_of_backend.
  - intro Ht. unfold processWeek. simpl.
    rewrite title_without_backend by assumption. now rewrite Hflag.
Qed.

(** X28.  When the query of [fetchWeeks] fails (an error is reported
    or the call is rejected), the stored weeks, the current week and
    the [initialized] flag stay as they were, and the message is stored
    and logged.  When it succeeds with data in which no week is flagged
    current, the weeks are replaced but [currentWeek] keeps its
    previous value and a warning is logged; every stored week then has
    offset 0, a status other than "current", and an empty title unless
    the backend gave one. *)
Theorem fetchWeeks_without_current_week today st :
  (forall response message,
      response = WeeksRejected message
      \/ (exists data, response = WeeksResolved data (Some message)) ->
      let st' := fetchWeeks response today st in
      weeks st' = weeks st /\ currentWeek st' = currentWeek st
      /\ wk_initialized st' = wk_initialized st
      /\ wk_error st' = Some message /\ wk_loading st' = false
      /\ wk_console st'
         = wk_console st ++ [("Error fetching weeks:"%string, message)])
  /\ (forall data,
         let rows := or_empty data in
         let st' := fetchWeeks (WeeksResolved data None) today st in
         find is_current_week rows = None ->
         map week_row (weeks st') = rows
         /\ currentWeek st' = currentWeek st
         /\ (wk_loading st', wk_error st', wk_initialized st')
            = (false, None, true)
         /\ wk_console st'
            = wk_console st
              ++ [("warn"%string, "⚠️ No current week found in data"%string)]
         /\ forall w, In w (weeks st') ->
                      weekOffset w = 0
                      /\ status w <> current
                      /\ (hasBackendTitle (week_row w) = false ->
                          displayTitle w = ""%string)).
Proof.
  split.
  - intros response message [Hr | [data Hr]] st'; subst st' response;
      simpl; repeat split.
  - intros data rows st' Hnone. subst st'. unfold fetchWeeks. fold rows.
    rewrite (find_processed (processWeek rows today) rows) by reflexivity.
    rewrite Hnone. simpl.
    split; [rewrite map_map; simpl; apply map_id|].
    split; [reflexivity|]. split; [reflexivity|]. split; [reflexivity|].
    intros w Hw. apply in_map_iff in Hw. destruct Hw as (row & Hrow & Hin).
    subst w.
    pose proof (find_current_none rows row Hnone Hin) as Hflag.
    assert (Hoff : weekOffset (processWeek rows today row) = 0)
      by (apply (weekOffset_current_aux rows today row); exact Hnone).
    split; [exact Hoff|]. split.
    + unfold processWeek, computeStatus. simpl. rewrite Hflag.
      destruct (Z.ltb (end_date row) today); [discriminate|].
      destruct (Z.ltb today (start_date row)); discriminate.
    + intro Ht. unfold processWeek in *. simpl in *.
      rewrite title_without_backend by assumption.
      rewrite Hflag, Hoff. reflexivity.
Qed.

(** ** Queries on the stored weeks *)

Section Queries.

Context {engine : ArraySort}.
Variable allWeeks : list WeekWithComputed.

(** X29.  [getWeeksRange] returns exactly the stored weeks whose
    offset lies between the two bounds (none when the bounds are
    reversed).  [navigateToNextWeek] and [navigateToPreviousWeek]
    return nothing without a current week, and otherwise a stored week
    whose offset is the current one plus or minus 1, when there is
    one; [navigateToWeek] and [navigateToOffset] are the plain
    lookups. *)
Theorem week_range_and_navigation :
  (forall a b w,
      In w (getWeeksRange allWeeks a b)
      <-> In w allWeeks /\ a <= weekOffset w <= b)
  /\ (forall a b, b < a -> getWeeksRange allWeeks a b = [])
  /\ navigateToNextWeek allWeeks None = None
  /\ navigateToPreviousWeek allWeeks None = None
  /\ (forall cur w,
         navigateToNextWeek allWeeks (Some cur) = Some w ->
         In w allWeeks /\ weekOffset w = weekOffset cur + 1)
  /\ (forall cur w,
         navigateToPreviousWeek allWeeks (Some cur) = Some w ->
         In w allWeeks /\ weekOffset w = weekOffset cur - 1)
  /\ (forall cur,
         navigateToNextWeek allWeeks (Some cur) = None
         <-> forall w, In w allWeeks -> weekOffset w <> weekOffset cur + 1)
  /\ (forall weekId, navigateToWeek allWeeks weekId = getWeekById allWeeks weekId)
  /\ (forall offset,
         navigateToOffset allWeeks offset = getWeekByOffset allWeeks offset).
Proof.
  assert (Hnav : forall offset, navigateToOffset allWeeks offset
                                = getWeekByOffset allWeeks offset).
  { intro offset. unfold navigateToOffset.
    now destruct (getWeekByOffset allWeeks offset). }
  assert (Hfound : forall offset w,
             getWeekByOffset allWeeks offset = Some w ->
             In w allWeeks /\ weekOffset w = offset).
  { intros offset w Hfind. unfold getWeekByOffset, find in Hfind.
    apply find_some in Hfind. destruct Hfind as [Hin Heq].
    split; [assumption | now apply Z.eqb_eq]. }
  split; [|split; [|split; [|split; [|split; [|split; [|split; [|split]]]]]]].
  - intros a b w. unfold getWeeksRange. rewrite filter_In, andb_true_iff.
    rewrite !Z.leb_le. tauto.
  - intros a b Hba. unfold getWeeksRange. apply filter_none_kept.
    intros w _. apply andb_false_iff.
    destruct (Z.leb_spec a (weekOffset w)); [right | now left].
    apply Z.leb_gt. lia.
  - reflexivity.
  - reflexivity.
  - intros cur w Hnext. unfold navigateToNextWeek in Hnext.
    rewrite Hnav in Hnext. now apply Hfound.
  - intros cur w Hprev. unfold navigateToPreviousWeek in Hprev.
    rewrite Hnav in Hprev. now apply Hfound.
  - intro cur. unfold navigateToNextWeek. rewrite Hnav.
    unfold getWeekByOffset, find. split.
    + intros Hnone w Hin Hoff.
      pose proof (find_none _ _ Hnone w Hin) as Hneq. simpl in Hneq.
      apply Z.eqb_neq in Hneq. contradiction.
    + intro Hall.
      destruct (List.find _ allWeeks) as [w|] eqn:Hfind; [|reflexivity].
      apply find_some in Hfind. destruct Hfind as [Hin Heq].
      apply Z.eqb_eq in Heq. exfalso. now apply (Hall w).
  - intro weekId. unfold navigateToWeek. now destruct (getWeekById allWeeks weekId).
  - exact Hnav.
Qed.

Lemma status_of_lookup weekId w :
  getWeekById allWeeks weekId = Some w ->
  isPastWeek allWeeks weekId = WeekStatus_eqb (status w) past
  /\ isFutureWeek allWeeks weekId = WeekStatus_eqb (status w) future
  /\ isCurrentWeek allWeeks weekId = is_current_week (week_row w).
Proof.
  intro Hw. unfold isPastWeek, isFutureWeek, isCurrentWeek. now rewrite Hw.
Qed.

(** X30.  [getUpcomingWeeks] lists stored weeks that are not past,
    [count] of them or all when they are fewer (for a count that is not
    negative); [getPastWeeks] lists only past weeks, and on an engine
    that sorts by a consistent comparator the later start date comes
    first.  For an unknown
    identifier [isCurrentWeek], [isPastWeek] and [isFutureWeek] are all
    false, and no identifier is both past and future. *)
Theorem upcoming_and_past_weeks :
  (forall count w,
      In w (getUpcomingWeeks allWeeks count) ->
      In w allWeeks /\ status w <> past)
  /\ (forall count,
         0 <= count ->
         List.length (getUpcomingWeeks allWeeks count)
         = Nat.min (Z.to_nat count)
                   (List.length
                      (filter (fun w => negb (WeekStatus_eqb (status w) past))
                              allWeeks)))
  /\ (forall rnd count w,
         In w (getPastWeeks allWeeks rnd count) ->
         In w allWeeks /\ status w = past)
  /\ (SortsByComparator engine ->
      forall rnd count,
        StronglySorted
          (descending (fun w => inject_Z (start_date (week_row w))))
          (getPastWeeks allWeeks rnd count))
  /\ (forall weekId,
         getWeekById allWeeks weekId = None ->
         isCurrentWeek allWeeks weekId = false
         /\ isPastWeek allWeeks weekId = false
         /\ isFutureWeek allWeeks weekId = false)
  /\ (forall weekId,
         isPastWeek allWeeks weekId = true -> isFutureWeek allWeeks weekId = false).
Proof.
  assert (Hsame : forall w,
             WeekStatus_eqb (status w) current || WeekStatus_eqb (status w) future
             = negb (WeekStatus_eqb (status w) past))
    by (intro w; now destruct (status w)).
  split; [|split; [|split; [|split; [|split]]]].
  - intros count w Hin. unfold getUpcomingWeeks in Hin. apply In_slice0 in Hin.
    apply filter_In in Hin. destruct Hin as [Hin Hst].
    split; [assumption|]. intro Hpast. rewrite Hpast in Hst. discriminate.
  - intros count Hcount. unfold getUpcomingWeeks.
    rewrite slice0_length_exact by assumption.
    now rewrite (filter_ext _ _ Hsame).
  - intros rnd count w Hin. unfold getPastWeeks in Hin. apply In_slice0 in Hin.
    eapply Permutation_in in Hin; [|apply sort_permutation].
    apply filter_In in Hin. destruct Hin as [Hin Hst].
    split; [assumption|]. now destruct (status w).
  - intros Hlaw rnd count. unfold getPastWeeks.
    match goal with
    | |- StronglySorted _ (slice0 ?l ?e) =>
        destruct (slice0_is_prefix l e) as [n Hn]; rewrite Hn;
        assert (Hs : StronglySorted
                       (descending (fun w => inject_Z (start_date (week_row w)))) l)
    end.
    { apply Hlaw. intros a b _ _ u.
      change 0%Q with (inject_Z 0). rewrite <- !Zlt_Qlt. lia. }
    match type of Hs with
    | StronglySorted _ ?l => rewrite <- (firstn_skipn n l) in Hs
    end.
    now apply sorted_app_cross in Hs.
  - intros weekId Hnone. unfold isCurrentWeek, isPastWeek, isFutureWeek.
    rewrite Hnone. repeat split.
  - intros weekId Hpast. unfold isPastWeek, isFutureWeek in *.
    destruct (getWeekById allWeeks weekId) as [w|]; [|reflexivity].
    now destruct (status w).
Qed.

End Queries.

End WeeksCoverage.
(* ================================================================== *)
(** * Worked examples for the further properties *)
(* ================================================================== *)

Module CoverageExamples.

Import JS JSFacts RecipeRecommendationService ScoringSpec CoverageSpec.
Import MealPlanProvider MealPlanStore PlanSpec Fixtures CoverageFixtures.
Import SelectorFacts ServiceCoverage PlanFacts PlanCoverage StoreCoverage.
Import CatalogCoverage.
Open Scope string_scope.

Definition select := SelectorExamples.select.
Definition ids := SelectorExamples.ids.

Ltac default_weights := vm_compute; repeat split; discriminate.

Lemma default_scoring_exact : exactScoring DEFAULT_CONFIG prefs.
Proof.
  split; [exists 1024; split; [vm_compute; discriminate | reflexivity]|].
  split; [exists 2048; split; [vm_compute; discriminate | reflexivity]|].
  split; [exists 512; split; [vm_compute; discriminate | reflexivity]|].
  split; [exists (-512); split; [vm_compute; discriminate | reflexivity]|].
  simpl. lia.
Qed.

Lemma score_closed_form_witness :
  (score (scoreRecipe DEFAULT_CONFIG quickCurry prefs taxonomy planned)
   == 1 * 1 + 4 + (1 # 2) + 0)%Q
  /\ matchedTagIds (scoreRecipe DEFAULT_CONFIG quickCurry prefs taxonomy planned)
     = ["t-thai"].
Proof.
  destruct (score_closed_form DEFAULT_CONFIG prefs taxonomy planned quickCurry
                              default_scoring_exact)
    as (Hscore & _ & _ & _ & Hmatched).
  split.
  - rewrite Hscore. reflexivity.
  - rewrite Hmatched. reflexivity.
Defined.

Example curry_score_terms :
  scoreBreakdown (scoreRecipe DEFAULT_CONFIG quickCurry prefs taxonomy planned)
  = {| preferenceTagMatches := 1; goalAlignment := 4;
       diversityBonus := 1 # 2; recencyPenalty := 0;
       total := (1 + 4 + (1 # 2) + 0)%Q |}.
Proof. reflexivity. Qed.

Lemma recommendation_is_scored_candidate_witness :
  ~ In "r-curry" ["r-stew"]
  /\ ge_opt (score (scoreRecipe DEFAULT_CONFIG quickCurry prefs taxonomy
                                (contextOf withoutStew)))
            (minimumScore DEFAULT_CONFIG) = true.
Proof.
  destruct (recommendation_is_scored_candidate
              (engine := insertionEngine) DEFAULT_CONFIG draws catalog prefs
              taxonomy withoutStew
              (scoreRecipe DEFAULT_CONFIG quickCurry prefs taxonomy
                           (contextOf withoutStew)))
    as (_ & Hex & _ & Hmin).
  - vm_compute. left. reflexivity.
  - split; [exact Hex | exact Hmin].
Defined.

Lemma getRecommendations_fills_request_witness :
  List.length (select draws catalog prefs taxonomy (optionsFor 2 [] [])) = 2%nat.
Proof.
  destruct (getRecommendations_fills_request
              (engine := insertionEngine) DEFAULT_CONFIG draws catalog prefs
              taxonomy (optionsFor 2 [] [])) as [_ Hfill].
  - simpl. lia.
  - unfold select, SelectorExamples.select. rewrite Hfill.
    + reflexivity.
    + default_weights.
    + exists 0%Q. split; [reflexivity | discriminate].
    + intros recipe _. reflexivity.
Defined.

Lemma no_minimum_score_witness :
  getRecommendations (engine := insertionEngine) noFloorConfig draws catalog
                     prefs taxonomy (optionsFor 2 [] []) = [].
Proof. apply no_minimum_score_no_recommendations. reflexivity. Defined.

Lemma getRandomRecommendations_witness :
  List.length (getRandomRecommendations (engine := insertionEngine)
                 draws catalog 5 ["r-stew"]) = 2%nat
  /\ NoDup (map recipe_id
                (getRandomRecommendations (engine := insertionEngine)
                   draws catalog 5 ["r-stew"])).
Proof.
  destruct (getRandomRecommendations_sample
              (engine := insertionEngine) draws catalog 5 ["r-stew"])
    as (_ & Hlen & Hnd).
  split.
  - rewrite Hlen by lia. reflexivity.
  - apply Hnd. simpl. distinct_strings.
Defined.

Lemma catalog_without_near_ties :
  noNearTies
    (validRecipes DEFAULT_CONFIG
       (scoredRecipes DEFAULT_CONFIG catalog prefs taxonomy (optionsFor 2 [] []))).
Proof.
  intros a b Ha Hb Hab. vm_compute in Ha, Hb.
  destruct Ha as [Ha|[Ha|[Ha|[]]]]; destruct Hb as [Hb|[Hb|[Hb|[]]]];
    subst a b; try (exfalso; apply Hab; reflexivity); vm_compute; discriminate.
Qed.

Lemma recommendations_are_ranked_witness :
  StronglySorted (descending score)
                 (select draws catalog prefs taxonomy (optionsFor 2 [] [])).
Proof.
  apply (recommendations_are_ranked
           (engine := insertionEngine) DEFAULT_CONFIG draws catalog prefs taxonomy
           (optionsFor 2 [] [])).
  - exact insertionEngine_sorts_distinct.
  - exact default_scoring_exact.
  - simpl. distinct_strings.
  - exact catalog_without_near_ties.
Defined.

(** The engine that tests for a negative answer gives the same
    ranking. *)
Example ranking_on_the_second_engine :
  map (fun r => recipe_id (scored_recipe r))
      (getRecommendations (engine := aheadEngine) DEFAULT_CONFIG draws catalog
                          prefs taxonomy (optionsFor 2 [] []))
  = ids (select draws catalog prefs taxonomy (optionsFor 2 [] [])).
Proof. vm_compute. reflexivity. Qed.


(** ** The provider *)

Definition generated : ProviderState := PlanExamples.threeMeals.

Lemma getFilteredRecipes_witness :
  In quickCurry (UseRecipeRecommendations.getFilteredRecipes catalog savedPrefs)
  /\ UseRecipeRecommendations.getFilteredRecipes catalog newUser = catalog.
Proof.
  destruct (getFilteredRecipes_by_preferred_tags catalog savedPrefs)
    as (_ & _ & Hin).
  destruct (getFilteredRecipes_by_preferred_tags catalog newUser)
    as (_ & Hall & _).
  split.
  - apply Hin.
    + reflexivity.
    + split; [left; reflexivity|].
      exists "t-thai". split; [right; left; reflexivity | reflexivity].
  - apply Hall. reflexivity.
Defined.

Lemma hook_recommendations_witness :
  UseRecipeRecommendations.getRecommendations
    (engine := insertionEngine) DEFAULT_CONFIG catalog taxonomy draws prefs
    (optionsFor 2 [] [])
  = getRecommendations (engine := insertionEngine) DEFAULT_CONFIG draws catalog
                       prefs taxonomy (optionsFor 2 [] [])
  /\ UseRecipeRecommendations.getRecommendations
       (engine := insertionEngine) DEFAULT_CONFIG [] taxonomy draws prefs
       (optionsFor 2 [] []) = [].
Proof.
  destruct (hook_recommendations_paths
              (engine := insertionEngine) DEFAULT_CONFIG catalog taxonomy draws
              prefs (optionsFor 2 [] [])) as (_ & _ & Hsvc).
  destruct (hook_recommendations_paths
              (engine := insertionEngine) DEFAULT_CONFIG [] taxonomy draws
              prefs (optionsFor 2 [] [])) as (Hnone & _).
  split.
  - apply Hsvc; [discriminate | left; reflexivity].
  - apply Hnone. reflexivity.
Defined.

Lemma generateInitialMealPlan_shape_witness :
  map id (currentMealPlan generated)
  = map mealIds (seq 0 (List.length (currentMealPlan generated)))
  /\ Z.of_nat (List.length (currentMealPlan generated)) <= 4.
Proof.
  destruct (generateInitialMealPlan_shape
              (engine := insertionEngine) DEFAULT_CONFIG catalog taxonomy
              (Some prefs) [] draws mealIds initialState) as [_ Hshape].
  destruct (Hshape prefs eq_refl) as (_ & _ & Hids & Hsize).
  split; [exact Hids | apply Hsize; simpl; lia].
Defined.

Lemma generateInitialMealPlan_size_witness :
  List.length (currentMealPlan generated) = 3%nat.
Proof.
  unfold generated, PlanExamples.threeMeals, PlanExamples.run.
  cbn [runOps fold_left applyOp].
  rewrite (generateInitialMealPlan_size
             (engine := insertionEngine) DEFAULT_CONFIG catalog taxonomy
             (Some prefs) prefs).
  - reflexivity.
  - reflexivity.
  - default_weights.
  - exists 0%Q. split; [reflexivity | discriminate].
  - simpl. lia.
Defined.

Lemma addMealToPlan_appends_witness :
  exists entry,
    currentMealPlan
      (addMealToPlan (Some prefs) (currentMealPlan PlanExamples.oneMeal)
                     cheapStew (Some 0) "meal_b" PlanExamples.oneMeal)
    = (currentMealPlan PlanExamples.oneMeal ++ [entry])%list
    /\ servings entry = 2.
Proof.
  destruct (addMealToPlan_appends
              (Some prefs) (currentMealPlan PlanExamples.oneMeal)
              cheapStew (Some 0) "meal_b" PlanExamples.oneMeal eq_refl)
    as (entry & Happ & _ & _ & _ & _ & Hdef & _).
  exists entry. split; [exact Happ|].
  apply (Hdef (or_intror eq_refl) prefs 2 eq_refl eq_refl). discriminate.
Defined.

Lemma regenerateMealPlan_witness :
  regenerateMealPlan (engine := insertionEngine) DEFAULT_CONFIG catalog taxonomy
                     None (currentMealPlan generated) draws mealIds generated
  = clearMealPlan generated
  /\ regenerateMealPlan (engine := insertionEngine) DEFAULT_CONFIG catalog
                        taxonomy (Some prefs) [] draws mealIds generated
     = generateInitialMealPlan (engine := insertionEngine) DEFAULT_CONFIG catalog
                               taxonomy (Some prefs) [] draws mealIds generated.
Proof.
  destruct (regenerateMealPlan_discards
              (engine := insertionEngine) DEFAULT_CONFIG catalog taxonomy None
              draws mealIds generated) as (Hclear & _).
  destruct (regenerateMealPlan_discards
              (engine := insertionEngine) DEFAULT_CONFIG catalog taxonomy
              (Some prefs) draws mealIds generated) as (_ & Hgen & _).
  split.
  - apply Hclear. reflexivity.
  - apply (Hgen prefs). reflexivity.
Defined.

Lemma removeMealFromPlan_witness :
  getMealById (currentMealPlan (removeMealFromPlan "meal_1" generated)) "meal_0"
  = getMealById (currentMealPlan generated) "meal_0"
  /\ removeMealFromPlan "meal_9" generated = generated.
Proof.
  destruct (removeMealFromPlan_spec "meal_1" generated)
    as (_ & _ & Hother & _).
  destruct (removeMealFromPlan_spec "meal_9" generated)
    as (_ & _ & _ & Hsame & _).
  split.
  - apply Hother. discriminate.
  - apply Hsame. intros meal Hin. vm_compute in Hin.
    destruct Hin as [H|[H|[H|[]]]]; subst meal; discriminate.
Defined.



(** ** Saved plans *)

Lemma getAvailableRecipes_witness :
  getAvailableRecipes catalog None (currentMealPlan generated) = catalog
  /\ In quickCurry (getAvailableRecipes catalog (Some savedPrefs) []).
Proof.
  destruct (getAvailableRecipes_spec catalog None (currentMealPlan generated))
    as [Hnone _].
  destruct (getAvailableRecipes_spec catalog (Some savedPrefs) [])
    as [_ Hsome].
  split.
  - apply Hnone. reflexivity.
  - apply (Hsome savedPrefs eq_refl). split.
    + vm_compute. left. reflexivity.
    + reflexivity.
Defined.

Lemma saved_rows_witness :
  recipe (hydrate catalog curryRow) = quickCurry
  /\ recipe_name (recipe (hydrate catalog goneRow)) = "Retired soup"
  /\ tagIds (recipe (hydrate catalog goneRow)) = Some [].
Proof.
  destruct (saved_rows_are_hydrated catalog [curryRow; goneRow]) as [_ Hrow].
  destruct (Hrow curryRow) as (_ & _ & _ & _ & Hfound & _).
  destruct (Hrow goneRow) as (_ & _ & _ & _ & _ & Hmissing).
  destruct (Hmissing eq_refl) as (Hname & _ & _ & Htags & _).
  split; [apply Hfound; reflexivity|].
  split; [exact Hname | exact Htags].
Defined.

Lemma loadMealPlanForWeek_saved_witness :
  map id
      (currentMealPlan
         (loadMealPlanForWeek (engine := insertionEngine) DEFAULT_CONFIG catalog
                              taxonomy (Some prefs) [] savedWeek "week-1" draws
                              mealIds initialState))
  = ["saved_41"; "saved_42"].
Proof.
  rewrite (loadMealPlanForWeek_saved_plan
             (engine := insertionEngine) DEFAULT_CONFIG catalog taxonomy
             (Some prefs) [] savedWeek "week-1" draws mealIds initialState
             curryRow [goneRow]).
  - reflexivity.
  - reflexivity.
Defined.

Lemma week_store_writes_witness :
  snd (saveMealPlanForWeek (Some "u1") (currentMealPlan generated) acceptReplace
                           "week-1" None None generated) = inr tt
  /\ snd (saveMealPlanForWeek (Some "u1") (currentMealPlan generated)
                              refuseReplace "week-1" None (Some confirmed)
                              generated)
     = inl "permission denied"
  /\ error (fst (updateMealPlanStatus (Some "u1") refuseStatus "week-1"
                                      confirmed generated))
     = Some "offline".
Proof.
  destruct (week_store_writes (Some "u1") (currentMealPlan generated) "week-1"
                              generated) as [Hsave Hstatus].
  destruct (Hsave acceptReplace None None) as (_ & _ & _ & Hok & _).
  destruct (Hsave refuseReplace None (Some confirmed)) as (_ & _ & _ & _ & Hbad).
  destruct (Hstatus refuseStatus confirmed) as (_ & _ & _ & _ & Hoff).
  split; [apply Hok; reflexivity|].
  split.
  - apply (Hbad "permission denied"). right. reflexivity.
  - apply (Hoff "offline"). left. reflexivity.
Defined.

(** ** The fallback of a load *)

Lemma loadMealPlanForWeek_witness :
  List.length (currentMealPlan (PlanExamples.load networkDown)) = 3%nat
  /\ console_error (PlanExamples.load networkDown)
     = [("Error fetching meal plan:", "network down")]
  /\ error (PlanExamples.load networkDown) = None.
Proof.
  destruct (loadMealPlanForWeek_fallback
              (engine := insertionEngine) DEFAULT_CONFIG catalog taxonomy
              (Some prefs) [] networkDown "week-1" draws mealIds initialState)
    as (Hflags & _ & Hlog & _ & Hplan).
  - right. exists "network down". constructor.
  - destruct (Hplan prefs eq_refl) as (_ & _ & _ & _ & Hsize).
    split; [|split].
    + unfold PlanExamples.load. rewrite Hsize.
      * reflexivity.
      * simpl. lia.
      * default_weights.
      * exists 0%Q. split; [reflexivity | discriminate].
    + apply (Hlog "network down"). constructor.
    + exact (f_equal snd Hflags).
Defined.

(** C8, the claim as stated fails.  Without user preferences the
    fallback generates nothing: after the plan of week 1 was loaded,
    loading week 2, for which the backend has no rows, leaves the plan
    of week 1 on display, and no error is set.  With an empty catalog
    the fallback after a failed fetch leaves an empty plan. *)
Lemma fallback_shows_no_fresh_plan :
  let weekOne :=
    loadMealPlanForWeek (engine := insertionEngine) DEFAULT_CONFIG catalog
                        taxonomy None [] weekOneOnly "week-1" draws mealIds
                        initialState in
  let weekTwo :=
    loadMealPlanForWeek (engine := insertionEngine) DEFAULT_CONFIG catalog
                        taxonomy None (currentMealPlan weekOne) weekOneOnly
                        "week-2" draws mealIds weekOne in
  let noCatalog :=
    loadMealPlanForWeek (engine := insertionEngine) DEFAULT_CONFIG []
                        taxonomy (Some prefs) [] networkDown "week-1" draws
                        mealIds initialState in
  map id (currentMealPlan weekTwo) = ["saved_41"; "saved_42"]
  /\ map week_id (currentMealPlan weekTwo) = [Some "week-1"; Some "week-1"]
  /\ error weekTwo = None
  /\ currentMealPlan noCatalog = []
  /\ error noCatalog = None.
Proof. vm_compute. repeat split. Qed.

(** ** The catalog *)

Lemma catalog_split_witness :
  In cheapStew (RecipeDataProvider.getRecipesByIds catalog ["r-stew"; "r-none"])
  /\ ~ In cheapStew (RecipeDataProvider.getRecipesExcluding catalog ["r-stew"]).
Proof.
  destruct (catalog_split_by_ids catalog ["r-stew"; "r-none"]) as (_ & Hby & _).
  destruct (catalog_split_by_ids catalog ["r-stew"]) as (_ & _ & Hex & _).
  split.
  - apply Hby. split; [right; left; reflexivity | left; reflexivity].
  - intros Hin. apply Hex in Hin. destruct Hin as [_ Hout].
    apply Hout. left. reflexivity.
Defined.

Lemma getRecipeById_witness :
  RecipeDataProvider.getRecipeById catalog "r-toast" = Some plainToast
  /\ RecipeDataProvider.getRecipeById catalog "r-gone" = None.
Proof.
  destruct (getRecipeById_lookup catalog "r-toast") as (_ & _ & _ & Hfind).
  destruct (getRecipeById_lookup catalog "r-gone") as (_ & Hnone & _).
  split.
  - apply (Hfind ltac:(simpl; distinct_strings) plainToast).
    right; right; left; reflexivity.
  - apply Hnone. simpl. intros [H|[H|[H|[]]]]; discriminate.
Defined.

End CoverageExamples.

Module PreferencesExamples.

Import JS JSFacts UserPreferencesProvider Fixtures CoverageFixtures.
Import PreferencesCoverage.
Open Scope string_scope.

Definition signedIn : option string := Some "u1".

Lemma updates_need_saved_preferences_witness :
  updateGoals signedIn None None ["budget"] prefsLoaded = (prefsLoaded, inr tt)
  /\ updateMealsPerWeek None (Some savedPrefs) None 5 prefsLoaded
     = (prefsLoaded, inr tt).
Proof.
  destruct (updates_need_saved_preferences signedIn None prefsLoaded)
    as (_ & _ & Hskip).
  destruct (updates_need_saved_preferences None (Some savedPrefs) prefsLoaded)
    as (_ & _ & Hanon).
  split.
  - destruct (Hskip eq_refl) as (_ & _ & Hgoals & _). apply Hgoals.
  - destruct (Hanon eq_refl) as (Hmeals & _). apply Hmeals.
Defined.

Lemma scalar_updates_witness :
  preferences (fst (updateMealsPerWeek signedIn (Some savedPrefs) None 5
                                       prefsLoaded))
  = Some (withMealsPerWeek savedPrefs 5)
  /\ preferences (fst (updateGoals signedIn (Some savedPrefs) (Some "timeout")
                                   ["budget"] prefsLoaded))
     = Some savedPrefs.
Proof.
  destruct (scalar_updates_outcome signedIn (Some savedPrefs) prefsLoaded
                                   savedPrefs eq_refl eq_refl)
    as (Hmeals & _ & _ & Hfail & _).
  split.
  - destruct (Hmeals 5) as (_ & Hnew & _). exact Hnew.
  - destruct (Hfail "timeout" 5 2 ["budget"]
                    (updateGoals signedIn (Some savedPrefs) (Some "timeout")
                                 ["budget"] prefsLoaded))
      as (_ & Hkept & _).
    + right. right. reflexivity.
    + exact Hkept.
Defined.

Lemma updatePreferenceTags_witness :
  getPreferenceTagIds
    (fst (updatePreferenceTags signedIn (Some savedPrefs) None None
                               ["t-quick"; "t-cheap"] prefsLoaded))
  = ["t-quick"; "t-cheap"]
  /\ snd (updatePreferenceTags signedIn (Some savedPrefs) None (Some "conflict")
                               ["t-quick"; "t-cheap"] prefsLoaded)
     = inl "conflict".
Proof.
  destruct (updatePreferenceTags_outcome signedIn (Some savedPrefs) prefsLoaded
                                        savedPrefs ["t-quick"; "t-cheap"]
                                        eq_refl eq_refl)
    as (Hok & _ & Hinsert).
  split.
  - destruct (Hok None (or_introl eq_refl)) as (_ & Hids & _). exact Hids.
  - destruct (Hinsert "conflict") as (Hthrown & _).
    + discriminate.
    + exact Hthrown.
Defined.

Lemma fetchPreferences_witness :
  getPreferenceTagIds
    (fetchPreferences signedIn (ReadRow (Some savedPrefs))
                      {| tr_data := Some ["t-cheap"]; tr_error := None |}
                      (CreateRejected "unused") initialPreferencesState)
  = ["t-cheap"]
  /\ fetchPreferences None (ReadRow (Some savedPrefs))
                      {| tr_data := None; tr_error := None |}
                      (CreateRejected "unused") prefsLoaded
     = prefsLoaded.
Proof.
  destruct (fetchPreferences_outcome
              signedIn (ReadRow (Some savedPrefs))
              {| tr_data := Some ["t-cheap"]; tr_error := None |}
              (CreateRejected "unused") initialPreferencesState)
    as [_ Hin].
  destruct (fetchPreferences_outcome
              None (ReadRow (Some savedPrefs))
              {| tr_data := None; tr_error := None |}
              (CreateRejected "unused") prefsLoaded)
    as [Hout _].
  split.
  - destruct (Hin "u1" eq_refl) as (_ & _ & Hrow & _).
    + discriminate.
    + destruct (Hrow savedPrefs eq_refl) as (_ & _ & _ & Hids). exact Hids.
  - apply Hout. reflexivity.
Defined.

End PreferencesExamples.

Module WeeksExamples.

Import JS JSFacts WeeksProvider CoverageSpec Fixtures CoverageFixtures.
Import ServiceCoverage WeeksCoverage.
Open Scope string_scope.

Definition loaded : list WeekWithComputed := weeks weeksLoaded.

Example loaded_weeks :
  map (fun w => (week_ident (week_row w), displayTitle w, weekOffset w, status w))
      loaded
  = [("w-1", "Last week", -1, past);
     ("w0", "6 - 12 Jan", 0, current);
     ("w2", "In 2 weeks", 2, future)].
Proof. vm_compute. reflexivity. Qed.

Lemma processWeek_witness :
  weekOffset (processWeek weekRows today inTwoWeeksRow) = 2
  /\ status (processWeek weekRows today lastWeekRow) = past.
Proof.
  destruct (processWeek_offset_and_status weekRows today inTwoWeeksRow)
    as (Hoffset & _).
  destruct (processWeek_offset_and_status weekRows today lastWeekRow)
    as (_ & _ & _ & Hpast).
  split.
  - apply (Hoffset thisWeekRow 2 3600000).
    + reflexivity.
    + reflexivity.
    + vm_compute. split; [discriminate | reflexivity].
  - apply Hpast. split; [reflexivity | reflexivity].
Defined.

Lemma fetchWeeks_with_current_week_witness :
  exists cur,
    currentWeek weeksLoaded = Some cur
    /\ week_row cur = thisWeekRow
    /\ displayTitle cur = "6 - 12 Jan".
Proof.
  destruct (fetchWeeks_with_current_week
              (Some weekRows) today initialWeeksState thisWeekRow eq_refl)
    as (_ & _ & cur & Hcur & _ & Hrow & _ & _ & Htitle & _).
  exists cur. split; [exact Hcur|]. split; [exact Hrow|].
  specialize (Htitle eq_refl). injection Htitle as Htitle. exact Htitle.
Defined.

Lemma fetchWeeks_without_current_week_witness :
  wk_error (fetchWeeks (WeeksRejected "offline") today weeksLoaded)
  = Some "offline"
  /\ weeks (fetchWeeks (WeeksRejected "offline") today weeksLoaded) = loaded
  /\ currentWeek (fetchWeeks (WeeksResolved (Some [lastWeekRow]) None) today
                             weeksLoaded)
     = currentWeek weeksLoaded.
Proof.
  destruct (fetchWeeks_without_current_week today weeksLoaded)
    as [Hfail Hnone].
  destruct (Hfail (WeeksRejected "offline") "offline" (or_introl eq_refl))
    as (Hweeks & _ & _ & Herr & _).
  destruct (Hnone (Some [lastWeekRow]) eq_refl) as (_ & Hcur & _).
  split; [exact Herr|]. split; [exact Hweeks | exact Hcur].
Defined.

Definition thisWeek : WeekWithComputed := processWeek weekRows today thisWeekRow.

Lemma week_range_and_navigation_witness :
  getWeeksRange loaded 1 0 = []
  /\ navigateToNextWeek loaded (Some thisWeek) = None
  /\ In thisWeek (getWeeksRange loaded 0 2).
Proof.
  destruct (week_range_and_navigation loaded)
    as (Hrange & Hempty & _ & _ & _ & _ & Hlast & _).
  split; [apply Hempty; reflexivity|].
  split.
  - apply Hlast. intros w Hin. vm_compute in Hin.
    destruct Hin as [H|[H|[H|[]]]]; subst w; vm_compute; discriminate.
  - apply Hrange. split.
    + vm_compute. right. left. reflexivity.
    + vm_compute. split; discriminate.
Defined.

Lemma upcoming_and_past_weeks_witness :
  List.length (getUpcomingWeeks loaded 5) = 2%nat
  /\ StronglySorted
       (descending (fun w => inject_Z (start_date (week_row w))))
       (getPastWeeks (engine := insertionEngine) loaded draws 3)
  /\ isFutureWeek loaded "w9" = false.
Proof.
  destruct (upcoming_and_past_weeks (engine := insertionEngine) loaded)
    as (_ & Hlen & _ & Hsorted & Hmissing & _).
  split; [rewrite Hlen by lia; reflexivity|].
  split.
  - apply Hsorted. exact insertionEngine_sorts.
  - destruct (Hmissing "w9" eq_refl) as (_ & _ & Hfuture). exact Hfuture.
Defined.

End WeeksExamples.
